(** * Inventory generation: tree builder, content-diff writer, reconciler

    A shallow embedding of [scripts/managers/inventory_manager.py]
    (class [InventoryManager]) and of the helpers it calls, together with the
    properties the design document states about them.

    Conventions of the embedding.
    - Python [str] values are Rocq strings over the ASCII alphabet; the
      [str] methods used by the code ([strip], [lower], [upper], [title],
      [replace], [startswith], [split]) are written out below on that
      alphabet.
    - Python dictionaries that are only ever compared with [==] and dumped
      with [sort_keys=True] are finite maps ([gmap]); dictionaries whose
      values are all [{}] (the [hosts] and [children] tables of a group) are
      finite sets of their keys ([gset]).
    - The file system is part of an explicit [World]; a method of the
      manager is a function in a state-and-exception monad over it. *)

From Stdlib Require Import Ascii.
From stdpp Require Import gmap strings list fin_maps sorting pretty.

(** ** Python [str] methods on ASCII text

    A text is a string of 8-bit characters. On ASCII text the methods below
    are the ones of Python. Python also knows the letters and the blanks
    beyond ASCII; the methods below leave every character from 128 on as it
    is and take it for neither a letter nor a blank. *)

Module PyStr.

Abbreviation LF := ("010"%char).

(** [str.isspace] on one ASCII character: TAB, LF, VT, FF, CR, the four
    separators FS, GS, RS, US, and the blank. *)
Definition isspace (c : ascii) : bool :=
  match c with
  | "009" | "010" | "011" | "012" | "013"
  | "028" | "029" | "030" | "031" | " " => true
  | _ => false
  end%char.

Definition isupper (c : ascii) : bool :=
  let n := nat_of_ascii c in (65 <=? n) && (n <=? 90).
Definition islower (c : ascii) : bool :=
  let n := nat_of_ascii c in (97 <=? n) && (n <=? 122).
Definition isalpha (c : ascii) : bool := isupper c || islower c.
Definition isdigit (c : ascii) : bool :=
  let n := nat_of_ascii c in (48 <=? n) && (n <=? 57).
Definition isalnum (c : ascii) : bool := isalpha c || isdigit c.

Definition lower_char (c : ascii) : ascii :=
  if isupper c then ascii_of_nat (nat_of_ascii c + 32) else c.
Definition upper_char (c : ascii) : ascii :=
  if islower c then ascii_of_nat (nat_of_ascii c - 32) else c.

Fixpoint map (f : ascii → ascii) (s : string) : string :=
  match s with
  | EmptyString => EmptyString
  | String c s' => String (f c) (map f s')
  end.

(** [s.lower()] and [s.upper()] *)
Definition lower : string → string := map lower_char.
Definition upper : string → string := map upper_char.

(** [s.replace(a, b)] for one-character [a] and [b] *)
Definition replace (a b : ascii) : string → string :=
  map (λ c, if decide (c = a) then b else c).

(** [s.lstrip()], [s.rstrip()], [s.strip()] *)
Fixpoint lstrip (s : string) : string :=
  match s with
  | EmptyString => EmptyString
  | String c s' => if isspace c then lstrip s' else s
  end.

Fixpoint rstrip (s : string) : string :=
  match s with
  | EmptyString => EmptyString
  | String c s' =>
      match rstrip s' with
      | EmptyString => if isspace c then EmptyString else String c EmptyString
      | r => String c r
      end
  end.

Definition strip (s : string) : string := lstrip (rstrip s).

(** [s.startswith(p)] *)
Definition startswith (p s : string) : bool := String.prefix p s.

(** [s.title()]: a cased character is upper-cased when it follows an
    uncased one (or starts the text) and lower-cased otherwise. *)
Fixpoint title_from (prev_cased : bool) (s : string) : string :=
  match s with
  | EmptyString => EmptyString
  | String c s' =>
      String (if isalpha c
              then (if prev_cased then lower_char c else upper_char c)
              else c)
             (title_from (isalpha c) s')
  end.
Definition title : string → string := title_from false.

(** [s.split(sep)[0]] for a one-character separator *)
Fixpoint before (sep : ascii) (s : string) : string :=
  match s with
  | EmptyString => EmptyString
  | String c s' => if decide (c = sep) then EmptyString else String c (before sep s')
  end.

(** [s.split(sep)] for a one-character separator *)
Fixpoint split (sep : ascii) (s : string) : list string :=
  match s with
  | EmptyString => [EmptyString]
  | String c s' =>
      if decide (c = sep) then EmptyString :: split sep s'
      else match split sep s' with
           | [] => [String c EmptyString]
           | part :: parts => String c part :: parts
           end
  end.

(** [sep.join(parts)] *)
Fixpoint join_with (sep : string) (parts : list string) : string :=
  match parts with
  | [] => EmptyString
  | [part] => part
  | part :: parts' => part +:+ sep +:+ join_with sep parts'
  end.

(** [p in s] (substring test) *)
Fixpoint contains (p s : string) : bool :=
  String.prefix p s ||
  match s with
  | EmptyString => false
  | String _ s' => contains p s'
  end.

(** Truth value of a string: the empty string is false. *)
Definition truthy (s : string) : bool :=
  match s with EmptyString => false | _ => true end.

(** Truth value of an optional string: [None] and [""] are false. *)
Definition truthy_opt (o : option string) : bool :=
  match o with Some s => truthy s | None => false end.

(** [f.readlines()]: the text cut after every line feed. *)
Fixpoint readlines (s : string) : list string :=
  match s with
  | EmptyString => []
  | String c s' =>
      if decide (c = LF) then String c EmptyString :: readlines s'
      else match readlines s' with
           | [] => [String c EmptyString]
           | l :: ls => String c l :: ls
           end
  end.

(** ["".join(lines)] *)
Fixpoint join (ls : list string) : string :=
  match ls with
  | [] => EmptyString
  | l :: ls' => l +:+ join ls'
  end.

(** No line feed occurs in the text. *)
Fixpoint one_line (s : string) : bool :=
  match s with
  | EmptyString => true
  | String c s' => negb (bool_decide (c = LF)) && one_line s'
  end.

End PyStr.

(** ** Exceptions and results *)

Inductive Exn :=
| FileNotFoundError (msg : string)
| ValueError (msg : string)
| KeyError (msg : string)
| OSError (msg : string)
| AttributeError (msg : string).

(** [str(e)] *)
Definition exn_message (e : Exn) : string :=
  match e with
  | FileNotFoundError m | ValueError m | OSError m | AttributeError m => m
  | KeyError m => "'" +:+ m +:+ "'"
  end.

Inductive result (A : Type) :=
| Ok (a : A)
| Raise (e : Exn).
Arguments Ok {A} a.
Arguments Raise {A} e.

#[global] Instance result_ret : MRet result := λ A a, Ok a.
#[global] Instance result_bind : MBind result := λ A B f m,
  match m with Ok a => f a | Raise e => Raise e end.

(** A [for] loop that threads a value and stops at the first exception. *)
Fixpoint for_result {A S : Type} (body : S → A → result S) (s : S) (xs : list A)
  : result S :=
  match xs with
  | [] => Ok s
  | x :: xs' => s' ← body s x; for_result body s' xs'
  end.

(** ** The record model *)

Module Models.

(** Values that end up in a host-variable mapping: text, or the number
    that [int(value)] makes of a port. *)
Inductive PyVal :=
| VStr (s : string)
| VInt (z : Z).

(** Modelled from the spec: the class [Host] of [scripts/core/models.py],
    which is not among the sources. A record has two candidate names, an
    environment, a status, the optional grouping attributes, further
    attributes reachable by name ([ssl_port], [function], ...) and the
    open-ended [metadata] of all other columns; every value is text read
    from the source table, and an absent optional attribute is [None]. *)
Record Host := {
  hostname : string;
  cname : option string;
  environment : string;
  status : string;
  application_service : option string;
  product_ids : list string;
  site_code : option string;
  batch_number : option string;
  attributes : gmap string string;
  metadata : gmap string string;
}.

(** Modelled from the spec: "lower-cased, with non-alphanumeric separators
    normalized to [_]". *)
Definition normalized (raw : string) : string :=
  PyStr.map (λ c, if PyStr.isalnum c then PyStr.lower_char c else "_"%char) raw.

(** Modelled from the spec: [canonical_key(kind)] "returns
    primary-name-or-alternate, or alternate-or-primary, depending on
    configured kind". *)
Definition get_inventory_key_value (host : Host) (inventory_key : string) : string :=
  let alternate := default "" (cname host) in
  if String.eqb inventory_key "cname"
  then (if PyStr.truthy alternate then alternate else hostname host)
  else (if PyStr.truthy (hostname host) then hostname host else alternate).

(** Modelled from the spec: a host-variable file is "named by the record's
    canonical key plus a fixed extension". *)
Definition get_host_vars_filename (host : Host) (inventory_key : string) : string :=
  get_inventory_key_value host inventory_key +:+ ".yml".

(** Modelled from the spec: [is_active] is [status == "active"]. *)
Definition is_active (host : Host) : bool := String.eqb (status host) "active".

(** Modelled from the spec: [app_{normalized(application_service)}], or
    empty if there is no application service. *)
Definition get_app_group_name (host : Host) : string :=
  match application_service host with
  | Some a => if PyStr.truthy a then "app_" +:+ normalized a else ""
  | None => ""
  end.

(** Modelled from the spec: the non-empty product ids, in order. *)
Definition get_product_ids (host : Host) : list string :=
  filter (λ p, PyStr.truthy p = true) (product_ids host).

(** Modelled from the spec: "one name per non-empty product id, each
    [product_{normalized(id)}]". *)
Definition get_product_group_names (host : Host) : list string :=
  (λ p, "product_" +:+ normalized p) <$> get_product_ids host.

(** Modelled from the spec: [batch_group_name()], analogous to the
    application group name. *)
Definition get_batch_group_name (host : Host) : string :=
  match batch_number host with
  | Some b => if PyStr.truthy b then "batch_" +:+ normalized b else ""
  | None => ""
  end.

(** Modelled from the spec: [getattr(host, field, None)] over the attributes
    of the record; a name the record does not have gives [None]. *)
Definition getattr (host : Host) (field : string) : option string :=
  if String.eqb field "hostname" then Some (hostname host)
  else if String.eqb field "cname" then cname host
  else if String.eqb field "environment" then Some (environment host)
  else if String.eqb field "status" then Some (status host)
  else if String.eqb field "application_service" then application_service host
  else if String.eqb field "site_code" then site_code host
  else if String.eqb field "batch_number" then batch_number host
  else attributes host !! field.

End Models.

Import Models.

(** ** The inventory tree *)

(** One group of the tree: [{"hosts": {...}, "children": {...}}]. The root
    group ["all"] is created as [{"children": {}}], without a ["hosts"]
    entry, hence the option. *)
Record Group := {
  hosts : option (gset string);
  children : gset string;
}.

Abbreviation Inventory := (gmap string Group).

(** The factory of the [defaultdict], also written out by the builder at
    every [if g not in inventory]. *)
Definition new_group : Group := {| hosts := Some ∅; children := ∅ |}.

(** [inventory[g]] on the [defaultdict]. *)
Definition getitem (g : string) (inventory : Inventory) : Group :=
  default new_group (inventory !! g).

(** [inventory[parent]["children"][g] = {}] *)
Definition set_child (parent g : string) (inventory : Inventory) : Inventory :=
  let data := getitem parent inventory in
  <[parent := {| hosts := hosts data; children := {[g]} ∪ children data |}]> inventory.

(** [inventory[g]["hosts"][host_key] = {}]; a group without a ["hosts"]
    entry raises [KeyError]. *)
Definition set_host (g host_key : string) (inventory : Inventory) : result Inventory :=
  let data := getitem g inventory in
  match hosts data with
  | Some hs =>
      Ok (<[g := {| hosts := Some ({[host_key]} ∪ hs); children := children data |}]> inventory)
  | None => Raise (KeyError "hosts")
  end.

(** The three statements the builder repeats for every group of a host:
    create the group if it is not there, register it under its parent, add
    the host to it. *)
Definition add_member (parent g host_key : string) (inventory : Inventory)
  : result Inventory :=
  let inventory :=
    if decide (is_Some (inventory !! g)) then inventory
    else <[g := new_group]> inventory in
  set_host g host_key (set_child parent g inventory).

(** The site group of a host, as the builder computes it in place:
    [str(host.site_code).strip()], then
    [f"site_{site_code_str.lower().replace('-', '_')}"]. [None] when the
    host gets no site group. *)
Definition site_group_name (host : Host) : option string :=
  if PyStr.truthy_opt (site_code host) then
    let site_code_str := PyStr.strip (default "" (site_code host)) in
    if PyStr.truthy site_code_str
    then Some ("site_" +:+ PyStr.replace "-" "_" (PyStr.lower site_code_str))
    else None
  else None.

Section Builder.

(** [self.config.inventory_key] *)
Variable inventory_key : string.

(** The body of the [for host in hosts] loop of
    [build_environment_inventory]. *)
Definition build_host (environment : string) (inventory : Inventory) (host : Host)
  : result Inventory :=
  if negb (String.eqb (Models.environment host) environment) then Ok inventory
  else
    let host_key := get_inventory_key_value host inventory_key in
    let env_group_name := "env_" +:+ environment in
    inventory ← add_member "all" env_group_name host_key inventory;
    inventory ←
      (if PyStr.truthy_opt (application_service host) then
         let app_group := get_app_group_name host in
         if PyStr.truthy app_group then
           inventory ← add_member env_group_name app_group host_key inventory;
           match get_product_ids host with
           | [] => Ok inventory
           | _ :: _ =>
               for_result
                 (λ inventory prod_group,
                    add_member app_group prod_group host_key inventory)
                 inventory (get_product_group_names host)
           end
         else Ok inventory
       else Ok inventory);
    inventory ←
      match site_group_name host with
      | Some site_group => add_member env_group_name site_group host_key inventory
      | None => Ok inventory
      end;
    if PyStr.truthy_opt (batch_number host) then
      let batch_group := get_batch_group_name host in
      if PyStr.truthy batch_group
      then add_member env_group_name batch_group host_key inventory
      else Ok inventory
    else Ok inventory.

(** [build_environment_inventory(hosts, environment)] *)
Definition build_environment_inventory (hosts : list Host) (environment : string)
  : result Inventory :=
  for_result (build_host environment)
    {[ "all" := {| hosts := None; children := ∅ |} ]} hosts.

End Builder.

(** The pruning step of [write_inventory_file]:
    [hosts = data.get("hosts", {})], kept when [hosts and len(hosts) > 0]. *)
Definition has_hosts (data : Group) : bool :=
  match hosts data with
  | Some hs => negb (bool_decide (hs = ∅))
  | None => false
  end.

Definition filtered_inventory (inventory : Inventory) : Inventory :=
  filter (λ entry, has_hosts entry.2 = true) inventory.

(** ** Configuration *)

(** One entry of the [location_codes] table of the configuration file. *)
Record EnvironmentInfo := {
  name : string;
  inventory_file : option string;
}.

(** What the manager reads from [load_config()], from the constants of
    [scripts/core/config.py] and from its own [InventoryConfig]. *)
Record Config := {
  inventory_key : string;
  environments : list string;
  inventory_dir : string;
  csv_file : string;
  cleanup_orphaned_on_generate : bool;
  host_var_fields : list string;
  group_references : list string;
  default_support_group : string;
  function_append_short_cname : bool;
  function_short_cname_position : string;
  location_codes : gmap string EnvironmentInfo;
  HOST_VARS_HEADER : string;
}.

(** [get_environment_info_from_code(code)] of [scripts/core/config.py] *)
Definition get_environment_info_from_code (cfg : Config) (code : string)
  : option EnvironmentInfo :=
  location_codes cfg !! PyStr.upper code.

(** ** The world: files, faults, clock, source table *)

Inductive Location :=
| InventoryFile (file_name : string)
| HostVarsFile (file_name : string).

#[global] Instance Location_eq_dec : EqDecision Location.
Proof. solve_decision. Defined.

(** What happened to the file system, oldest event first. Opening a file
    for writing is what changes its modification time. *)
Inductive Event :=
| OpenedForWriting (f : Location)
| Unlinked (f : Location).

Record DateTime := {
  year : nat; month : nat; day : nat;
  hour : nat; minute : nat; second : nat;
}.

(** One row as [csv.DictReader] yields it, a dictionary: the cells by
    column name, where a column the line is too short for holds [None],
    and, when the line has more cells than the header has columns, the
    list of the cells beyond the header under the key [None]. *)
Record CsvRow := {
  cells : gmap string (option string);
  restkey : option (list string);
}.

(** What opening and reading the file can raise: [csv.Error], or another
    exception, such as [OSError] or [UnicodeDecodeError] (a [ValueError],
    and held as one). *)
Inductive ReaderError :=
| CsvError (msg : string)
| OtherError (e : Exn).

(** The source table as opening the file and [csv.DictReader] present it:
    the error raised when the file is opened or its header is read, if
    any; otherwise the header, the rows the reader yields, and the error
    the reader raises after the last of these rows, if any. *)
Record CsvTable := {
  header_error : option ReaderError;
  fieldnames : list string;
  rows : list CsvRow;
  rows_error : option ReaderError;
}.

(** One row as [load_csv_data] returns it, a dictionary of strings: the
    value of every column and, when the line had more cells than the
    header has columns, the empty string under the key [None]. *)
Record RowData := {
  columns : gmap string string;
  has_none_key : bool;
}.

(** [row_data[column] = value] *)
Definition set_column (column value : string) (row_data : RowData) : RowData :=
  {| columns := <[column := value]> (columns row_data);
     has_none_key := has_none_key row_data |}.

(** The two output directories hold files by name; an operation on a file
    fails when the world says so (permissions); the [n]-th call of
    [datetime.now()] returns [clock n]. *)
Record World := {
  inventory_files : gmap string string;
  host_vars_files : gmap string string;
  read_fails : Location → bool;
  write_fails : Location → bool;
  unlink_fails : Location → bool;
  csv_source : option CsvTable;
  clock : nat → DateTime;
  ticks : nat;
  journal : list Event;
}.

Definition lookup_file (f : Location) (w : World) : option string :=
  match f with
  | InventoryFile n => inventory_files w !! n
  | HostVarsFile n => host_vars_files w !! n
  end.

Definition update_files (f : Location) (content : option string) (ev : Event)
  (w : World) : World :=
  {| inventory_files :=
       match f with
       | InventoryFile n => partial_alter (λ _, content) n (inventory_files w)
       | HostVarsFile _ => inventory_files w
       end;
     host_vars_files :=
       match f with
       | InventoryFile _ => host_vars_files w
       | HostVarsFile n => partial_alter (λ _, content) n (host_vars_files w)
       end;
     read_fails := read_fails w; write_fails := write_fails w;
     unlink_fails := unlink_fails w; csv_source := csv_source w;
     clock := clock w; ticks := ticks w;
     journal := journal w ++ [ev] |}.

(** ** The monad of the manager's methods: world passing with exceptions *)

Definition IO (A : Type) : Type := World → World * result A.

#[global] Instance IO_ret : MRet IO := λ A a w, (w, Ok a).
#[global] Instance IO_bind : MBind IO := λ A B f m w,
  match m w with
  | (w', Ok a) => f a w'
  | (w', Raise e) => (w', Raise e)
  end.

Definition raise {A : Type} (e : Exn) : IO A := λ w, (w, Raise e).

(** A computation that does not touch the world. *)
Definition lift {A : Type} (r : result A) : IO A := λ w, (w, r).

(** [try: body except Exception as e: handler(e)] *)
Definition try_except {A : Type} (body : IO A) (handler : Exn → IO A) : IO A :=
  λ w, match body w with
       | (w', Ok a) => (w', Ok a)
       | (w', Raise e) => handler e w'
       end.

(** A [for] loop over a list in [IO]. *)
Fixpoint for_each {A : Type} (body : A → IO unit) (xs : list A) : IO unit :=
  match xs with
  | [] => mret tt
  | x :: xs' => _ ← body x; for_each body xs'
  end.

(** [path.exists()] *)
Definition path_exists (f : Location) : IO bool :=
  λ w, (w, Ok (bool_decide (is_Some (lookup_file f w)))).

(** [with path.open("r") as f: f.read()] *)
Definition read_text (f : Location) : IO string :=
  λ w, if read_fails w f then (w, Raise (OSError "Permission denied"))
       else match lookup_file f w with
            | Some content => (w, Ok content)
            | None => (w, Raise (FileNotFoundError "No such file or directory"))
            end.

(** [with path.open("w") as f: f.write(content)]: opening fails or the
    whole text is written. *)
Definition write_text (f : Location) (content : string) : IO unit :=
  λ w, if write_fails w f then (w, Raise (OSError "Permission denied"))
       else (update_files f (Some content) (OpenedForWriting f) w, Ok tt).

(** [path.unlink()] *)
Definition unlink (f : Location) : IO unit :=
  λ w, if unlink_fails w f then (w, Raise (OSError "Permission denied"))
       else match lookup_file f w with
            | Some _ => (update_files f None (Unlinked f) w, Ok tt)
            | None => (w, Raise (FileNotFoundError "No such file or directory"))
            end.

(** [datetime.now()] *)
Definition datetime_now : IO DateTime :=
  λ w, ({| inventory_files := inventory_files w;
           host_vars_files := host_vars_files w;
           read_fails := read_fails w; write_fails := write_fails w;
           unlink_fails := unlink_fails w; csv_source := csv_source w;
           clock := clock w; ticks := S (ticks w);
           journal := journal w |},
        Ok (clock w (ticks w))).

(** [now.strftime('%Y-%m-%d %H:%M:%S')] *)
Definition digit (n : nat) : ascii := ascii_of_nat (48 + n mod 10).
Definition two_digits (n : nat) (rest : string) : string :=
  String (digit (n / 10)) (String (digit n) rest).
Definition four_digits (n : nat) (rest : string) : string :=
  String (digit (n / 1000)) (String (digit (n / 100)) (two_digits n rest)).
Definition strftime (now : DateTime) : string :=
  four_digits (year now) (String "-" (two_digits (month now) (String "-"
    (two_digits (day now) (String " " (two_digits (hour now) (String ":"
      (two_digits (minute now) (String ":" (two_digits (second now) "")))))))))).

(** ** What the manager uses but does not define *)

(** The serializer of PyYAML ([yaml.dump(..., default_flow_style=False,
    sort_keys=True)]) at the two types it is used at, the conversion
    [int(value)] ([None] for [ValueError]), the validating constructor
    [Host.from_csv_row] and the clean-up of [GroupVarsManager], which works
    in another directory and reports a count. *)
Record Library := {
  yaml_dump : Inventory → string;
  yaml_dump_vars : gmap string PyVal → string;
  py_int : string → option Z;
  from_csv_row : RowData → result Host;
  cleanup_orphaned_group_vars : list Host → bool → result nat;
}.

(** ** Parsing an existing file *)

Definition MARKER : string := "# Generated at:".

Definition is_timestamp_line (line : string) : bool :=
  PyStr.startswith MARKER (PyStr.strip line).

Definition is_blank (line : string) : bool :=
  negb (PyStr.truthy (PyStr.strip line)).

(** The first loop of [write_inventory_file] over [existing_lines]. *)
Fixpoint find_existing_timestamp (existing_lines : list string) : option string :=
  match existing_lines with
  | [] => None
  | line :: rest =>
      if is_timestamp_line line then Some (PyStr.strip line)
      else find_existing_timestamp rest
  end.

(** The second loop of [write_inventory_file]: the index after the first
    blank line that follows a timestamp line. [previous] is
    [existing_lines[i - 1]] and [rest] starts at index [i]. *)
Fixpoint tree_yaml_start_from (i : nat) (previous : string) (rest : list string)
  : option nat :=
  match rest with
  | [] => None
  | line :: rest' =>
      if is_blank line && is_timestamp_line previous then Some (i + 1)
      else tree_yaml_start_from (S i) line rest'
  end.

Definition tree_yaml_start_index (existing_lines : list string) : option nat :=
  match existing_lines with
  | [] => None
  | first :: rest => tree_yaml_start_from 1 first rest
  end.

(** The loop of [create_host_vars] over [existing_lines]: the index after
    the first blank line that is not the first line. [rest] starts at
    index [i]. *)
Fixpoint vars_yaml_start_from (i : nat) (rest : list string) : option nat :=
  match rest with
  | [] => None
  | line :: rest' =>
      if is_blank line then Some (i + 1) else vars_yaml_start_from (S i) rest'
  end.

Definition vars_yaml_start_index (existing_lines : list string) : option nat :=
  match existing_lines with
  | [] => None
  | _ :: rest => vars_yaml_start_from 1 rest
  end.

(** [existing_lines[yaml_start_index:]] joined, when an index was found. *)
Definition content_from (existing_lines : list string) (yaml_start_index : option nat)
  : option string :=
  (λ i, PyStr.join (drop i existing_lines)) <$> yaml_start_index.

(** The text written by [write_inventory_file]. *)
Definition NL : string := String PyStr.LF "".

Definition inventory_file_text (title timestamp_line new_yaml_content : string)
  : string :=
  "# ----------------------------------------------------------------------" +:+ NL +:+
  "# AUTO-GENERATED FILE - DO NOT EDIT MANUALLY" +:+ NL +:+
  "# This file is generated by the inventory management system." +:+ NL +:+
  "# Any manual changes will be overwritten the next time inventory is generated." +:+ NL +:+
  "# ----------------------------------------------------------------------" +:+ NL +:+
  "# " +:+ title +:+ " Inventory" +:+ NL +:+
  "# Generated from enhanced CSV with CMDB and patch management integration" +:+ NL +:+
  timestamp_line +:+ NL +:+
  NL +:+
  new_yaml_content.

(** The text written by [create_host_vars]. *)
Definition host_vars_file_text (primary_id header new_yaml_content : string)
  : string :=
  "---" +:+ NL +:+
  "# Host variables for " +:+ primary_id +:+ NL +:+
  "# " +:+ header +:+ NL +:+
  NL +:+
  new_yaml_content.

(** ** The manager *)

Section Manager.

Variable lib : Library.
Variable cfg : Config.

(** [write_inventory_file(inventory, output_file, title)]; [output_file]
    is the name of the file in the inventory directory. *)
Definition write_inventory_file (inventory : Inventory) (output_file title : string)
  : IO unit :=
  let new_yaml_content := yaml_dump lib (filtered_inventory inventory) in
  existing ←
    (present ← path_exists (InventoryFile output_file);
     if present : bool then
       try_except
         (text ← read_text (InventoryFile output_file);
          let existing_lines := PyStr.readlines text in
          mret (find_existing_timestamp existing_lines,
                content_from existing_lines (tree_yaml_start_index existing_lines)))
         (λ _, mret (None, None))
     else mret (None, None));
  let existing_timestamp : option string := existing.1 in
  let existing_yaml_content : option string := existing.2 in
  let content_changed := negb (bool_decide (existing_yaml_content = Some new_yaml_content)) in
  timestamp_line ←
    (if negb content_changed && PyStr.truthy_opt existing_timestamp
     then mret (default "" existing_timestamp)
     else now ← datetime_now; mret ("# Generated at: " +:+ strftime now));
  write_text (InventoryFile output_file)
    (inventory_file_text title timestamp_line new_yaml_content).

(** The mapping [host_vars] that [create_host_vars] builds before it
    serializes it. *)
Definition designated_fields (host : Host) : gmap string PyVal :=
  foldl
    (λ host_vars field,
       match getattr host field with
       | None => host_vars
       | Some value =>
           if String.eqb field "ssl_port" && PyStr.truthy value then
             match py_int lib value with
             | Some port => <[field := VInt port]> host_vars
             | None => <[field := VStr value]> host_vars
             end
           else <[field := VStr (if PyStr.truthy value then value else "")]> host_vars
       end)
    ∅ (host_var_fields cfg).

Definition truthy_val (v : option PyVal) : bool :=
  match v with
  | Some (VStr s) => PyStr.truthy s
  | Some (VInt z) => negb (Z.eqb z 0)
  | None => false
  end.

Definition with_support_group (host_vars : gmap string PyVal) : gmap string PyVal :=
  if bool_decide ("support_group" ∈ host_var_fields cfg) then
    if negb (truthy_val (host_vars !! "support_group"))
    then <["support_group" := VStr (default_support_group cfg)]> host_vars
    else host_vars
  else host_vars.

Definition with_short_cname (host_vars : gmap string PyVal) : gmap string PyVal :=
  if function_append_short_cname cfg then
    match host_vars !! "function", host_vars !! "cname" with
    | Some (VStr function_val), Some (VStr cname_val) =>
        let short_cname :=
          if PyStr.truthy cname_val then PyStr.before "." cname_val else "" in
        if PyStr.truthy function_val && PyStr.truthy short_cname
           && negb (PyStr.contains short_cname function_val)
        then
          if String.eqb (function_short_cname_position cfg) "front"
          then <["function" := VStr (short_cname +:+ " - " +:+ function_val)]> host_vars
          else <["function" := VStr (function_val +:+ " (" +:+ short_cname +:+ ")")]> host_vars
        else host_vars
    | _, _ => host_vars
    end
  else host_vars.

Definition with_metadata (host : Host) (host_vars : gmap string PyVal)
  : gmap string PyVal :=
  let all_configured_fields : gset string :=
    list_to_set (host_var_fields cfg) ∪ list_to_set (group_references cfg)
    ∪ {["ansible_tags"]} in
  (VStr <$> filter (λ entry, entry.1 ∉ all_configured_fields) (metadata host))
  ∪ host_vars.

Definition host_vars_of (host : Host) : gmap string PyVal :=
  with_metadata host (with_short_cname (with_support_group (designated_fields host))).

(** [create_host_vars(host, host_vars_dir)] *)
Definition create_host_vars (host : Host) : IO unit :=
  let primary_id := get_inventory_key_value host (inventory_key cfg) in
  let new_yaml_content := yaml_dump_vars lib (host_vars_of host) in
  let host_vars_filename := get_host_vars_filename host (inventory_key cfg) in
  let host_vars_file := HostVarsFile host_vars_filename in
  should_write ←
    (present ← path_exists host_vars_file;
     if present : bool then
       try_except
         (text ← read_text host_vars_file;
          let existing_lines := PyStr.readlines text in
          match content_from existing_lines (vars_yaml_start_index existing_lines) with
          | Some existing_yaml_content =>
              mret (negb (bool_decide (existing_yaml_content = new_yaml_content)))
          | None => mret true
          end)
         (λ _, mret true)
     else mret true);
  if should_write : bool then
    write_text host_vars_file
      (host_vars_file_text primary_id (HOST_VARS_HEADER cfg) new_yaml_content)
  else mret tt.

(** The orphans of the host-variable directory. [glob("*.yml")] keeps the
    names that end in [.yml]; [Path.stem] removes that suffix unless
    nothing would be left. *)
Fixpoint remove_suffix (suffix s : string) : option string :=
  if String.eqb s suffix then Some ""
  else match s with
       | EmptyString => None
       | String c s' => String c <$> remove_suffix suffix s'
       end.

Definition glob_yml (directory : gmap string string) : list string :=
  filter (λ file_name, is_Some (remove_suffix ".yml" file_name))
    (elements (dom directory)).

Definition stem (file_name : string) : string :=
  match remove_suffix ".yml" file_name with
  | Some EmptyString | None => file_name
  | Some identifier => identifier
  end.

Definition valid_identifiers (hosts : list Host) : gset string :=
  foldl
    (λ valid host,
       let valid :=
         if PyStr.truthy (hostname host) then {[hostname host]} ∪ valid else valid in
       if PyStr.truthy_opt (cname host)
       then {[default "" (cname host)]} ∪ valid else valid)
    ∅ hosts.

Definition orphaned_files (hosts : list Host) (directory : gmap string string)
  : list string :=
  filter (λ file_name, stem file_name ∉ valid_identifiers hosts) (glob_yml directory).

(** The removal loop of [cleanup_orphaned_host_vars]: a file that cannot
    be removed is logged and not counted. *)
Fixpoint remove_orphaned (files : list string) (removed_count : nat) : IO nat :=
  match files with
  | [] => mret removed_count
  | file_name :: rest =>
      removed_count ←
        try_except
          (_ ← unlink (HostVarsFile file_name); mret (S removed_count))
          (λ _, mret removed_count);
      remove_orphaned rest removed_count
  end.

(** [cleanup_orphaned_host_vars(hosts, dry_run)]. A directory that does
    not exist has no files. *)
Definition cleanup_orphaned_host_vars (hosts : list Host) (dry_run : bool) : IO nat :=
  if negb (cleanup_orphaned_on_generate cfg) then mret 0
  else
    λ w,
      let orphaned := orphaned_files hosts (host_vars_files w) in
      match orphaned with
      | [] => (w, Ok 0)
      | _ :: _ =>
          if dry_run then (w, Ok (length orphaned))
          else remove_orphaned orphaned 0 w
      end.

(** [load_csv_data(csv_file, required_fields, inventory_key)] of
    [scripts/core/utils.py] *)

(** The [except csv.Error] clause: a [csv.Error] becomes a [ValueError],
    any other exception goes through. *)
Definition reader_exception (e : ReaderError) : Exn :=
  match e with
  | CsvError msg => ValueError ("CSV parsing error: " +:+ msg)
  | OtherError e => e
  end.

(** [row.get(column, "").strip()]: the cell of a line too short for the
    column is [None], which has no [strip]. *)
Definition stripped_cell (row : CsvRow) (column : string) : result string :=
  match cells row !! column with
  | Some (Some v) => Ok (PyStr.strip v)
  | Some None => Raise (AttributeError "'NoneType' object has no attribute 'strip'")
  | None => Ok (PyStr.strip "")
  end.

(** The loop over [row.items()] that builds [cleaned_row]: a value that
    is not a string, or is empty, becomes the empty string. *)
Definition clean_row (row : CsvRow) : RowData :=
  {| columns :=
       map_imap
         (λ k v,
            Some (match v with
                  | Some v =>
                      if String.eqb k "product_id" && PyStr.truthy v
                      then PyStr.join_with "," (PyStr.strip <$> PyStr.split "," v)
                      else PyStr.strip v
                  | None => ""
                  end))
         (cells row);
     has_none_key := bool_decide (is_Some (restkey row)) |}.

(** The body of the [for row_num, row in enumerate(reader, start=2)]
    loop. *)
Definition load_row (hosts : list RowData) (row : CsvRow) : result (list RowData) :=
  hostname ← stripped_cell row "hostname";
  cname ← stripped_cell row "cname";
  let primary_id :=
    if String.eqb (inventory_key cfg) "cname"
    then (if PyStr.truthy cname then cname else hostname)
    else (if PyStr.truthy hostname then hostname else cname) in
  if negb (PyStr.truthy primary_id) || PyStr.startswith "#" primary_id
  then Ok hosts
  else Ok (hosts ++ [clean_row row]).

Definition load_csv_data (required_fields : list string) : IO (list RowData) :=
  λ w,
    match csv_source w with
    | None => (w, Raise (FileNotFoundError ("CSV file not found: " +:+ csv_file cfg)))
    | Some table =>
        match header_error table with
        | Some e => (w, Raise (reader_exception e))
        | None =>
            let missing_fields :=
              filter (λ f, f ∉ fieldnames table) required_fields in
            match missing_fields with
            | _ :: _ =>
                (w, Raise (ValueError
                       ("Missing required CSV fields: {'"
                        +:+ PyStr.join_with "', '" missing_fields +:+ "'}")))
            | [] =>
                match for_result load_row [] (rows table) with
                | Ok hosts =>
                    match rows_error table with
                    | Some e => (w, Raise (reader_exception e))
                    | None => (w, Ok hosts)
                    end
                | Raise e => (w, Raise e)
                end
            end
        end
    end.

(** The row loop of [load_hosts]: an invalid row ([ValueError]) is skipped. *)
Fixpoint hosts_of_rows (normalized_env : option string)
  (csv_data : list RowData) : result (list Host) :=
  match csv_data with
  | [] => Ok []
  | row_data :: rest =>
      let env_code := PyStr.strip (default "" (columns row_data !! "environment")) in
      let row_data :=
        if PyStr.truthy env_code then
          match get_environment_info_from_code cfg env_code with
          | Some env_info => set_column "environment" (name env_info) row_data
          | None => row_data
          end
        else row_data in
      match from_csv_row lib row_data with
      | Ok host =>
          hosts ← hosts_of_rows normalized_env rest;
          if PyStr.truthy_opt normalized_env
             && negb (String.eqb (Models.environment host) (default "" normalized_env))
          then Ok hosts else Ok (host :: hosts)
      | Raise (ValueError _) => hosts_of_rows normalized_env rest
      | Raise e => Raise e
      end
  end.

(** [load_hosts(environment)] *)
Definition load_hosts (environment : option string) : IO (list Host) :=
  csv_data ← load_csv_data ["environment"];
  let normalized_env :=
    if PyStr.truthy_opt environment then
      let env_filter := PyStr.strip (default "" environment) in
      match get_environment_info_from_code cfg env_filter with
      | Some env_info => Some (name env_info)
      | None => Some env_filter
      end
    else None in
  lift (hosts_of_rows normalized_env csv_data).

(** [_generate_inventory_file(environment, hosts, inventory_filename)];
    the result is the name of the file in the inventory directory. *)
Definition _generate_inventory_file (environment : string) (hosts : list Host)
  (inventory_filename : option string) : IO string :=
  try_except
    (let active_hosts := filter (λ h, is_active h = true) hosts in
     _ ← for_each create_host_vars active_hosts;
     inventory ←
       lift (build_environment_inventory (inventory_key cfg) active_hosts environment);
     let output_file :=
       if PyStr.truthy_opt inventory_filename then default "" inventory_filename
       else environment +:+ ".yml" in
     _ ← write_inventory_file inventory output_file
           (PyStr.title environment +:+ " Environment");
     mret output_file)
    (λ e,
       match e with
       | OSError _ | FileNotFoundError _ => raise e
       | _ =>
           raise (ValueError ("Failed to generate " +:+ environment +:+ " inventory: "
                              +:+ exn_message e))
       end).

(** The value returned by [generate_inventories]: the dictionary of a
    completed run or the dictionary of an aborted one. The statistics of
    the run are left out. *)
Inductive Report :=
| Success (generated_files : list string) (dry_run : bool)
    (environments : list string) (orphaned_files_removed group_orphaned_removed : nat)
| Error (error : string) (dry_run : bool).

Definition report_status (r : Report) : string :=
  match r with Success _ _ _ _ _ => "success" | Error _ _ => "error" end.

Definition report_generated_files (r : Report) : list string :=
  match r with Success generated_files _ _ _ _ => generated_files | Error _ _ => [] end.

Definition report_error (r : Report) : option string :=
  match r with Success _ _ _ _ _ => None | Error error _ => Some error end.

(** One turn of the [for env in target_environments] loop. *)
Definition generate_environment (hosts : list Host) (dry_run : bool) (env : string)
  (generated_files : list string) : IO (list string) :=
  let env_info := get_environment_info_from_code cfg env in
  let env_name := match env_info with Some info => name info | None => env end in
  let inventory_filename :=
    match env_info with
    | Some info => inventory_file info
    | None => Some (env +:+ ".yml")
    end in
  try_except
    (let env_hosts :=
       filter (λ h, Models.environment h = env ∨ Models.environment h = env_name) hosts in
     match env_hosts with
     | [] => mret generated_files
     | _ :: _ =>
         if dry_run then mret generated_files
         else
           inventory_file ← _generate_inventory_file env_name env_hosts inventory_filename;
           mret (generated_files ++ [inventory_dir cfg +:+ "/" +:+ inventory_file])
     end)
    (λ _, mret generated_files).

Fixpoint generate_environments (hosts : list Host) (dry_run : bool)
  (target_environments : list string) (generated_files : list string)
  : IO (list string) :=
  match target_environments with
  | [] => mret generated_files
  | env :: rest =>
      generated_files ← generate_environment hosts dry_run env generated_files;
      generate_environments hosts dry_run rest generated_files
  end.

(** [self.config.environments] *)
Definition configured_environments : list string := environments cfg.

(** [generate_inventories(environments, dry_run)] *)
Definition generate_inventories (environments : option (list string)) (dry_run : bool)
  : IO Report :=
  try_except
    (hosts ← load_hosts None;
     match hosts with
     | [] => raise (ValueError "No valid hosts found in CSV file")
     | _ :: _ =>
         orphaned_count ← cleanup_orphaned_host_vars hosts dry_run;
         group_orphaned_removed ← lift (cleanup_orphaned_group_vars lib hosts dry_run);
         let target_environments :=
           match environments with
           | Some (env :: rest) => env :: rest
           | _ => configured_environments
           end in
         generated_files ← generate_environments hosts dry_run target_environments [];
         mret (Success generated_files dry_run target_environments
                 orphaned_count group_orphaned_removed)
     end)
    (λ e,
       match e with
       | FileNotFoundError _ =>
           mret (Error ("CSV source file not found: " +:+ exn_message e) dry_run)
       | _ =>
           mret (Error ("Failed to generate inventories: " +:+ exn_message e) dry_run)
       end).

End Manager.

(** * Definitions used by the proofs *)

(** ** The tree builder as a list of edits *)

(** What one statement of the builder does to one group. *)
Inductive Edit :=
| Touch
| AddChild (g : string)
| AddHost (host_key : string).

Definition apply_edit (e : Edit) (data : Group) : Group :=
  match e with
  | Touch => data
  | AddChild g => {| hosts := hosts data; children := {[g]} ∪ children data |}
  | AddHost k => {| hosts := (λ hs, {[k]} ∪ hs) <$> hosts data; children := children data |}
  end.

Definition edit_at (inventory : Inventory) (xe : string * Edit) : Inventory :=
  <[xe.1 := apply_edit xe.2 (getitem xe.1 inventory)]> inventory.

(** A membership is (parent, group, host key): one call of [add_member]. *)
Definition member_edits (m : string * string * string) : list (string * Edit) :=
  [(m.1.2, Touch); (m.1.1, AddChild m.1.2); (m.1.2, AddHost m.2)].

(** The memberships one host contributes to the tree of an environment, in
    the order of the statements of [build_host]. *)
Definition memberships (inventory_key environment : string) (host : Host)
  : list (string * string * string) :=
  if negb (String.eqb (Models.environment host) environment) then []
  else
    let host_key := get_inventory_key_value host inventory_key in
    let env_group_name := "env_" +:+ environment in
    [("all", env_group_name, host_key)]
    ++ (if PyStr.truthy_opt (application_service host)
           && PyStr.truthy (get_app_group_name host)
        then (env_group_name, get_app_group_name host, host_key)
             :: ((λ prod_group, (get_app_group_name host, prod_group, host_key))
                   <$> get_product_group_names host)
        else [])
    ++ match site_group_name host with
       | Some site_group => [(env_group_name, site_group, host_key)]
       | None => []
       end
    ++ (if PyStr.truthy_opt (batch_number host)
           && PyStr.truthy (get_batch_group_name host)
        then [(env_group_name, get_batch_group_name host, host_key)]
        else []).

Definition add_membership (inventory : Inventory) (m : string * string * string)
  : result Inventory := add_member m.1.1 m.1.2 m.2 inventory.

Definition edits (inventory_key environment : string) (hosts : list Host)
  : list (string * Edit) :=
  hosts ≫= (λ host, memberships inventory_key environment host ≫= member_edits).

Definition root_inventory : Inventory :=
  {[ "all" := {| hosts := None; children := ∅ |} ]}.

(** The tree in closed form: the edits applied to the root. *)
Definition tree_of (inventory_key environment : string) (hosts : list Host)
  : Inventory :=
  foldl edit_at root_inventory (edits inventory_key environment hosts).

(** Every group a host is put in carries one of the five prefixes. *)
Definition prefixed (g : string) : Prop :=
  ∃ rest, g = "env_" +:+ rest ∨ g = "app_" +:+ rest ∨ g = "product_" +:+ rest
          ∨ g = "site_" +:+ rest ∨ g = "batch_" +:+ rest.

(** Only the root group lacks a ["hosts"] entry. *)
Definition rooted (inventory : Inventory) : Prop :=
  ∀ g data, inventory !! g = Some data → hosts data = None → g = "all".

(** The group that results from a list of edits, in closed form. *)
Definition added_hosts (es : list Edit) : gset string :=
  list_to_set (omap (λ e, match e with AddHost k => Some k | _ => None end) es).
Definition added_children (es : list Edit) : gset string :=
  list_to_set (omap (λ e, match e with AddChild g => Some g | _ => None end) es).
Definition group_after (data : Group) (es : list Edit) : Group :=
  {| hosts := (λ hs, added_hosts es ∪ hs) <$> hosts data;
     children := added_children es ∪ children data |}.

(** The edits of a list that are aimed at one group. *)
Definition edits_for (x : string) (xes : list (string * Edit)) : list Edit :=
  omap (λ xe, if decide (xe.1 = x) then Some xe.2 else None) xes.

(** ** Relating the world before and after a computation *)

(** Every run of the computation relates the world it starts in to the
    world it ends in, whether it returns or raises. *)
Definition respects {A : Type} (R : relation World) (m : IO A) : Prop :=
  ∀ w, R w (m w).1.

Definition event_location (ev : Event) : Location :=
  match ev with OpenedForWriting f | Unlinked f => f end.

(** Only files in [touched] are written or removed; what may fail, the
    source table and the clock stay as they are. *)
Definition only_touches (touched : Location → Prop) : relation World :=
  λ w w',
    (∀ f, ¬ touched f → lookup_file f w' = lookup_file f w)
    ∧ (∃ events, journal w' = journal w ++ events
                 ∧ Forall (λ ev, touched (event_location ev)) events)
    ∧ read_fails w' = read_fails w ∧ write_fails w' = write_fails w
    ∧ unlink_fails w' = unlink_fails w ∧ csv_source w' = csv_source w
    ∧ clock w' = clock w.

(** No file is removed. *)
Definition keeps_files : relation World :=
  λ w w', ∀ f, is_Some (lookup_file f w) → is_Some (lookup_file f w').

(** The host-variable files of the active records of a list. *)
Definition active_files (cfg : Config) (hosts : list Host) (f : Location) : Prop :=
  ∃ h, h ∈ hosts ∧ is_active h = true
       ∧ f = HostVarsFile (get_host_vars_filename h (inventory_key cfg)).

Definition is_inventory_file (f : Location) : Prop := ∃ n, f = InventoryFile n.

(** [environments or self.config.environments] *)
Definition target_environments (cfg : Config) (environments : option (list string))
  : list string :=
  match environments with
  | Some (env :: rest) => env :: rest
  | _ => configured_environments cfg
  end.

(** The report of the two [except] clauses of [generate_inventories]. *)
Definition abort_report (e : Exn) (dry_run : bool) : Report :=
  Error (match e with
         | FileNotFoundError _ => "CSV source file not found: "
         | _ => "Failed to generate inventories: "
         end +:+ exn_message e) dry_run.

(** The run, once the records are loaded. *)
Definition run_loaded (lib : Library) (cfg : Config) (hosts : list Host)
  (environments : option (list string)) (dry_run : bool) (w : World)
  : World * result Report :=
  let '(w1, orphaned) := cleanup_orphaned_host_vars cfg hosts dry_run w in
  match orphaned, cleanup_orphaned_group_vars lib hosts dry_run with
  | Ok orphaned_count, Ok group_orphaned_removed =>
      let '(w2, generated) :=
        generate_environments lib cfg hosts dry_run
          (target_environments cfg environments) [] w1 in
      match generated with
      | Ok generated_files =>
          (w2, Ok (Success generated_files dry_run (target_environments cfg environments)
                     orphaned_count group_orphaned_removed))
      | Raise e => (w2, Ok (abort_report e dry_run))
      end
  | Ok _, Raise e | Raise e, _ => (w1, Ok (abort_report e dry_run))
  end.

(** ** The writers without the monad *)

(** What [write_inventory_file] finds in an existing file: the timestamp
    line and the serialized body. *)
Definition parse_inventory_file (text : string) : option string * option string :=
  let existing_lines := PyStr.readlines text in
  (find_existing_timestamp existing_lines,
   content_from existing_lines (tree_yaml_start_index existing_lines)).

Definition existing_inventory (f : Location) (w : World)
  : option string * option string :=
  match lookup_file f w with
  | Some text => if read_fails w f then (None, None) else parse_inventory_file text
  | None => (None, None)
  end.

Definition keeps_timestamp (existing : option string * option string)
  (new_yaml_content : string) : bool :=
  bool_decide (existing.2 = Some new_yaml_content) && PyStr.truthy_opt existing.1.

Definition timestamp_line_for (existing : option string * option string)
  (new_yaml_content : string) (w : World) : string :=
  if keeps_timestamp existing new_yaml_content then default "" existing.1
  else "# Generated at: " +:+ strftime (clock w (ticks w)).

(** What [create_host_vars] finds in an existing file: the serialized body. *)
Definition parse_host_vars_file (text : string) : option string :=
  let existing_lines := PyStr.readlines text in
  content_from existing_lines (vars_yaml_start_index existing_lines).

Definition host_vars_should_write (f : Location) (new_yaml_content : string)
  (w : World) : bool :=
  match lookup_file f w with
  | Some text =>
      if read_fails w f then true
      else match parse_host_vars_file text with
           | Some existing_yaml_content =>
               negb (bool_decide (existing_yaml_content = new_yaml_content))
           | None => true
           end
  | None => true
  end.

(** ** Well-formed texts *)

(** A timestamp line as the writer produces or preserves it: one line, no
    white space around it, starting with the marker. *)
Definition good_timestamp (ts : string) : Prop :=
  PyStr.one_line ts = true ∧ PyStr.strip ts = ts ∧ PyStr.startswith MARKER ts = true.

(** A title that keeps the header of a tree file readable: one line, and
    the title line is not taken for a timestamp line. *)
Definition header_ok (title : string) : Prop :=
  PyStr.one_line title = true
  ∧ is_timestamp_line ("# " +:+ title +:+ " Inventory" +:+ NL) = false.

Fixpoint last_char (s : string) : option ascii :=
  match s with
  | EmptyString => None
  | String c EmptyString => Some c
  | String _ s' => last_char s'
  end.

(** No lower-case letter follows a character that is not a letter
    ([after_letter] tells what precedes the text). *)
Fixpoint title_cased (after_letter : bool) (s : string) : bool :=
  match s with
  | EmptyString => true
  | String c s' =>
      (if PyStr.islower c then after_letter else true) && title_cased (PyStr.isalpha c) s'
  end.

(** A record whose key is not empty and fits on one line: the invariant
    of the record model that the writers rely on. *)
Definition well_named (cfg : Config) (host : Host) : Prop :=
  PyStr.one_line (get_inventory_key_value host (inventory_key cfg)) = true
  ∧ PyStr.truthy (get_inventory_key_value host (inventory_key cfg)) = true.

(** No orphan of the host-variable directory can be removed: the state
    the clean-up leaves. *)
Definition cleaned (hosts : list Host) (w : World) : Prop :=
  ∀ n, n ∈ orphaned_files hosts (host_vars_files w) →
       unlink_fails w (HostVarsFile n) = true.

(** ** A run as a list of writes *)

(** When no file operation fails, the loop over the environments comes
    down to a list of writes, each of which looks at one file only. *)
Inductive Request :=
| WriteHostVars (host : Host)
| WriteTree (output_file title : string) (tree : Inventory).

Definition io_ok (w : World) : Prop :=
  ∀ f, read_fails w f = false ∧ write_fails w f = false.

Section Requests.

Variable lib : Library.
Variable cfg : Config.

Definition target (r : Request) : Location :=
  match r with
  | WriteHostVars host => HostVarsFile (get_host_vars_filename host (inventory_key cfg))
  | WriteTree output_file _ _ => InventoryFile output_file
  end.

Definition perform (w : World) (r : Request) : World :=
  match r with
  | WriteHostVars host => (create_host_vars lib cfg host w).1
  | WriteTree output_file title tree =>
      (write_inventory_file lib tree output_file title w).1
  end.

(** The text of the host-variable file of a record, and its body. *)
Definition host_vars_body (host : Host) : string :=
  yaml_dump_vars lib (host_vars_of lib cfg host).

Definition host_vars_text (host : Host) : string :=
  host_vars_file_text (get_inventory_key_value host (inventory_key cfg))
    (HOST_VARS_HEADER cfg) (host_vars_body host).

(** The file already holds this body: [create_host_vars] will not write. *)
Definition host_vars_settled (body : string) (state : option string) : bool :=
  match state with
  | Some text => bool_decide (parse_host_vars_file text = Some body)
  | None => false
  end.

(** The name and the output file of a target environment. *)
Definition environment_name (env : string) : string :=
  match get_environment_info_from_code cfg env with
  | Some info => name info
  | None => env
  end.

Definition environment_file (env : string) : string :=
  let inventory_filename :=
    match get_environment_info_from_code cfg env with
    | Some info => inventory_file info
    | None => Some (env +:+ ".yml")
    end in
  if PyStr.truthy_opt inventory_filename then default "" inventory_filename
  else environment_name env +:+ ".yml".

Definition environment_hosts (hosts : list Host) (env : string) : list Host :=
  filter (λ h, Models.environment h = env ∨ Models.environment h = environment_name env)
    hosts.

(** The writes of one turn of the loop, and of the whole loop. *)
Definition environment_requests (hosts : list Host) (env : string) : list Request :=
  match environment_hosts hosts env with
  | [] => []
  | _ :: _ =>
      let active_hosts :=
        filter (λ h, is_active h = true) (environment_hosts hosts env) in
      (WriteHostVars <$> active_hosts)
      ++ [WriteTree (environment_file env)
            (PyStr.title (environment_name env) +:+ " Environment")
            (tree_of (inventory_key cfg) (environment_name env) active_hosts)]
  end.

Definition plan (hosts : list Host) (envs : list string) : list Request :=
  envs ≫= environment_requests hosts.

(** The paths the loop reports. *)
Definition environment_outputs (hosts : list Host) (envs : list string) : list string :=
  envs ≫= (λ env, match environment_hosts hosts env with
                  | [] => []
                  | _ :: _ => [inventory_dir cfg +:+ "/" +:+ environment_file env]
                  end).

(** The records whose host-variable file is [f], in the order of the
    writes. *)
Definition host_vars_writers (f : Location) (rs : list Request) : list Host :=
  omap (λ r, match r with
             | WriteHostVars host => if decide (target r = f) then Some host else None
             | WriteTree _ _ _ => None
             end) rs.

(** What a list of writes leaves in a host-variable file: the file as it
    was when it held the body of every writer, the text of the last writer
    otherwise. *)
Definition host_vars_outcome (state : option string) (writers : list Host)
  : option string :=
  if forallb (λ h, host_vars_settled (host_vars_body h) state) writers then state
  else host_vars_text <$> last writers.

(** The file holds a tree file with this title and this body. *)
Definition tree_settled (title body : string) (state : option string) : Prop :=
  ∃ ts, good_timestamp ts ∧ state = Some (inventory_file_text title ts body).

(** The tree writes aimed at [f] all have this title and this body. *)
Definition tree_writes_agree (f : Location) (title body : string) (rs : list Request)
  : Prop :=
  ∀ output_file title' tree,
    WriteTree output_file title' tree ∈ rs → InventoryFile output_file = f →
    title' = title ∧ yaml_dump lib (filtered_inventory tree) = body.

End Requests.

(** Every character of the text satisfies the test. *)
Fixpoint all_chars (test : ascii → bool) (s : string) : bool :=
  match s with
  | EmptyString => true
  | String c s' => test c && all_chars test s'
  end.

(** ** Sample data *)

Module Sample.

Definition host (hostname environment status : string)
  (application_service : option string) (product_ids : list string)
  (site_code batch_number : option string) : Host :=
  {| hostname := hostname; cname := None; environment := environment;
     status := status; application_service := application_service;
     product_ids := product_ids; site_code := site_code;
     batch_number := batch_number; attributes := ∅; metadata := ∅ |}.

Definition web01 : Host :=
  host "web01" "production" "active" (Some "web") ["web"; "monitoring"] None None.
Definition db01 : Host :=
  host "db01" "production" "active" (Some "db") [] None None.
Definition old01 : Host :=
  host "old01" "production" "decommissioned" (Some "web") ["web"] (Some "ams") (Some "1").

(** A serializer in the block style of PyYAML, keys sorted. *)
Definition sorted_keys (keys : gset string) : list string :=
  merge_sort String.le (elements keys).

Definition dump_table (label : string) (keys : gset string) : string :=
  match sorted_keys keys with
  | [] => "  " +:+ label +:+ ": {}" +:+ NL
  | ks => "  " +:+ label +:+ ":" +:+ NL
          +:+ PyStr.join ((λ k, "    " +:+ k +:+ ": {}" +:+ NL) <$> ks)
  end.

Definition dump_group (inventory : Inventory) (g : string) : string :=
  match inventory !! g with
  | Some data =>
      g +:+ ":" +:+ NL +:+ dump_table "children" (children data)
      +:+ match hosts data with Some hs => dump_table "hosts" hs | None => "" end
  | None => ""
  end.

Definition dump_inventory (inventory : Inventory) : string :=
  match sorted_keys (dom inventory) with
  | [] => "{}" +:+ NL
  | gs => PyStr.join (dump_group inventory <$> gs)
  end.

Definition dump_value (v : PyVal) : string :=
  match v with
  | VStr s => if PyStr.truthy s then s else "''"
  | VInt z => pretty z
  end.

Definition dump_vars (vars : gmap string PyVal) : string :=
  match sorted_keys (dom vars) with
  | [] => "{}" +:+ NL
  | ks => PyStr.join ((λ k, k +:+ ": " +:+ from_option dump_value "" (vars !! k) +:+ NL) <$> ks)
  end.

(** Decimal numerals. *)
Fixpoint digits_value (acc : Z) (s : string) : option Z :=
  match s with
  | EmptyString => Some acc
  | String c s' =>
      if PyStr.isdigit c
      then digits_value (10 * acc + Z.of_nat (nat_of_ascii c - 48)) s'
      else None
  end.

Definition parse_int (s : string) : option Z :=
  if PyStr.truthy s then digits_value 0 s else None.

(** A validating constructor in the manner of [Host.from_csv_row]. *)
Definition nonblank (row : gmap string string) (column : string) : option string :=
  match row !! column with
  | Some v => if PyStr.truthy v then Some v else None
  | None => None
  end.

Definition parse_row (row_data : RowData) : result Host :=
  let row := columns row_data in
  let hostname := default "" (row !! "hostname") in
  let cname := nonblank row "cname" in
  let environment := default "" (row !! "environment") in
  let status := default "active" (nonblank row "status") in
  if negb (PyStr.truthy hostname || PyStr.truthy_opt cname)
  then Raise (ValueError "hostname or cname is required")
  else if negb (bool_decide
                  (environment ∈ ["production"; "development"; "test"; "acceptance"]))
  then Raise (ValueError "Invalid environment")
  else if negb (bool_decide (status ∈ ["active"; "decommissioned"]))
  then Raise (ValueError "Invalid status")
  else
    Ok {| hostname := hostname; cname := cname; environment := environment;
          status := status;
          application_service := nonblank row "application_service";
          product_ids :=
            omap (nonblank row) ["product_1"; "product_2"; "product_3"; "product_4"];
          site_code := nonblank row "site_code";
          batch_number := nonblank row "batch_number";
          attributes :=
            filter (λ entry, entry.1 ∈ ["ssl_port"; "function"; "instance"]) row;
          metadata :=
            filter (λ entry,
                      entry.1 ∉ ["hostname"; "cname"; "environment"; "status";
                                 "application_service"; "product_1"; "product_2";
                                 "product_3"; "product_4"; "site_code";
                                 "batch_number"; "ssl_port"; "function"; "instance"])
                   row |}.

Definition library : Library :=
  {| yaml_dump := dump_inventory;
     yaml_dump_vars := dump_vars;
     py_int := parse_int;
     from_csv_row := parse_row;
     cleanup_orphaned_group_vars := λ _ _, Ok 0 |}.

Definition config : Config :=
  {| inventory_key := "hostname";
     environments := ["production"; "development"; "test"; "acceptance"];
     inventory_dir := "inventory";
     csv_file := "inventory_source/hosts.csv";
     cleanup_orphaned_on_generate := true;
     host_var_fields := ["hostname"; "cname"; "ssl_port"; "function"];
     group_references := ["application_service"; "site_code"; "batch_number"];
     default_support_group := "";
     function_append_short_cname := false;
     function_short_cname_position := "back";
     location_codes := ∅;
     HOST_VARS_HEADER := "Generated by the inventory management system" |}.

(** A line with one cell for every column of the header. *)
Definition row (values : list (string * string)) : CsvRow :=
  {| cells := Some <$> (list_to_map values : gmap string string);
     restkey := None |}.

Definition table : CsvTable :=
  {| header_error := None;
     fieldnames := ["hostname"; "environment"; "status"; "application_service";
                    "product_1"; "site_code"; "ssl_port"];
     rows_error := None;
     rows :=
       [ row [("hostname", "web01"); ("environment", "production");
              ("status", "active"); ("application_service", "web");
              ("product_1", "web"); ("site_code", "ams-1"); ("ssl_port", "443")];
         row [("hostname", "old01"); ("environment", "production");
              ("status", "decommissioned"); ("application_service", "web");
              ("product_1", "web"); ("site_code", "ams-1"); ("ssl_port", "")];
         row [("hostname", "dev01"); ("environment", "development");
              ("status", "active"); ("application_service", "");
              ("product_1", ""); ("site_code", ""); ("ssl_port", "")] ] |}.

Definition noon : DateTime :=
  {| year := 2024; month := 5; day := 17; hour := 12; minute := 0; second := 0 |}.

(** The [n]-th reading of the clock is [n] seconds after noon. *)
Definition ticking (n : nat) : DateTime :=
  {| year := 2024; month := 5; day := 17; hour := 12;
     minute := n / 60 mod 60; second := n mod 60 |}.

Definition world (files : list (string * string)) : World :=
  {| inventory_files := ∅;
     host_vars_files := list_to_map files;
     read_fails := λ _, false;
     write_fails := λ _, false;
     unlink_fails := λ _, false;
     csv_source := Some table;
     clock := ticking;
     ticks := 0;
     journal := [] |}.

(** The records [a] and [c], the second one decommissioned, and a
    directory with the files [a.yml], [b.yml] and [c.yml]. *)
Definition record_a : Host := host "a" "production" "active" None [] None None.
Definition record_c : Host := host "c" "production" "decommissioned" None [] None None.
Definition abc : World :=
  world [("a.yml", "a: 1"); ("b.yml", "b: 2"); ("c.yml", "c: 3")].

(** The same world with some operations denied. *)
Definition with_faults (read write remove : Location → bool) (w : World) : World :=
  {| inventory_files := inventory_files w; host_vars_files := host_vars_files w;
     read_fails := read; write_fails := write; unlink_fails := remove;
     csv_source := csv_source w; clock := clock w; ticks := ticks w;
     journal := journal w |}.

(** The sample world in which the tree file of production cannot be
    opened for writing. *)
Definition production_locked : World :=
  with_faults (λ _, false) (λ f, bool_decide (f = InventoryFile "production.yml"))
    (λ _, false) (world []).

(** The records of the sample table, as [load_hosts] returns them, and the
    decommissioned one among them. *)
Definition loaded : list Host :=
  match (load_hosts library config None (world [])).2 with
  | Ok records => records
  | Raise _ => []
  end.

Definition decommissioned : Host := default old01 (loaded !! 1).

(** The same world without its source table. *)
Definition without_source (w : World) : World :=
  {| inventory_files := inventory_files w; host_vars_files := host_vars_files w;
     read_fails := read_fails w; write_fails := write_fails w;
     unlink_fails := unlink_fails w;
     csv_source := None; clock := clock w; ticks := ticks w;
     journal := journal w |}.

(** The world after a first run on the sample world, and the tree of
    production that this run wrote. *)
Definition first_run : World :=
  (generate_inventories library config None false (world [])).1.

Definition production_tree : Inventory :=
  tree_of "hostname" "production" (filter (λ h, is_active h = true) loaded).

(** The sample table after the application service of [dev01], a record
    of development, has changed, and a world with another source table. *)
Definition regrouped : CsvTable :=
  {| header_error := None;
     fieldnames := fieldnames table;
     rows_error := None;
     rows :=
       [ row [("hostname", "web01"); ("environment", "production");
              ("status", "active"); ("application_service", "web");
              ("product_1", "web"); ("site_code", "ams-1"); ("ssl_port", "443")];
         row [("hostname", "old01"); ("environment", "production");
              ("status", "decommissioned"); ("application_service", "web");
              ("product_1", "web"); ("site_code", "ams-1"); ("ssl_port", "")];
         row [("hostname", "dev01"); ("environment", "development");
              ("status", "active"); ("application_service", "db");
              ("product_1", ""); ("site_code", ""); ("ssl_port", "")] ] |}.

Definition with_source (source : CsvTable) (w : World) : World :=
  {| inventory_files := inventory_files w; host_vars_files := host_vars_files w;
     read_fails := read_fails w; write_fails := write_fails w;
     unlink_fails := unlink_fails w;
     csv_source := Some source; clock := clock w; ticks := ticks w;
     journal := journal w |}.

End Sample.

(** * Definitions used by the further properties *)

(** [s.isascii()]: every character of the text is below U+0080. On such
    text [PyStr.lower] and [PyStr.upper] are the methods of Python. *)
Definition isascii (s : string) : bool :=
  all_chars (λ c, Nat.ltb (nat_of_ascii c) 128) s.

(** A row of [load_csv_data] as a row of the reader: a cell for every
    column, and one empty cell beyond the header when the row has the key
    [None]. *)
Definition as_reader_row (row_data : RowData) : CsvRow :=
  {| cells := Some <$> columns row_data;
     restkey := if has_none_key row_data then Some [""] else None |}.

(** The line is too short to reach the column [hostname] or the column
    [cname]: the reader has put [None] there. *)
Definition lacks_name_cell (row : CsvRow) : bool :=
  bool_decide (cells row !! "hostname" = Some None ∨ cells row !! "cname" = Some None).

(** A table whose last line stops after its first cell. *)
Definition short_line_table : CsvTable :=
  {| header_error := None;
     fieldnames := ["environment"; "hostname"; "cname"];
     rows :=
       [ {| cells := {[ "environment" := Some "production";
                        "hostname" := Some "web01"; "cname" := Some "" ]};
            restkey := None |};
         {| cells := {[ "environment" := Some "production";
                        "hostname" := None; "cname" := None ]};
            restkey := None |} ];
     rows_error := None |}.

(** The configuration with the clean-up of orphaned host-variable files
    switched off ([features.cleanup_orphaned_on_generate: false]). *)
Definition cleanup_disabled (cfg : Config) : Config :=
  {| inventory_key := inventory_key cfg;
     environments := environments cfg;
     inventory_dir := inventory_dir cfg;
     csv_file := csv_file cfg;
     cleanup_orphaned_on_generate := false;
     host_var_fields := host_var_fields cfg;
     group_references := group_references cfg;
     default_support_group := default_support_group cfg;
     function_append_short_cname := function_append_short_cname cfg;
     function_short_cname_position := function_short_cname_position cfg;
     location_codes := location_codes cfg;
     HOST_VARS_HEADER := HOST_VARS_HEADER cfg |}.

(** The value [create_host_vars] gives to a designated field: the
    attribute of the record, a port turned into a number when [int]
    accepts it. *)
Definition designated_value (lib : Library) (host : Host) (field : string)
  : option PyVal :=
  match getattr host field with
  | None => None
  | Some value =>
      Some (if String.eqb field "ssl_port" && PyStr.truthy value
            then match py_int lib value with
                 | Some port => VInt port
                 | None => VStr value
                 end
            else VStr value)
  end.

(** ** The configuration file ([scripts/core/config.py]) *)

Module ConfigFile.

(** What [yaml.safe_load] returns and what the defaults are made of:
    scalars, sequences and mappings with text keys. A mapping is a Python
    [dict]: its entries are kept in insertion order. *)
Inductive Value :=
| YNull
| YBool (b : bool)
| YInt (z : Z)
| YStr (s : string)
| YList (items : list Value)
| YDict (entries : list (string * Value)).

Abbreviation Dictionary := (list (string * Value)).

(** [d.get(key)], also [key in d] *)
Fixpoint dict_get (key : string) (d : Dictionary) : option Value :=
  match d with
  | [] => None
  | (k, v) :: rest => if String.eqb k key then Some v else dict_get key rest
  end.

(** [d[key] = value]: an existing key keeps its place, a new key goes to
    the end. *)
Fixpoint dict_set (key : string) (value : Value) (d : Dictionary) : Dictionary :=
  match d with
  | [] => [(key, value)]
  | (k, v) :: rest =>
      if String.eqb k key then (k, value) :: rest else (k, v) :: dict_set key value rest
  end.

(** The value [_deep_merge] stores under a key of the override:
    [_deep_merge(result[key], value)] when the key is in [result] and both
    values are dictionaries, [value] otherwise. The loop of [_deep_merge]
    is the inner [fix]. *)
Fixpoint merged_value (current : option Value) (value : Value) {struct value} : Value :=
  match current, value with
  | Some (YDict base), YDict override =>
      YDict ((fix loop (result items : Dictionary) {struct items} : Dictionary :=
                match items with
                | [] => result
                | (key, value) :: rest =>
                    loop (dict_set key (merged_value (dict_get key result) value) result)
                      rest
                end) base override)
  | _, _ => value
  end.

(** [_deep_merge(base, override)]: [result = base.copy()], then the loop
    over [override.items()]. *)
Fixpoint _deep_merge (base override : Dictionary) {struct override} : Dictionary :=
  match override with
  | [] => base
  | (key, value) :: rest =>
      _deep_merge (dict_set key (merged_value (dict_get key base) value) base) rest
  end.

(** The keys of a dictionary are distinct, at every depth. *)
Fixpoint well_formed (v : Value) : Prop :=
  match v with
  | YList items =>
      (fix all (items : list Value) : Prop :=
         match items with
         | [] => True
         | item :: rest => well_formed item ∧ all rest
         end) items
  | YDict entries =>
      NoDup entries.*1
      ∧ (fix all (entries : Dictionary) : Prop :=
           match entries with
           | [] => True
           | (_, value) :: rest => well_formed value ∧ all rest
           end) entries
  | _ => True
  end.

(** What is outside the program: the version of the package, the
    configuration file ([None] when it does not exist, an exception when
    it cannot be read or parsed, the loaded value otherwise) and the two
    environment variables; and the cache of the module. *)
Record Setting := {
  VERSION : string;
  config_file : option (result Value);
  INVENTORY_CSV_FILE : option string;
  INVENTORY_LOG_LEVEL : option string;
  _config_cache : option Dictionary;
}.

(** A call returns or raises [TypeError]. *)
Inductive Outcome (A : Type) :=
| Returns (a : A)
| TypeError.
Arguments Returns {A} a.
Arguments TypeError {A}.

Definition minimal_defaults (version : string) : Dictionary :=
  [ ("version", YStr version);
    ("paths", YDict [ ("project_root", YStr ".");
                      ("inventory_source", YStr "inventory_source");
                      ("inventory", YStr "inventory");
                      ("host_vars", YStr "inventory/host_vars");
                      ("group_vars", YStr "inventory/group_vars");
                      ("backups", YStr "backups");
                      ("logs", YStr "logs") ]);
    ("data", YDict [ ("csv_file", YStr "inventory_source/hosts.csv") ]);
    ("environments",
     YDict [ ("supported", YList [ YStr "production"; YStr "development";
                                   YStr "test"; YStr "acceptance" ]) ]);
    ("hosts", YDict [ ("valid_status_values", YList [ YStr "active";
                                                      YStr "decommissioned" ]);
                      ("default_status", YStr "active");
                      ("inventory_key", YStr "hostname") ]);
    ("logging", YDict [ ("level", YStr "INFO") ]) ].

(** [config.setdefault(section, {})[key] = value] *)
Definition set_in_section (section key : string) (value : Value) (config : Dictionary)
  : Outcome Dictionary :=
  match dict_get section config with
  | None => Returns (dict_set section (YDict [(key, value)]) config)
  | Some (YDict entries) => Returns (dict_set section (YDict (dict_set key value entries)) config)
  | Some _ => TypeError
  end.

(** [_apply_env_overrides(config)] *)
Definition _apply_env_overrides (s : Setting) (config : Dictionary) : Outcome Dictionary :=
  match
    (if PyStr.truthy_opt (INVENTORY_CSV_FILE s)
     then set_in_section "data" "csv_file" (YStr (default "" (INVENTORY_CSV_FILE s))) config
     else Returns config)
  with
  | TypeError => TypeError
  | Returns config =>
      if PyStr.truthy_opt (INVENTORY_LOG_LEVEL s)
      then set_in_section "logging" "level" (YStr (default "" (INVENTORY_LOG_LEVEL s)))
             config
      else Returns config
  end.

Definition with_cache (cache : option Dictionary) (s : Setting) : Setting :=
  {| VERSION := VERSION s; config_file := config_file s;
     INVENTORY_CSV_FILE := INVENTORY_CSV_FILE s;
     INVENTORY_LOG_LEVEL := INVENTORY_LOG_LEVEL s; _config_cache := cache |}.

(** [load_config()]. Whatever goes wrong with the file leaves the
    defaults: it is missing, it cannot be read or parsed, or what it holds
    is not a dictionary ([_deep_merge] then raises on [override.items()],
    unless the value is false and [or {}] replaces it). *)
Definition load_config (s : Setting) : Setting * Outcome Dictionary :=
  match _config_cache s with
  | Some config => (s, Returns config)
  | None =>
      let config :=
        match config_file s with
        | Some (Ok (YDict yaml_config)) =>
            _deep_merge (minimal_defaults (VERSION s)) yaml_config
        | _ => minimal_defaults (VERSION s)
        end in
      match _apply_env_overrides s config with
      | Returns config => (with_cache (Some config) s, Returns config)
      | TypeError => (s, TypeError)
      end
  end.

(** [get_config()] and [reload_config()] *)
Definition get_config (s : Setting) : Setting * Outcome Dictionary := load_config s.

Definition reload_config (s : Setting) : Setting * Outcome Dictionary :=
  load_config (with_cache None s).

(** [config.get(section, {}).get(key, default)], as the module reads its
    constants. *)
Definition get_in (section key : string) (config : Dictionary) : option Value :=
  match dict_get section config with
  | Some (YDict entries) => dict_get key entries
  | _ => None
  end.

End ConfigFile.

(** The size of a configuration value, for inductions over nested
    dictionaries. *)
Fixpoint value_size (v : ConfigFile.Value) : nat :=
  match v with
  | ConfigFile.YList items =>
      S ((fix sum (items : list ConfigFile.Value) : nat :=
            match items with
            | [] => 0
            | item :: rest => value_size item + sum rest
            end) items)
  | ConfigFile.YDict entries =>
      S ((fix sum (entries : ConfigFile.Dictionary) : nat :=
            match entries with
            | [] => 0
            | (_, value) :: rest => value_size value + sum rest
            end) entries)
  | _ => 1
  end.

(** [isinstance(value, dict)] fails for a value that is there. *)
Definition not_a_dictionary (value : option ConfigFile.Value) : bool :=
  match value with
  | Some (ConfigFile.YDict _) | None => false
  | Some _ => true
  end.

(** The section of the configuration file, when the file holds a
    dictionary. *)
Definition yaml_section (s : ConfigFile.Setting) (section : string)
  : option ConfigFile.Value :=
  match ConfigFile.config_file s with
  | Some (Ok (ConfigFile.YDict yaml_config)) => ConfigFile.dict_get section yaml_config
  | _ => None
  end.

(** ** The generate command ([scripts/commands/generate_command.py]) *)

Module GenerateCommand.

(** The parsed arguments of the command: [args.output_dir],
    [args.host_vars_dir], [args.environments], [args.dry_run] and
    [args.inventory_key]. *)
Record Args := {
  args_output_dir : string;
  args_host_vars_dir : string;
  args_environments : option (list string);
  args_dry_run : bool;
  args_inventory_key : string;
}.

(** What the command hands to [CommandResult(...)]. Of [result_data], the
    entries taken from the report of the manager and from the arguments are
    kept; the statistics of the run are left out, as in [Report]. *)
Inductive Data :=
| Generated (generated_files : list string) (orphaned_files_removed : nat)
    (inventory_dir : string) (inventory_key : string)
| WouldGenerate (inventory_files host_vars_files : nat) (environments : list string)
    (environment_stats : list (string * (nat * nat))) (orphaned_files : nat)
    (inventory_dir host_vars_dir : string).

(** The arguments of [CommandResult(...)]; an argument that is not given
    is [None]. *)
Record CommandResult := {
  success : bool;
  data : option Data;
  message : option string;
  error : option string;
}.

(** [result.get("orphaned_files_removed", 0)] *)
Definition report_orphaned_files_removed (r : Report) : nat :=
  match r with
  | Success _ _ _ orphaned_files_removed _ => orphaned_files_removed
  | Error _ _ => 0
  end.

(** [env_stats]: a dictionary from the environment of a record to its
    numbers of active and of other records, in the order in which the
    environments first occur. *)
Fixpoint stats_get (env : string) (env_stats : list (string * (nat * nat)))
  : option (nat * nat) :=
  match env_stats with
  | [] => None
  | (k, v) :: rest => if String.eqb k env then Some v else stats_get env rest
  end.

Fixpoint stats_set (env : string) (value : nat * nat)
  (env_stats : list (string * (nat * nat))) : list (string * (nat * nat)) :=
  match env_stats with
  | [] => [(env, value)]
  | (k, v) :: rest =>
      if String.eqb k env then (k, value) :: rest else (k, v) :: stats_set env value rest
  end.

(** The body of the [for host in hosts] loop of [_dry_run_generate]. *)
Definition count_host (env_stats : list (string * (nat * nat))) (host : Host)
  : list (string * (nat * nat)) :=
  let env_stats :=
    match stats_get (Models.environment host) env_stats with
    | None => stats_set (Models.environment host) (0, 0) env_stats
    | Some _ => env_stats
    end in
  let counts := default (0, 0) (stats_get (Models.environment host) env_stats) in
  if is_active host
  then stats_set (Models.environment host) (S counts.1, counts.2) env_stats
  else stats_set (Models.environment host) (counts.1, S counts.2) env_stats.

(** The body of the [for env in target_environments] loop: the numbers of
    inventory files and of host-variable files so far. *)
Definition count_environment (env_stats : list (string * (nat * nat)))
  (totals : nat * nat) (env : string) : nat * nat :=
  match stats_get env env_stats with
  | Some counts => (S totals.1, totals.2 + counts.1)
  | None => totals
  end.

Section Command.

Variable lib : Library.

(** The configuration of the manager, before the inventory key of the
    arguments is put in. *)
Variable cfg : Config.

(** [InventoryManager(csv_file, logger, inventory_key=...)]: the
    configuration with the inventory key of the arguments. *)
Definition manager_config (args : Args) : Config :=
  {| inventory_key := args_inventory_key args;
     environments := environments cfg;
     inventory_dir := inventory_dir cfg;
     csv_file := csv_file cfg;
     cleanup_orphaned_on_generate := cleanup_orphaned_on_generate cfg;
     host_var_fields := host_var_fields cfg;
     group_references := group_references cfg;
     default_support_group := default_support_group cfg;
     function_append_short_cname := function_append_short_cname cfg;
     function_short_cname_position := function_short_cname_position cfg;
     location_codes := location_codes cfg;
     HOST_VARS_HEADER := HOST_VARS_HEADER cfg |}.

(** The constructor of the manager raises when the source table is not
    there. *)
Definition new_manager (args : Args) : IO Config :=
  λ w, match csv_source w with
       | Some _ => (w, Ok (manager_config args))
       | None => (w, Raise (FileNotFoundError ("CSV file not found: " +:+ csv_file cfg)))
       end.

(** [_dry_run_generate(args, inventory_manager)] *)
Definition _dry_run_generate (args : Args) (manager : Config) : IO CommandResult :=
  try_except
    (result ← generate_inventories lib manager (args_environments args) true;
     hosts ← load_hosts lib manager None;
     let env_stats := foldl count_host [] hosts in
     let target_environments :=
       match args_environments args with
       | Some (env :: rest) => env :: rest
       | _ => env_stats.*1
       end in
     let totals := foldl (count_environment env_stats) (0, 0) target_environments in
     mret {| success := true;
             data := Some (WouldGenerate totals.1 totals.2 target_environments env_stats
                             (report_orphaned_files_removed result)
                             (args_output_dir args) (args_host_vars_dir args));
             message := Some ("[DRY RUN] Would generate " +:+ pretty totals.1
                              +:+ " inventory files and " +:+ pretty totals.2
                              +:+ " host_vars files");
             error := None |})
    (λ e, mret {| success := false; data := None; message := None;
                  error := Some ("Dry run failed: " +:+ exn_message e) |}).

(** [execute(args)] *)
Definition execute (args : Args) : IO CommandResult :=
  try_except
    (inventory_manager ← new_manager args;
     if args_dry_run args then _dry_run_generate args inventory_manager
     else
       result ← generate_inventories lib inventory_manager (args_environments args)
                  (args_dry_run args);
       mret {| success := true;
               data := Some (Generated (report_generated_files result)
                               (report_orphaned_files_removed result)
                               (inventory_dir inventory_manager)
                               (args_inventory_key args));
               message := Some ("✅ Generated inventories using "
                                +:+ args_inventory_key args +:+ " as inventory key");
               error := None |})
    (λ e,
       match e with
       | FileNotFoundError _ =>
           mret {| success := false; data := None; message := None;
                   error := Some ("CSV file not found: " +:+ exn_message e) |}
       | _ =>
           mret {| success := false; data := None; message := None;
                   error := Some ("Generation failed: " +:+ exn_message e) |}
       end).

End Command.

End GenerateCommand.

(** * Properties *)

(** ** Text *)

Lemma append_cons (c : ascii) (a b : string) : String c a +:+ b = String c (a +:+ b).
Proof. reflexivity. Qed.

Lemma append_nil_l (a : string) : "" +:+ a = a.
Proof. reflexivity. Qed.

Lemma append_assoc (a b c : string) : (a +:+ b) +:+ c = a +:+ (b +:+ c).
Proof. induction a as [|x a IH]; [done|]. rewrite !append_cons. by rewrite IH. Qed.

Lemma append_nil_r (a : string) : a +:+ "" = a.
Proof. induction a as [|x a IH]; [done|]. rewrite append_cons. by rewrite IH. Qed.

(** ** The tree builder *)

Lemma group_eq (d1 d2 : Group) :
  hosts d1 = hosts d2 → children d1 = children d2 → d1 = d2.
Proof. destruct d1, d2; cbn; by intros -> ->. Qed.

Lemma foldl_apply_edit d es :
  foldl (λ d e, apply_edit e d) d es = group_after d es.
Proof.
  revert d. induction es as [|e es IH]; intros [hs cs].
  - apply group_eq; cbn; [destruct hs; cbn; [apply (f_equal Some)|done]|];
      unfold added_hosts, added_children; cbn; set_solver.
  - cbn [foldl]. rewrite IH.
    apply group_eq; destruct e; cbn; try done;
      try (destruct hs; cbn; [apply (f_equal Some)|done]);
      unfold added_hosts, added_children; cbn; set_solver.
Qed.

Lemma edits_for_cons_eq x e xes : edits_for x ((x, e) :: xes) = e :: edits_for x xes.
Proof. unfold edits_for. cbn. by rewrite decide_True. Qed.

Lemma edits_for_cons_ne x y e xes :
  y ≠ x → edits_for x ((y, e) :: xes) = edits_for x xes.
Proof. intros. unfold edits_for. cbn. by rewrite decide_False. Qed.

Lemma lookup_edit_at_eq inv x e :
  edit_at inv (x, e) !! x = Some (apply_edit e (getitem x inv)).
Proof. unfold edit_at. cbn. by rewrite lookup_insert_eq. Qed.

Lemma lookup_edit_at_ne inv x y e : y ≠ x → edit_at inv (y, e) !! x = inv !! x.
Proof. intros. unfold edit_at. cbn. by rewrite lookup_insert_ne. Qed.

Lemma lookup_foldl_edit_at (xes : list (string * Edit)) (inv : Inventory) x :
  foldl edit_at inv xes !! x =
  match edits_for x xes with
  | [] => inv !! x
  | es => Some (group_after (getitem x inv) es)
  end.
Proof.
  revert inv. induction xes as [|[y e] xes IH]; intros inv; [done|].
  cbn [foldl]. rewrite IH. destruct (decide (y = x)) as [->|Hne].
  - rewrite edits_for_cons_eq. unfold getitem at 1.
    rewrite !lookup_edit_at_eq. cbn [default].
    destruct (edits_for x xes); rewrite <- ?foldl_apply_edit; done.
  - rewrite edits_for_cons_ne by done. unfold getitem.
    by rewrite !lookup_edit_at_ne.
Qed.

Lemma rooted_edit_at inv x e : rooted inv → rooted (edit_at inv (x, e)).
Proof.
  intros Hr g d. destruct (decide (x = g)) as [->|Hne].
  - rewrite lookup_edit_at_eq. intros [= <-] Hnone.
    assert (hosts (getitem g inv) = None) as Hg.
    { destruct e; cbn in Hnone; [done|done|]. by destruct (hosts (getitem g inv)). }
    unfold getitem in Hg. destruct (inv !! g) as [d|] eqn:Hd; [|done].
    by eapply Hr.
  - rewrite lookup_edit_at_ne by done. apply Hr.
Qed.

Lemma rooted_foldl_edit_at xes inv : rooted inv → rooted (foldl edit_at inv xes).
Proof.
  revert inv. induction xes as [|[x e] xes IH]; intros inv Hr; [done|].
  cbn. by apply IH, rooted_edit_at.
Qed.

Lemma rooted_root : rooted root_inventory.
Proof.
  intros g d. unfold root_inventory. rewrite lookup_singleton.
  case_decide; [done|]. done.
Qed.

Lemma getitem_hosts_rooted inv g :
  rooted inv → g ≠ "all" → is_Some (hosts (getitem g inv)).
Proof.
  intros Hr Hg. unfold getitem. destruct (inv !! g) as [d|] eqn:Hd; cbn; [|by eexists].
  destruct (hosts d) eqn:Hh; [by eexists|]. by destruct Hg; eapply Hr.
Qed.

Lemma add_member_edits inv p g k :
  rooted inv → g ≠ "all" →
  add_member p g k inv = Ok (foldl edit_at inv (member_edits (p, g, k))).
Proof.
  intros Hr Hg. unfold add_member, member_edits. cbn [foldl fst snd].
  assert ((if decide (is_Some (inv !! g)) then inv else <[g:=new_group]> inv)
          = edit_at inv (g, Touch)) as ->.
  { unfold edit_at, getitem. cbn. case_decide as Hs.
    - destruct Hs as [d Hd]. rewrite Hd. cbn. by rewrite insert_id.
    - apply eq_None_not_Some in Hs. by rewrite Hs. }
  assert (∀ i, set_child p g i = edit_at i (p, AddChild g)) as -> by done.
  set (inv2 := edit_at (edit_at inv (g, Touch)) (p, AddChild g)).
  assert (rooted inv2) as Hr2 by (by do 2 apply rooted_edit_at). clearbody inv2.
  destruct (getitem_hosts_rooted inv2 g Hr2 Hg) as [hs Hhs].
  unfold set_host. cbv zeta. rewrite Hhs. unfold edit_at. cbn. by rewrite Hhs.
Qed.

Lemma for_result_app {A S} (f : S → A → result S) s xs ys :
  for_result f s (xs ++ ys) = s' ← for_result f s xs; for_result f s' ys.
Proof.
  revert s. induction xs as [|x xs IH]; intros s; [done|].
  cbn. destruct (f s x); cbn; [apply IH|done].
Qed.

Lemma add_membership_edits inv m :
  rooted inv → m.1.2 ≠ "all" →
  add_membership inv m = Ok (foldl edit_at inv (member_edits m)).
Proof. destruct m as [[p g] k]. apply add_member_edits. Qed.

Lemma for_result_memberships inv ms :
  rooted inv → Forall (λ m, m.1.2 ≠ "all") ms →
  for_result add_membership inv ms = Ok (foldl edit_at inv (ms ≫= member_edits)).
Proof.
  intros Hr Hms. revert inv Hr. induction Hms as [|m ms Hg _ IH]; intros inv Hr; [done|].
  cbn [for_result]. rewrite add_membership_edits by done. cbn [mbind result_bind].
  rewrite IH by (by apply rooted_foldl_edit_at).
  by rewrite bind_cons, foldl_app.
Qed.



Lemma for_result_map {A B S} (f : S → B → result S) (g : A → B) s xs :
  for_result f s (g <$> xs) = for_result (λ s x, f s (g x)) s xs.
Proof.
  revert s. induction xs as [|x xs IH]; intros s; [done|].
  cbn. destruct (f s (g x)); cbn; [apply IH|done].
Qed.

Lemma for_result_nil {A S} (f : S → A → result S) s : for_result f s [] = Ok s.
Proof. done. Qed.
Lemma for_result_one {A S} (f : S → A → result S) s x : for_result f s [x] = f s x.
Proof. cbn. by destruct (f s x). Qed.
Lemma result_bind_Ok {A B} (a : A) (k : A → result B) : (x ← Ok a; k x) = k a.
Proof. done. Qed.
Lemma result_bind_Raise {A B} e (k : A → result B) : (x ← Raise e; k x) = Raise e.
Proof. done. Qed.

Lemma add_member_membership p g k inv :
  add_member p g k inv = add_membership inv (p, g, k).
Proof. done. Qed.

Lemma for_result_cons {A S} (f : S → A → result S) s x xs :
  for_result f s (x :: xs) = s' ← f s x; for_result f s' xs.
Proof. done. Qed.

Ltac result_steps :=
  repeat first
    [ rewrite for_result_nil | rewrite for_result_one | rewrite result_bind_Ok
    | rewrite result_bind_Raise ].

Lemma build_host_memberships key env inv h :
  build_host key env inv h = for_result add_membership inv (memberships key env h).
Proof.
  unfold build_host, memberships.
  destruct (negb (String.eqb (Models.environment h) env)); [done|].
  cbv zeta.
  set (k := get_inventory_key_value h key). set (eg := "env_" +:+ env).
  set (site_list := match site_group_name h with
                    | Some site_group => [(eg, site_group, k)] | None => [] end).
  set (batch_list := if PyStr.truthy_opt (batch_number h)
                        && PyStr.truthy (get_batch_group_name h)
                     then [(eg, get_batch_group_name h, k)] else []).
  assert (∀ inv2,
    match site_group_name h with
    | Some site_group => add_member eg site_group k inv2
    | None => Ok inv2
    end
    ≫= (λ inventory1 : Inventory,
         if PyStr.truthy_opt (batch_number h)
         then
          if PyStr.truthy (get_batch_group_name h)
          then add_member eg (get_batch_group_name h) k inventory1
          else Ok inventory1
         else Ok inventory1)
    = for_result add_membership inv2 (site_list ++ batch_list)) as Htail.
  { intros inv2. rewrite for_result_app. subst site_list batch_list.
    destruct (site_group_name h) as [sg|]; result_steps.
    - change (add_membership inv2 (eg, sg, k)) with (add_member eg sg k inv2).
      destruct (add_member eg sg k inv2); [|reflexivity]. result_steps.
      destruct (PyStr.truthy_opt (batch_number h)); cbn [andb]; [|done].
      destruct (PyStr.truthy (get_batch_group_name h)); result_steps; done.
    - destruct (PyStr.truthy_opt (batch_number h)); cbn [andb]; [|done].
      destruct (PyStr.truthy (get_batch_group_name h)); result_steps; done. }
  rewrite for_result_app. result_steps.
  change (add_membership inv ("all", eg, k)) with (add_member "all" eg k inv).
  destruct (add_member "all" eg k inv) as [inv1|e]; [|reflexivity]. result_steps.
  rewrite for_result_app.
  destruct (PyStr.truthy_opt (application_service h)); cbn [andb];
    [|result_steps; apply Htail].
  destruct (PyStr.truthy (get_app_group_name h)); [|result_steps; apply Htail].
  rewrite for_result_cons.
  change (add_membership inv1 (eg, get_app_group_name h, k))
    with (add_member eg (get_app_group_name h) k inv1).
  destruct (add_member eg (get_app_group_name h) k inv1) as [inv2|e]; [|reflexivity].
  result_steps.
  rewrite for_result_map. unfold get_product_group_names.
  destruct (get_product_ids h) eqn:Hp.
  - cbn [fmap list_fmap]. result_steps. apply Htail.
  - rewrite <- Hp.
    change (λ (s : Inventory) (x : string), add_membership s (get_app_group_name h, x, k))
      with (λ (s : Inventory) (x : string), add_member (get_app_group_name h) x k s).
    destruct (for_result _ inv2 _); [|reflexivity]. result_steps. apply Htail.
Qed.

Lemma prefixed_not_all (rest : string) :
  "env_" +:+ rest ≠ "all" ∧ "app_" +:+ rest ≠ "all" ∧ "product_" +:+ rest ≠ "all"
  ∧ "site_" +:+ rest ≠ "all" ∧ "batch_" +:+ rest ≠ "all".
Proof. repeat split; rewrite !append_cons; discriminate. Qed.

Lemma site_group_name_prefix h g :
  site_group_name h = Some g → ∃ rest, g = "site_" +:+ rest.
Proof.
  unfold site_group_name. destruct (PyStr.truthy_opt _); [|done].
  destruct (PyStr.truthy _); [|done]. intros [= <-]. eauto.
Qed.

Lemma app_group_name_prefix h :
  PyStr.truthy (get_app_group_name h) = true →
  ∃ rest, get_app_group_name h = "app_" +:+ rest.
Proof.
  unfold get_app_group_name. destruct (application_service h) as [a|]; [|done].
  destruct (PyStr.truthy a); [|done]. eauto.
Qed.

Lemma batch_group_name_prefix h :
  PyStr.truthy (get_batch_group_name h) = true →
  ∃ rest, get_batch_group_name h = "batch_" +:+ rest.
Proof.
  unfold get_batch_group_name. destruct (batch_number h) as [a|]; [|done].
  destruct (PyStr.truthy a); [|done]. eauto.
Qed.

Lemma product_group_names_prefix h g :
  g ∈ get_product_group_names h → ∃ rest, g = "product_" +:+ rest.
Proof.
  unfold get_product_group_names. intros (p & -> & _)%list_elem_of_fmap. eauto.
Qed.

Lemma memberships_prefixed key env h m :
  m ∈ memberships key env h → prefixed m.1.2.
Proof.
  unfold memberships. destruct (negb _); [by intros ?%elem_of_nil|]. cbv zeta.
  rewrite !elem_of_app. intros [Hm|[Hm|[Hm|Hm]]].
  - apply list_elem_of_singleton in Hm as ->. exists env. by left.
  - destruct (PyStr.truthy_opt _); [|by apply elem_of_nil in Hm].
    destruct (PyStr.truthy (get_app_group_name h)) eqn:Ha; [|by apply elem_of_nil in Hm].
    cbn [andb] in Hm. apply elem_of_cons in Hm as [->|Hm].
    + destruct (app_group_name_prefix h Ha) as [r Hr]. exists r. cbn. auto.
    + apply list_elem_of_fmap in Hm as (p & -> & Hp).
      destruct (product_group_names_prefix h p Hp) as [r Hr]. exists r. cbn. auto.
  - destruct (site_group_name h) as [sg|] eqn:Hs; [|by apply elem_of_nil in Hm].
    apply list_elem_of_singleton in Hm as ->.
    destruct (site_group_name_prefix h sg Hs) as [r Hr]. exists r. cbn. auto 6.
  - destruct (PyStr.truthy_opt _); [|by apply elem_of_nil in Hm].
    destruct (PyStr.truthy (get_batch_group_name h)) eqn:Ha; [|by apply elem_of_nil in Hm].
    apply list_elem_of_singleton in Hm as ->.
    destruct (batch_group_name_prefix h Ha) as [r Hr]. exists r. cbn. auto 6.
Qed.

Lemma prefixed_ne_all g : prefixed g → g ≠ "all".
Proof.
  intros [r Hr]. destruct (prefixed_not_all r) as (?&?&?&?&?).
  destruct Hr as [->|[->|[->|[->| ->]]]]; done.
Qed.

Lemma for_result_build_host key env inv hs :
  for_result (build_host key env) inv hs
  = for_result add_membership inv (hs ≫= memberships key env).
Proof.
  revert inv. induction hs as [|h hs IH]; intros inv; [done|].
  rewrite bind_cons, for_result_app, for_result_cons, build_host_memberships.
  destruct (for_result add_membership inv _); [|done]. result_steps. apply IH.
Qed.

Theorem build_environment_inventory_tree key hs env :
  build_environment_inventory key hs env = Ok (tree_of key env hs).
Proof.
  unfold build_environment_inventory, tree_of, edits.
  rewrite for_result_build_host.
  fold root_inventory. rewrite for_result_memberships.
  - f_equal. f_equal. induction hs as [|h hs IH]; [done|].
    by rewrite !bind_cons, bind_app, IH.
  - apply rooted_root.
  - apply Forall_forall. intros m (h & Hm & _)%list_elem_of_bind.
    by eapply prefixed_ne_all, memberships_prefixed.
Qed.

Lemma same_elements_nil {A} (l : list A) : (∀ x, x ∈ l ↔ x ∈ @nil A) → l = [].
Proof.
  destruct l as [|a l]; [done|]. intros H.
  destruct (proj1 (elem_of_nil a)). apply H. left.
Qed.

Lemma group_after_same_elements d es1 es2 :
  (∀ e, e ∈ es1 ↔ e ∈ es2) → group_after d es1 = group_after d es2.
Proof.
  intros H. unfold group_after.
  assert (added_hosts es1 = added_hosts es2) as ->.
  { unfold added_hosts. apply set_eq. intros k.
    rewrite !elem_of_list_to_set, !list_elem_of_omap. by setoid_rewrite H. }
  assert (added_children es1 = added_children es2) as ->; [|done].
  unfold added_children. apply set_eq. intros k.
  rewrite !elem_of_list_to_set, !list_elem_of_omap. by setoid_rewrite H.
Qed.

Lemma elem_of_edits_for x e xes : e ∈ edits_for x xes ↔ (x, e) ∈ xes.
Proof.
  unfold edits_for. rewrite list_elem_of_omap. split.
  - intros ([y e'] & Hin & Hd). cbn in Hd. case_decide; [|done]. by simplify_eq.
  - intros Hin. exists (x, e). split; [done|]. cbn. by rewrite decide_True.
Qed.

Lemma foldl_edit_at_same_elements inv xes1 xes2 :
  (∀ xe, xe ∈ xes1 ↔ xe ∈ xes2) → foldl edit_at inv xes1 = foldl edit_at inv xes2.
Proof.
  intros H. apply map_eq. intros x. rewrite !lookup_foldl_edit_at.
  assert (∀ e, e ∈ edits_for x xes1 ↔ e ∈ edits_for x xes2) as Hx.
  { intros e. by rewrite !elem_of_edits_for. }
  destruct (edits_for x xes1) as [|e1 es1] eqn:H1.
  - by rewrite (same_elements_nil (edits_for x xes2)).
  - destruct (edits_for x xes2) as [|e2 es2] eqn:H2.
    + by apply same_elements_nil in Hx.
    + f_equal. by apply group_after_same_elements.
Qed.

Lemma edits_same_elements key env l1 l2 :
  (∀ h, h ∈ l1 ↔ h ∈ l2) → ∀ xe, xe ∈ edits key env l1 ↔ xe ∈ edits key env l2.
Proof.
  intros H xe. unfold edits. rewrite !list_elem_of_bind. by setoid_rewrite H.
Qed.

Lemma tree_of_same_elements key env l1 l2 :
  (∀ h, h ∈ l1 ↔ h ∈ l2) → tree_of key env l1 = tree_of key env l2.
Proof.
  intros H. by apply foldl_edit_at_same_elements, edits_same_elements.
Qed.

Lemma hosts_getitem_edit_at inv x y e :
  (∀ k, e ≠ AddHost k) →
  hosts (getitem x (edit_at inv (y, e))) = hosts (getitem x inv).
Proof.
  intros He. unfold getitem at 1. destruct (decide (y = x)) as [->|Hne].
  - rewrite lookup_edit_at_eq. cbn. destruct e; try done. by destruct (He host_key).
  - by rewrite lookup_edit_at_ne.
Qed.

Lemma add_member_cases inv p g k :
  add_member p g k inv =
  match hosts (getitem g inv) with
  | Some _ => Ok (foldl edit_at inv (member_edits (p, g, k)))
  | None => Raise (KeyError "hosts")
  end.
Proof.
  unfold add_member, member_edits. cbn [foldl fst snd].
  assert ((if decide (is_Some (inv !! g)) then inv else <[g:=new_group]> inv)
          = edit_at inv (g, Touch)) as ->.
  { unfold edit_at, getitem. cbn. case_decide as Hs.
    - destruct Hs as [d Hd]. rewrite Hd. cbn. by rewrite insert_id.
    - apply eq_None_not_Some in Hs. by rewrite Hs. }
  assert (∀ i, set_child p g i = edit_at i (p, AddChild g)) as -> by done.
  set (inv2 := edit_at (edit_at inv (g, Touch)) (p, AddChild g)).
  assert (hosts (getitem g inv2) = hosts (getitem g inv)) as Hh.
  { unfold inv2. by rewrite !hosts_getitem_edit_at. }
  clearbody inv2. unfold set_host. cbv zeta. rewrite Hh.
  destruct (hosts (getitem g inv)) as [hs|] eqn:Hg; [|done].
  unfold edit_at. cbn. by rewrite Hh.
Qed.

Lemma group_after_idemp d es : group_after (group_after d es) es = group_after d es.
Proof.
  apply group_eq; cbn; [destruct (hosts d); cbn; [apply (f_equal Some)|done]|]; set_solver.
Qed.

Lemma foldl_edit_at_idemp inv xes :
  foldl edit_at (foldl edit_at inv xes) xes = foldl edit_at inv xes.
Proof.
  apply map_eq. intros x. rewrite lookup_foldl_edit_at.
  destruct (edits_for x xes) as [|e es] eqn:E.
  - by rewrite lookup_foldl_edit_at, E.
  - rewrite lookup_foldl_edit_at, E. f_equal.
    unfold getitem at 1. rewrite lookup_foldl_edit_at, E. cbn [default].
    apply group_after_idemp.
Qed.

Lemma add_member_idemp inv inv' p g k :
  add_member p g k inv = Ok inv' → add_member p g k inv' = Ok inv'.
Proof.
  rewrite (add_member_cases inv).
  destruct (hosts (getitem g inv)) as [hs|] eqn:Hg; [|done]. intros Heq.
  assert (inv' = foldl edit_at inv (member_edits (p, g, k))) as -> by congruence.
  rewrite add_member_cases.
  assert (is_Some (hosts (getitem g (foldl edit_at inv (member_edits (p, g, k))))))
    as [hs' ->]; [|by rewrite foldl_edit_at_idemp].
  unfold getitem at 1. rewrite lookup_foldl_edit_at.
  destruct (edits_for _ _); cbn.
  - fold (getitem g inv). by rewrite Hg.
  - by rewrite Hg.
Qed.


Lemma elem_of_edits key env l x e :
  (x, e) ∈ edits key env l →
  ∃ h m, h ∈ l ∧ m ∈ memberships key env h ∧ (x, e) ∈ member_edits m.
Proof.
  unfold edits. intros (h & (m & Hxe & Hm)%list_elem_of_bind & Hh)%list_elem_of_bind.
  eauto.
Qed.

Lemma elem_of_member_edits x e m :
  (x, e) ∈ member_edits m →
  (x = m.1.2 ∧ e = Touch) ∨ (x = m.1.1 ∧ e = AddChild m.1.2) ∨ (x = m.1.2 ∧ e = AddHost m.2).
Proof.
  unfold member_edits. rewrite !elem_of_cons, elem_of_nil. naive_solver.
Qed.


Lemma memberships_key key env h m :
  m ∈ memberships key env h →
  m.2 = get_inventory_key_value h key ∧ Models.environment h = env.
Proof.
  unfold memberships. destruct (String.eqb _ _) eqn:He; [|by intros ?%elem_of_nil].
  apply String.eqb_eq in He. cbn [negb]. cbv zeta.
  rewrite !elem_of_app. intros [Hm|[Hm|[Hm|Hm]]].
  - by apply list_elem_of_singleton in Hm as ->.
  - destruct (_ && _); [|by apply elem_of_nil in Hm].
    apply elem_of_cons in Hm as [->|Hm]; [done|].
    by apply list_elem_of_fmap in Hm as (p & -> & Hp).
  - destruct (site_group_name h) as [sg|] eqn:Hs; [|by apply elem_of_nil in Hm].
    by apply list_elem_of_singleton in Hm as ->.
  - destruct (_ && _); [|by apply elem_of_nil in Hm].
    by apply list_elem_of_singleton in Hm as ->.
Qed.

(** A key in the host table of a group was put there for a host of the list. *)
Lemma tree_of_hosts key env l g data hs k :
  tree_of key env l !! g = Some data → hosts data = Some hs → k ∈ hs →
  ∃ h, h ∈ l ∧ Models.environment h = env ∧ get_inventory_key_value h key = k.
Proof.
  unfold tree_of. rewrite lookup_foldl_edit_at.
  destruct (edits_for g (edits key env l)) as [|e es] eqn:Hes.
  - unfold root_inventory. rewrite lookup_singleton. case_decide; [|done].
    by intros [= <-].
  - intros [= <-]. unfold group_after. cbn [hosts]. unfold getitem, root_inventory.
    rewrite lookup_singleton. case_decide as Hg; cbn [default fmap option_fmap option_map hosts new_group]; [done|].
    intros [= <-]. rewrite elem_of_union. intros [Hk|Hk]; [|set_solver].
    unfold added_hosts in Hk. rewrite elem_of_list_to_set, list_elem_of_omap in Hk.
    destruct Hk as (e' & He' & Hk). destruct e'; try done. simplify_eq.
    rewrite <- Hes in He'.
    apply elem_of_edits_for, elem_of_edits in He' as (h & m & Hh & Hm & Hin).
    apply elem_of_member_edits in Hin as [[_ ?]|[[_ ?]|[_ [= ->]]]]; try done.
    destruct (memberships_key _ _ _ _ Hm) as [-> <-]. eauto.
Qed.

Ltac each_ascii c :=
  destruct c as [[] [] [] [] [] [] [] []]; vm_compute; try reflexivity; try discriminate.






Lemma elem_of_edits_intro key env l h m xe :
  h ∈ l → m ∈ memberships key env h → xe ∈ member_edits m → xe ∈ edits key env l.
Proof.
  intros Hh Hm Hxe. unfold edits. apply list_elem_of_bind. exists h. split; [|done].
  apply list_elem_of_bind. eauto.
Qed.

(** What a membership of a host of the list leaves in the tree. *)
Lemma tree_of_membership key env l h p g k :
  h ∈ l → (p, g, k) ∈ memberships key env h →
  ∃ parent_data data hs,
    tree_of key env l !! p = Some parent_data ∧ g ∈ children parent_data
    ∧ tree_of key env l !! g = Some data ∧ hosts data = Some hs ∧ k ∈ hs.
Proof.
  intros Hh Hm.
  assert ((p, AddChild g) ∈ edits key env l) as Hc.
  { eapply elem_of_edits_intro; [done..|]. unfold member_edits. cbn. set_solver. }
  assert ((g, AddHost k) ∈ edits key env l) as Hk.
  { eapply elem_of_edits_intro; [done..|]. unfold member_edits. cbn. set_solver. }
  apply elem_of_edits_for in Hc, Hk. unfold tree_of. rewrite !lookup_foldl_edit_at.
  destruct (edits_for p _) as [|e1 es1] eqn:H1; [by apply elem_of_nil in Hc|].
  destruct (edits_for g _) as [|e2 es2] eqn:H2; [by apply elem_of_nil in Hk|].
  assert (g ≠ "all") as Hg.
  { eapply (prefixed_ne_all g), (memberships_prefixed _ _ _ (p, g, k)); done. }
  assert (getitem g root_inventory = new_group) as Hnew.
  { unfold getitem, root_inventory. by rewrite lookup_singleton_ne. }
  eexists _, _, (added_hosts (e2 :: es2) ∪ ∅). split; [done|]. split.
  { unfold group_after. cbn [children]. apply elem_of_union_l. unfold added_children.
    rewrite elem_of_list_to_set, list_elem_of_omap. by exists (AddChild g). }
  split; [done|]. split.
  { unfold group_after. cbn [hosts]. by rewrite Hnew. }
  apply elem_of_union_l. unfold added_hosts.
  rewrite elem_of_list_to_set, list_elem_of_omap. by exists (AddHost k).
Qed.


Section WriterFacts.

Variable lib : Library.
Variable cfg : Config.

Lemma write_inventory_file_unfold inventory output_file title w :
  let f := InventoryFile output_file in
  let new_yaml_content := yaml_dump lib (filtered_inventory inventory) in
  let existing := existing_inventory f w in
  write_inventory_file lib inventory output_file title w
  = write_text f
      (inventory_file_text title (timestamp_line_for existing new_yaml_content w)
         new_yaml_content)
      (if keeps_timestamp existing new_yaml_content then w else (datetime_now w).1).
Proof.
  cbv zeta. unfold write_inventory_file, timestamp_line_for, keeps_timestamp,
    existing_inventory.
  unfold mbind, IO_bind, mret, IO_ret, path_exists, try_except, read_text.
  destruct (lookup_file (InventoryFile output_file) w) as [text|] eqn:Hl.
  - rewrite bool_decide_true by eauto.
    destruct (read_fails w (InventoryFile output_file)) eqn:Hr.
    + cbn. done.
    + rewrite Hl. unfold parse_inventory_file. cbv zeta.
      set (ts := find_existing_timestamp _). set (body := content_from _ _).
      cbn [fst snd]. rewrite negb_involutive.
      destruct (bool_decide (body = _) && PyStr.truthy_opt ts); done.
  - rewrite bool_decide_false by (by intros [? ?]). cbn. done.
Qed.

Lemma create_host_vars_unfold host w :
  let f := HostVarsFile (get_host_vars_filename host (inventory_key cfg)) in
  let new_yaml_content := yaml_dump_vars lib (host_vars_of lib cfg host) in
  create_host_vars lib cfg host w
  = if host_vars_should_write f new_yaml_content w
    then write_text f
           (host_vars_file_text (get_inventory_key_value host (inventory_key cfg))
              (HOST_VARS_HEADER cfg) new_yaml_content) w
    else (w, Ok tt).
Proof.
  cbv zeta. unfold create_host_vars, host_vars_should_write.
  unfold mbind, IO_bind, mret, IO_ret, path_exists, try_except, read_text.
  destruct (lookup_file _ w) as [text|] eqn:Hl.
  - rewrite bool_decide_true by eauto.
    destruct (read_fails w _) eqn:Hr; [done|]. rewrite Hl.
    unfold parse_host_vars_file. cbv zeta. destruct (content_from _ _); cbn; [|done]. by destruct (negb _).
  - rewrite bool_decide_false by (by intros [? ?]). done.
Qed.

End WriterFacts.

Section Respects.

Context (R : relation World) `{!PreOrder R}.

Lemma respects_ret {A} (a : A) : respects R (mret a : IO A).
Proof. intros w. cbn. reflexivity. Qed.

Lemma respects_raise {A} e : respects R (raise e : IO A).
Proof. intros w. cbn. reflexivity. Qed.

Lemma respects_lift {A} (r : result A) : respects R (lift r).
Proof. intros w. cbn. reflexivity. Qed.

Lemma respects_bind {A B} (m : IO A) (k : A → IO B) :
  respects R m → (∀ a, respects R (k a)) → respects R (m ≫= k).
Proof.
  intros Hm Hk w. unfold mbind, IO_bind. specialize (Hm w).
  destruct (m w) as [w' [a|e]]; cbn in *; [|done].
  etrans; [done|]. apply Hk.
Qed.

Lemma respects_try_except {A} (m : IO A) (handler : Exn → IO A) :
  respects R m → (∀ e, respects R (handler e)) → respects R (try_except m handler).
Proof.
  intros Hm Hh w. unfold try_except. specialize (Hm w).
  destruct (m w) as [w' [a|e]]; cbn in *; [done|].
  etrans; [done|]. apply Hh.
Qed.

Lemma respects_for_each {A} (body : A → IO unit) xs :
  (∀ x, x ∈ xs → respects R (body x)) → respects R (for_each body xs).
Proof.
  induction xs as [|x xs IH]; intros H; cbn [for_each]; [apply respects_ret|].
  apply respects_bind; [apply H; left|]. intros _. apply IH. intros y Hy. apply H. by right.
Qed.

Lemma respects_if {A} (b : bool) (m1 m2 : IO A) :
  respects R m1 → respects R m2 → respects R (if b then m1 else m2).
Proof. by destruct b. Qed.

End Respects.

Lemma respects_impl {A} (R1 R2 : relation World) (m : IO A) :
  (∀ w w', R1 w w' → R2 w w') → respects R1 m → respects R2 m.
Proof. intros H Hm w. apply H, Hm. Qed.

#[global] Instance only_touches_preorder touched : PreOrder (only_touches touched).
Proof.
  split.
  - intros w. repeat split; try done. exists []. by rewrite app_nil_r.
  - intros w1 w2 w3 (Hf1 & (ev1 & Hj1 & He1) & ? & ? & ? & ? & ?)
      (Hf2 & (ev2 & Hj2 & He2) & ? & ? & ? & ? & ?).
    repeat split; try congruence.
    + intros f Hn. by rewrite Hf2, Hf1.
    + exists (ev1 ++ ev2). rewrite Hj2, Hj1, app_assoc. split; [done|].
      by apply Forall_app.
Qed.

#[global] Instance keeps_files_preorder : PreOrder keeps_files.
Proof.
  split; [by intros w f|]. intros w1 w2 w3 H1 H2 f Hf. by apply H2, H1.
Qed.

Lemma only_touches_mono (P Q : Location → Prop) w w' :
  (∀ f, P f → Q f) → only_touches P w w' → only_touches Q w w'.
Proof.
  intros HPQ (Hf & (ev & Hj & He) & ?). repeat split; try tauto.
  - intros f Hn. apply Hf. naive_solver.
  - exists ev. split; [done|]. eapply Forall_impl; [done|]. naive_solver.
Qed.

Lemma lookup_file_update f g content ev w :
  lookup_file g (update_files f content ev w)
  = if decide (f = g) then content else lookup_file g w.
Proof.
  destruct f as [n|n], g as [m|m]; cbn; try (rewrite decide_False by congruence; done).
  - rewrite lookup_partial_alter. destruct (decide (n = m)) as [->|];
      [by rewrite decide_True|by rewrite decide_False by congruence].
  - rewrite lookup_partial_alter. destruct (decide (n = m)) as [->|];
      [by rewrite decide_True|by rewrite decide_False by congruence].
Qed.

Lemma write_text_touches f content : respects (only_touches (λ g, g = f)) (write_text f content).
Proof.
  intros w. unfold write_text. destruct (write_fails w f); [reflexivity|].
  cbn [fst]. repeat split; try done.
  - intros g Hg. rewrite lookup_file_update. by rewrite decide_False.
  - exists [OpenedForWriting f]. split; [done|]. by constructor.
Qed.

Lemma write_text_keeps f content : respects keeps_files (write_text f content).
Proof.
  intros w. unfold write_text. destruct (write_fails w f); [reflexivity|].
  cbn [fst]. intros g Hg. rewrite lookup_file_update. case_decide; [by eexists|done].
Qed.

Lemma unlink_touches f : respects (only_touches (λ g, g = f)) (unlink f).
Proof.
  intros w. unfold unlink. destruct (unlink_fails w f); [reflexivity|].
  destruct (lookup_file f w); [|reflexivity].
  cbn [fst]. repeat split; try done.
  - intros g Hg. rewrite lookup_file_update. by rewrite decide_False.
  - exists [Unlinked f]. split; [done|]. by constructor.
Qed.

Lemma datetime_now_touches P : respects (only_touches P) datetime_now.
Proof. intros w. cbn. repeat split; try done. exists []. by rewrite app_nil_r. Qed.

Lemma datetime_now_keeps : respects keeps_files datetime_now.
Proof. by intros w f. Qed.

Lemma path_exists_respects R `{!PreOrder R} f : respects R (path_exists f).
Proof. intros w. cbn. reflexivity. Qed.

Lemma read_text_respects R `{!PreOrder R} f : respects R (read_text f).
Proof.
  intros w. unfold read_text. destruct (read_fails w f); [reflexivity|].
  destruct (lookup_file f w); reflexivity.
Qed.

Section ManagerFrames.

Variable lib : Library.
Variable cfg : Config.

Lemma write_inventory_file_touches inventory output_file title :
  respects (only_touches (λ g, g = InventoryFile output_file))
    (write_inventory_file lib inventory output_file title).
Proof.
  intros w. rewrite write_inventory_file_unfold. cbv zeta.
  destruct (keeps_timestamp _ _); [apply write_text_touches|].
  etrans; [apply (datetime_now_touches _ w)|apply write_text_touches].
Qed.

Lemma write_inventory_file_keeps inventory output_file title :
  respects keeps_files (write_inventory_file lib inventory output_file title).
Proof.
  intros w. rewrite write_inventory_file_unfold. cbv zeta.
  destruct (keeps_timestamp _ _); [apply write_text_keeps|].
  etrans; [apply (datetime_now_keeps w)|apply write_text_keeps].
Qed.

Lemma create_host_vars_touches host :
  respects (only_touches (λ g, g = HostVarsFile (get_host_vars_filename host (inventory_key cfg))))
    (create_host_vars lib cfg host).
Proof.
  intros w. rewrite create_host_vars_unfold. cbv zeta.
  destruct (host_vars_should_write _ _ _); [apply write_text_touches|reflexivity].
Qed.

Lemma create_host_vars_keeps host : respects keeps_files (create_host_vars lib cfg host).
Proof.
  intros w. rewrite create_host_vars_unfold. cbv zeta.
  destruct (host_vars_should_write _ _ _); [apply write_text_keeps|reflexivity].
Qed.

End ManagerFrames.

Lemma elem_of_valid_identifiers hosts x :
  x ∈ valid_identifiers hosts ↔
  ∃ h, h ∈ hosts ∧ PyStr.truthy x = true ∧ (x = hostname h ∨ cname h = Some x).
Proof.
  unfold valid_identifiers.
  set (step := λ (valid : gset string) (host : Host), _).
  assert (∀ acc, x ∈ foldl step acc hosts ↔
            x ∈ acc ∨ ∃ h, h ∈ hosts ∧ PyStr.truthy x = true
                           ∧ (x = hostname h ∨ cname h = Some x)) as H.
  { induction hosts as [|h hosts IH]; intros acc; cbn [foldl].
    - split; [auto|]. intros [?|(h & Hh & _)]; [done|]. by apply elem_of_nil in Hh.
    - rewrite IH. unfold step at 1.
      split.
      + intros [Hx|(h' & Hh' & Ht)].
        * destruct (cname h) as [c|] eqn:Hc; cbn [PyStr.truthy_opt default] in Hx.
          -- destruct (PyStr.truthy c) eqn:Htc;
               destruct (PyStr.truthy (hostname h)) eqn:Hth;
               set_unfold; naive_solver eauto using list_elem_of_here.
          -- destruct (PyStr.truthy (hostname h)) eqn:Hth;
               set_unfold; naive_solver eauto using list_elem_of_here.
        * right. exists h'. split; [by right|done].
      + intros [Hx|(h' & Hh' & Ht & Hx)].
        * left. destruct (PyStr.truthy_opt (cname h)), (PyStr.truthy (hostname h));
            set_solver.
        * apply elem_of_cons in Hh' as [->|Hh']; [|right; eauto].
          left. destruct Hx as [->|Hc].
          -- rewrite Ht. destruct (PyStr.truthy_opt (cname h)); set_solver.
          -- rewrite Hc. cbn [PyStr.truthy_opt default]. rewrite Ht. set_solver. }
  rewrite H. set_solver.
Qed.

Lemma string_length_app (a b : string) :
  String.length (a +:+ b) = String.length a + String.length b.
Proof. induction a as [|c a IH]; [done|]. rewrite append_cons. cbn. by rewrite IH. Qed.

Lemma remove_suffix_Some suffix s p :
  remove_suffix suffix s = Some p ↔ s = p +:+ suffix.
Proof.
  split.
  - revert p. induction s as [|c s IH]; intros p; cbn [remove_suffix].
    + destruct (String.eqb "" suffix) eqn:He; [|done].
      apply String.eqb_eq in He as <-. by intros [= <-].
    + destruct (String.eqb (String c s) suffix) eqn:He.
      * apply String.eqb_eq in He as <-. by intros [= <-].
      * destruct (remove_suffix suffix s) as [p'|]; [|done]. cbn. intros [= <-].
        rewrite append_cons. f_equal. by apply IH.
  - intros ->. induction p as [|c p IH].
    + rewrite append_nil_l. destruct suffix; cbn [remove_suffix]; by rewrite String.eqb_refl.
    + rewrite append_cons. cbn [remove_suffix].
      destruct (String.eqb (String c (p +:+ suffix)) suffix) eqn:He.
      * apply String.eqb_eq in He. apply (f_equal String.length) in He.
        cbn in He. rewrite string_length_app in He. lia.
      * by rewrite IH.
Qed.

Lemma stem_of_key k : k ≠ "" → stem (k +:+ ".yml") = k.
Proof.
  intros Hk. unfold stem.
  rewrite (proj2 (remove_suffix_Some ".yml" (k +:+ ".yml") k) eq_refl).
  by destruct k.
Qed.

Lemma stem_truthy n : is_Some (remove_suffix ".yml" n) → PyStr.truthy (stem n) = true.
Proof.
  intros [p Hp]. unfold stem. rewrite Hp. destruct p; [|done].
  apply remove_suffix_Some in Hp as ->. done.
Qed.

Lemma elem_of_glob_yml directory n :
  n ∈ glob_yml directory ↔ is_Some (directory !! n) ∧ is_Some (remove_suffix ".yml" n).
Proof.
  unfold glob_yml. rewrite list_elem_of_filter, elem_of_elements, elem_of_dom. tauto.
Qed.

Lemma NoDup_glob_yml directory : NoDup (glob_yml directory).
Proof. apply NoDup_filter, NoDup_elements. Qed.

Lemma elem_of_orphaned_files hosts directory n :
  n ∈ orphaned_files hosts directory ↔
  is_Some (directory !! n) ∧ is_Some (remove_suffix ".yml" n)
  ∧ stem n ∉ valid_identifiers hosts.
Proof. unfold orphaned_files. rewrite list_elem_of_filter, elem_of_glob_yml. tauto. Qed.

Lemma NoDup_orphaned_files hosts directory : NoDup (orphaned_files hosts directory).
Proof. apply NoDup_filter, NoDup_glob_yml. Qed.

(** The removal loop: the files that can be removed are gone and counted. *)
Lemma remove_orphaned_spec files removed_count w :
  NoDup files → (∀ n, n ∈ files → is_Some (host_vars_files w !! n)) →
  ∃ w',
    remove_orphaned files removed_count w
    = (w', Ok (removed_count
               + length (filter (λ n, unlink_fails w (HostVarsFile n) = false) files)))
    ∧ (∀ n, host_vars_files w' !! n
            = if bool_decide (n ∈ files) && negb (unlink_fails w (HostVarsFile n))
              then None else host_vars_files w !! n)
    ∧ inventory_files w' = inventory_files w
    ∧ journal w'
      = journal w ++ ((λ n, Unlinked (HostVarsFile n))
                        <$> filter (λ n, unlink_fails w (HostVarsFile n) = false) files)
    ∧ read_fails w' = read_fails w ∧ write_fails w' = write_fails w
    ∧ unlink_fails w' = unlink_fails w ∧ csv_source w' = csv_source w
    ∧ clock w' = clock w ∧ ticks w' = ticks w.
Proof.
  intros Hnd. revert removed_count w.
  induction Hnd as [|f files Hf Hnd IH]; intros removed_count w Hex.
  - exists w. cbn. rewrite Nat.add_0_r, app_nil_r. repeat split; try done.
  - cbn [remove_orphaned]. unfold mbind, IO_bind, try_except, unlink, mret, IO_ret.
    destruct (Hex f) as [content Hc]; [left|].
    destruct (unlink_fails w (HostVarsFile f)) eqn:Hu.
    + destruct (IH removed_count w) as (w' & -> & Hl & ? & Hj & ?).
      { intros n Hn. apply Hex. by right. }
      exists w'. rewrite filter_cons_False by (by rewrite Hu). repeat split; try tauto.
      intros n. rewrite Hl. destruct (decide (n = f)) as [->|Hne].
      * rewrite Hu. cbn [negb]. by rewrite !andb_false_r.
      * assert (bool_decide (n ∈ f :: files) = bool_decide (n ∈ files)) as ->; [|done].
        apply bool_decide_ext. set_solver.
    + cbn [lookup_file]. rewrite Hc.
      set (w1 := update_files (HostVarsFile f) None (Unlinked (HostVarsFile f)) w).
      destruct (IH (S removed_count) w1) as (w' & -> & Hl & Hi & Hj & ? & ? & Hu' & ? & ? & ?).
      { intros n Hn. unfold w1. cbn. rewrite lookup_partial_alter_ne by set_solver.
        apply Hex. by right. }
      change (unlink_fails w1) with (unlink_fails w) in *.
      change (journal w1) with (journal w ++ [Unlinked (HostVarsFile f)]) in *.
      exists w'. rewrite filter_cons_True by done. cbn [length fmap list_fmap].
      repeat split; try tauto.
      * by rewrite Nat.add_succ_r.
      * intros n. rewrite Hl. destruct (decide (n = f)) as [->|Hne].
        -- rewrite (bool_decide_true (f ∈ f :: files)) by left.
           rewrite (bool_decide_false (f ∈ files)) by done. rewrite Hu.
           unfold w1. cbn. by rewrite lookup_partial_alter_eq.
        -- assert (bool_decide (n ∈ f :: files) = bool_decide (n ∈ files)) as ->.
           { apply bool_decide_ext. set_solver. }
           unfold w1. cbn. by rewrite lookup_partial_alter_ne.
      * rewrite Hj. by rewrite <- app_assoc.
Qed.

Section GenerateFrames.

Variable lib : Library.
Variable cfg : Config.

Lemma generate_inventory_file_touches environment hosts inventory_filename :
  respects (only_touches (λ f, active_files cfg hosts f ∨ is_inventory_file f))
    (_generate_inventory_file lib cfg environment hosts inventory_filename).
Proof.
  unfold _generate_inventory_file.
  apply respects_try_except; [apply _| |intros []; apply respects_raise; apply _].
  apply respects_bind; [apply _| |intros _].
  { apply respects_for_each; [apply _|]. intros h Hh.
    apply list_elem_of_filter in Hh as [Ha Hh].
    eapply respects_impl; [|apply create_host_vars_touches].
    intros w w'. apply only_touches_mono. intros f ->. left. by exists h. }
  apply respects_bind; [apply _|apply respects_lift; apply _|intros inventory].
  apply respects_bind; [apply _| |intros _; apply respects_ret; apply _].
  eapply respects_impl; [|apply write_inventory_file_touches].
  intros w w'. apply only_touches_mono. intros f ->. right. by eexists.
Qed.

Lemma generate_inventory_file_keeps environment hosts inventory_filename :
  respects keeps_files
    (_generate_inventory_file lib cfg environment hosts inventory_filename).
Proof.
  unfold _generate_inventory_file.
  apply respects_try_except; [apply _| |intros []; apply respects_raise; apply _].
  apply respects_bind; [apply _| |intros _].
  { apply respects_for_each; [apply _|]. intros h Hh. apply create_host_vars_keeps. }
  apply respects_bind; [apply _|apply respects_lift; apply _|intros inventory].
  apply respects_bind; [apply _| |intros _; apply respects_ret; apply _].
  apply write_inventory_file_keeps.
Qed.

Lemma generate_environment_touches hosts dry_run env generated_files :
  respects (only_touches (λ f, active_files cfg hosts f ∨ is_inventory_file f))
    (generate_environment lib cfg hosts dry_run env generated_files).
Proof.
  unfold generate_environment. cbv zeta.
  apply respects_try_except; [apply _| |intros; apply respects_ret; apply _].
  set (env_hosts := filter _ hosts).
  assert (∀ h, h ∈ env_hosts → h ∈ hosts) as Hsub.
  { intros h Hh. by apply list_elem_of_filter in Hh as [_ ?]. }
  clearbody env_hosts. destruct env_hosts as [|h0 rest]; [apply respects_ret; apply _|].
  destruct dry_run; [apply respects_ret; apply _|].
  apply respects_bind; [apply _| |intros; apply respects_ret; apply _].
  eapply respects_impl; [|apply generate_inventory_file_touches].
  intros w w'. apply only_touches_mono. intros f [(h & Hh & ? & ?)|?]; [|by right].
  left. exists h. auto.
Qed.

Lemma generate_environment_keeps hosts dry_run env generated_files :
  respects keeps_files (generate_environment lib cfg hosts dry_run env generated_files).
Proof.
  unfold generate_environment. cbv zeta.
  apply respects_try_except; [apply _| |intros; apply respects_ret; apply _].
  destruct (filter _ hosts); [apply respects_ret; apply _|].
  destruct dry_run; [apply respects_ret; apply _|].
  apply respects_bind; [apply _| |intros; apply respects_ret; apply _].
  apply generate_inventory_file_keeps.
Qed.

Lemma generate_environments_touches hosts dry_run envs generated_files :
  respects (only_touches (λ f, active_files cfg hosts f ∨ is_inventory_file f))
    (generate_environments lib cfg hosts dry_run envs generated_files).
Proof.
  revert generated_files. induction envs as [|env envs IH]; intros generated_files;
    cbn [generate_environments]; [apply respects_ret; apply _|].
  apply respects_bind; [apply _|apply generate_environment_touches|done].
Qed.

Lemma generate_environments_keeps hosts dry_run envs generated_files :
  respects keeps_files (generate_environments lib cfg hosts dry_run envs generated_files).
Proof.
  revert generated_files. induction envs as [|env envs IH]; intros generated_files;
    cbn [generate_environments]; [apply respects_ret; apply _|].
  apply respects_bind; [apply _|apply generate_environment_keeps|done].
Qed.

(** A dry run of the loop leaves the world as it is. *)
Lemma generate_environments_dry_run hosts envs generated_files w :
  generate_environments lib cfg hosts true envs generated_files w
  = (w, Ok generated_files).
Proof.
  revert generated_files. induction envs as [|env envs IH]; intros generated_files;
    cbn [generate_environments]; [done|].
  unfold mbind, IO_bind. unfold generate_environment at 1. cbv zeta.
  unfold try_except. destruct (filter _ hosts); cbn; apply IH.
Qed.

Lemma load_csv_data_pure required_fields w :
  (load_csv_data cfg required_fields w).1 = w.
Proof.
  unfold load_csv_data. destruct (csv_source w) as [table|]; [|done].
  destruct (header_error table); [done|]. destruct (filter _ _); [|done].
  destruct (for_result _ _ _); [|done]. by destruct (rows_error table).
Qed.

Lemma load_csv_data_source required_fields w w' :
  csv_source w = csv_source w' →
  (load_csv_data cfg required_fields w).2 = (load_csv_data cfg required_fields w').2.
Proof.
  intros Hc. unfold load_csv_data. rewrite Hc.
  destruct (csv_source w') as [table|]; [|done].
  destruct (header_error table); [done|]. destruct (filter _ _); [|done].
  destruct (for_result _ _ _); [|done]. by destruct (rows_error table).
Qed.

Lemma load_hosts_pure environment w : (load_hosts lib cfg environment w).1 = w.
Proof.
  unfold load_hosts, mbind, IO_bind, lift.
  pose proof (load_csv_data_pure ["environment"] w) as Hw.
  destruct (load_csv_data cfg ["environment"] w) as [w1 [csv_data|e]]; done.
Qed.

End GenerateFrames.

(** The orphans that can be removed. *)
Lemma cleanup_unfold cfg hosts dry_run w :
  cleanup_orphaned_host_vars cfg hosts dry_run w
  = if negb (cleanup_orphaned_on_generate cfg) then (w, Ok 0)
    else if dry_run then (w, Ok (length (orphaned_files hosts (host_vars_files w))))
    else remove_orphaned (orphaned_files hosts (host_vars_files w)) 0 w.
Proof.
  unfold cleanup_orphaned_host_vars. destruct (negb _); [done|].
  destruct (orphaned_files hosts (host_vars_files w)) eqn:Ho; [|done].
  by destruct dry_run.
Qed.

Lemma cleanup_spec cfg hosts w :
  cleanup_orphaned_on_generate cfg = true →
  let removable := filter (λ n, unlink_fails w (HostVarsFile n) = false)
                     (orphaned_files hosts (host_vars_files w)) in
  ∃ w',
    cleanup_orphaned_host_vars cfg hosts false w = (w', Ok (length removable))
    ∧ (∀ n, host_vars_files w' !! n
            = if bool_decide (n ∈ removable) then None else host_vars_files w !! n)
    ∧ inventory_files w' = inventory_files w
    ∧ journal w' = journal w ++ ((λ n, Unlinked (HostVarsFile n)) <$> removable)
    ∧ read_fails w' = read_fails w ∧ write_fails w' = write_fails w
    ∧ unlink_fails w' = unlink_fails w ∧ csv_source w' = csv_source w
    ∧ clock w' = clock w ∧ ticks w' = ticks w.
Proof.
  intros Hc removable. rewrite cleanup_unfold, Hc. cbn [negb].
  destruct (remove_orphaned_spec (orphaned_files hosts (host_vars_files w)) 0 w)
    as (w' & Hr & Hl & Hrest).
  { apply NoDup_orphaned_files. }
  { intros n Hn. by apply elem_of_orphaned_files in Hn as [? _]. }
  exists w'. split; [by rewrite Hr|]. split; [|done].
  intros n. rewrite Hl. unfold removable.
  destruct (unlink_fails w (HostVarsFile n)) eqn:Hu.
  - rewrite andb_false_r. rewrite bool_decide_false; [done|].
    rewrite list_elem_of_filter. intros [? _]. congruence.
  - rewrite andb_true_r.
    assert (bool_decide (n ∈ orphaned_files hosts (host_vars_files w))
            = bool_decide (n ∈ filter (λ n, unlink_fails w (HostVarsFile n) = false)
                                 (orphaned_files hosts (host_vars_files w)))) as ->;
      [|done].
    apply bool_decide_ext. rewrite list_elem_of_filter. tauto.
Qed.

Lemma cleanup_off cfg hosts dry_run w :
  cleanup_orphaned_on_generate cfg = false →
  cleanup_orphaned_host_vars cfg hosts dry_run w = (w, Ok 0).
Proof. intros Hc. by rewrite cleanup_unfold, Hc. Qed.

(** A file named after a record of the list is not an orphan. *)
Lemma record_file_not_orphaned hosts directory host n :
  host ∈ hosts → (stem n = hostname host ∨ cname host = Some (stem n)) →
  n ∉ orphaned_files hosts directory.
Proof.
  intros Hh Hn. rewrite elem_of_orphaned_files. intros (_ & Hg & Hv). apply Hv.
  apply elem_of_valid_identifiers. exists host. split; [done|].
  split; [by apply stem_truthy|done].
Qed.

(** The clean-up leaves every file that is not an orphan as it is. *)
Lemma cleanup_keeps cfg hosts dry_run w n :
  n ∉ orphaned_files hosts (host_vars_files w) →
  host_vars_files (cleanup_orphaned_host_vars cfg hosts dry_run w).1 !! n
  = host_vars_files w !! n.
Proof.
  intros Hn. destruct (cleanup_orphaned_on_generate cfg) eqn:Hc;
    [|by rewrite cleanup_off].
  destruct dry_run; [by rewrite cleanup_unfold, Hc|].
  destruct (cleanup_spec cfg hosts w Hc) as (w' & -> & Hl & _). cbn [fst].
  rewrite Hl, bool_decide_false; [done|]. rewrite list_elem_of_filter. tauto.
Qed.

Lemma cleanup_touches cfg hosts dry_run :
  respects
    (only_touches (λ f, ∃ n, f = HostVarsFile n ∧ is_Some (remove_suffix ".yml" n)
                             ∧ stem n ∉ valid_identifiers hosts))
    (cleanup_orphaned_host_vars cfg hosts dry_run).
Proof.
  intros w. destruct (cleanup_orphaned_on_generate cfg) eqn:Hc;
    [|rewrite cleanup_off by done; reflexivity].
  destruct dry_run; [rewrite cleanup_unfold, Hc; reflexivity|].
  destruct (cleanup_spec cfg hosts w Hc) as (w' & -> & Hl & Hi & Hj & ?). cbn [fst].
  repeat split; try tauto.
  - intros [n|n] Hn; cbn; [by rewrite Hi|]. rewrite Hl.
    rewrite bool_decide_false; [done|]. rewrite list_elem_of_filter.
    intros [_ (? & ? & ?)%elem_of_orphaned_files]. apply Hn. eauto.
  - eexists. split; [done|]. apply Forall_fmap, Forall_forall. intros n.
    rewrite list_elem_of_filter. intros [_ (? & ? & ?)%elem_of_orphaned_files].
    cbn. eauto.
Qed.

Section RunFacts.

Variable lib : Library.
Variable cfg : Config.

Lemma generate_environment_returns hosts dry_run env generated_files w :
  ∃ files, (generate_environment lib cfg hosts dry_run env generated_files w).2 = Ok files.
Proof.
  unfold generate_environment. cbv zeta. unfold try_except.
  destruct (filter _ hosts); [by eexists|].
  destruct dry_run; [by eexists|].
  unfold mbind, IO_bind.
  destruct (_generate_inventory_file _ _ _ _ _ w) as [w' [file|e]]; by eexists.
Qed.

Lemma generate_environments_returns hosts dry_run envs generated_files w :
  ∃ files, (generate_environments lib cfg hosts dry_run envs generated_files w).2 = Ok files.
Proof.
  revert generated_files w. induction envs as [|env envs IH]; intros generated_files w;
    cbn [generate_environments]; [by eexists|].
  unfold mbind, IO_bind.
  destruct (generate_environment_returns hosts dry_run env generated_files w) as [files Hf].
  destruct (generate_environment _ _ _ _ _ _ w) as [w' r]. cbn in Hf. subst r. apply IH.
Qed.

Lemma cleanup_returns hosts dry_run w :
  ∃ n, (cleanup_orphaned_host_vars cfg hosts dry_run w).2 = Ok n.
Proof.
  destruct (cleanup_orphaned_on_generate cfg) eqn:Hc; [|rewrite cleanup_off by done; by eexists].
  destruct dry_run; [rewrite cleanup_unfold, Hc; by eexists|].
  destruct (cleanup_spec cfg hosts w Hc) as (w' & -> & _). by eexists.
Qed.

Lemma generate_inventories_unfold environments dry_run w :
  generate_inventories lib cfg environments dry_run w
  = match (load_hosts lib cfg None w).2 with
    | Ok [] =>
        (w, Ok (Error "Failed to generate inventories: No valid hosts found in CSV file"
                  dry_run))
    | Ok hosts => run_loaded lib cfg hosts environments dry_run w
    | Raise e => (w, Ok (abort_report e dry_run))
    end.
Proof.
  unfold generate_inventories, try_except. unfold mbind at 1, IO_bind at 1.
  pose proof (load_hosts_pure lib cfg None w) as Hw.
  destruct (load_hosts lib cfg None w) as [w0 [hosts|e]]; cbn [fst snd] in *; subst w0.
  2:{ by destruct e. }
  destruct hosts as [|h hosts]; [done|].
  unfold run_loaded, mbind, IO_bind, lift, mret, IO_ret.
  destruct (cleanup_orphaned_host_vars cfg (h :: hosts) dry_run w) as [w1 [n|e]].
  2:{ by destruct e. }
  destruct (cleanup_orphaned_group_vars lib (h :: hosts) dry_run) as [g|e].
  2:{ by destruct e. }
  fold (target_environments cfg environments).
  destruct (generate_environments _ _ _ _ _ _ w1) as [w2 [files|e]]; [done|].
  by destruct e.
Qed.

End RunFacts.

Lemma filter_all {A} (P : A → Prop) `{!∀ x, Decision (P x)} (l : list A) :
  (∀ x, x ∈ l → P x) → filter P l = l.
Proof.
  induction l as [|x l IH]; intros Hall; [done|].
  rewrite filter_cons_True by (apply Hall; left). f_equal. apply IH. intros y Hy.
  apply Hall. by right.
Qed.

Section Attempts.

Variable lib : Library.
Variable cfg : Config.

(** One turn of the loop, by the outcome of the attempt. *)
Lemma generate_environment_unfold hosts env generated_files w :
  let env_info := get_environment_info_from_code cfg env in
  let env_name := match env_info with Some info => name info | None => env end in
  let inventory_filename :=
    match env_info with
    | Some info => inventory_file info
    | None => Some (env +:+ ".yml")
    end in
  let env_hosts :=
    filter (λ h, Models.environment h = env ∨ Models.environment h = env_name) hosts in
  generate_environment lib cfg hosts false env generated_files w
  = match env_hosts with
    | [] => (w, Ok generated_files)
    | _ :: _ =>
        match _generate_inventory_file lib cfg env_name env_hosts inventory_filename w with
        | (w', Ok inventory_file) =>
            (w', Ok (generated_files ++ [inventory_dir cfg +:+ "/" +:+ inventory_file]))
        | (w', Raise _) => (w', Ok generated_files)
        end
    end.
Proof.
  cbv zeta. unfold generate_environment. cbv zeta. unfold try_except.
  destruct (filter _ hosts) as [|h0 rest]; [done|].
  unfold mbind, IO_bind.
  by destruct (_generate_inventory_file _ _ _ _ _ w) as [w' [file|e]].
Qed.

Lemma generate_environments_cons hosts dry_run env rest generated_files w :
  generate_environments lib cfg hosts dry_run (env :: rest) generated_files w
  = match generate_environment lib cfg hosts dry_run env generated_files w with
    | (w', Ok files) => generate_environments lib cfg hosts dry_run rest files w'
    | (w', Raise e) => (w', Raise e)
    end.
Proof. done. Qed.

(** What a successful [_generate_inventory_file] went through. *)
Lemma generate_inventory_file_Ok environment hosts inventory_filename w w' output_file :
  _generate_inventory_file lib cfg environment hosts inventory_filename w
  = (w', Ok output_file) →
  let active_hosts := filter (λ h, is_active h = true) hosts in
  output_file = (if PyStr.truthy_opt inventory_filename then default "" inventory_filename
                 else environment +:+ ".yml")
  ∧ ∃ w1,
      for_each (create_host_vars lib cfg) active_hosts w = (w1, Ok ())
      ∧ write_inventory_file lib
          (tree_of (inventory_key cfg) environment active_hosts) output_file
          (PyStr.title environment +:+ " Environment") w1 = (w', Ok ()).
Proof.
  unfold _generate_inventory_file, try_except. cbv zeta.
  unfold mbind at 1, IO_bind at 1.
  destruct (for_each _ _ w) as [w1 [[]|e]].
  2:{ destruct e; cbn; done. }
  unfold mbind at 1, IO_bind at 1, lift.
  rewrite build_environment_inventory_tree.
  unfold mbind at 1, IO_bind at 1.
  destruct (write_inventory_file _ _ _ _ w1) as [w2 [[]|e]] eqn:Hw.
  2:{ destruct e; cbn; done. }
  cbn. intros [= <- <-]. split; [done|]. by exists w1.
Qed.

End Attempts.

Lemma write_text_Ok f content w w' :
  write_text f content w = (w', Ok ()) → lookup_file f w' = Some content.
Proof.
  unfold write_text. destruct (write_fails w f); [done|]. intros [= <-].
  rewrite lookup_file_update. by rewrite decide_True.
Qed.

Lemma write_inventory_file_Ok lib inventory output_file title w w' :
  write_inventory_file lib inventory output_file title w = (w', Ok ()) →
  ∃ timestamp_line,
    inventory_files w' !! output_file
    = Some (inventory_file_text title timestamp_line
              (yaml_dump lib (filtered_inventory inventory))).
Proof.
  rewrite write_inventory_file_unfold. cbv zeta. intros H%write_text_Ok. eauto.
Qed.

Lemma cleanup_journal cfg hosts dry_run w :
  ∃ removed,
    journal (cleanup_orphaned_host_vars cfg hosts dry_run w).1
    = journal w ++ ((λ n, Unlinked (HostVarsFile n)) <$> removed).
Proof.
  destruct (cleanup_orphaned_on_generate cfg) eqn:Hc.
  2:{ rewrite cleanup_off by done. exists []. by rewrite app_nil_r. }
  destruct dry_run.
  { rewrite cleanup_unfold, Hc. exists []. by rewrite app_nil_r. }
  destruct (cleanup_spec cfg hosts w Hc) as (w' & -> & _ & _ & Hj & _). eauto.
Qed.

Lemma cleanup_creates_nothing cfg hosts dry_run w n :
  host_vars_files w !! n = None →
  host_vars_files (cleanup_orphaned_host_vars cfg hosts dry_run w).1 !! n = None.
Proof.
  intros Hn. rewrite cleanup_keeps; [done|].
  rewrite elem_of_orphaned_files. rewrite Hn. by intros [[? ?] _].
Qed.

Lemma string_app_inj_r (suffix a b : string) : a +:+ suffix = b +:+ suffix → a = b.
Proof.
  revert b. induction a as [|c a IH]; intros [|d b]; rewrite ?append_cons, ?append_nil_l.
  - done.
  - intros H. apply (f_equal String.length) in H. cbn in H.
    rewrite string_length_app in H. lia.
  - intros H. apply (f_equal String.length) in H. cbn in H.
    rewrite string_length_app in H. lia.
  - intros [= -> H]. f_equal. by apply IH.
Qed.

(** ** Lines and stripping *)

Lemma rstrip_cons_nonspace c s :
  PyStr.isspace c = false → PyStr.rstrip (String c s) = String c (PyStr.rstrip s).
Proof. intros Hc. cbn. rewrite Hc. by destruct (PyStr.rstrip s). Qed.

Lemma rstrip_app_space s c :
  PyStr.isspace c = true → PyStr.rstrip (s +:+ String c "") = PyStr.rstrip s.
Proof.
  intros Hc. induction s as [|d s IH].
  - rewrite append_nil_l. cbn. by rewrite Hc.
  - rewrite append_cons. cbn. by rewrite IH.
Qed.

Lemma rstrip_idemp s : PyStr.rstrip (PyStr.rstrip s) = PyStr.rstrip s.
Proof.
  induction s as [|c s IH]; [done|]. cbn.
  destruct (PyStr.rstrip s) as [|d r] eqn:Hr.
  - destruct (PyStr.isspace c) eqn:Hc; [done|]. cbn. by rewrite Hc.
  - cbn [PyStr.rstrip]. cbn [PyStr.rstrip] in IH. by rewrite IH.
Qed.

Lemma lstrip_idemp s : PyStr.lstrip (PyStr.lstrip s) = PyStr.lstrip s.
Proof.
  induction s as [|c s IH]; [done|]. cbn.
  destruct (PyStr.isspace c) eqn:Hc; [done|]. cbn. by rewrite Hc.
Qed.

Lemma rstrip_lstrip s : PyStr.rstrip (PyStr.lstrip s) = PyStr.lstrip (PyStr.rstrip s).
Proof.
  induction s as [|c s IH]; [done|]. cbn [PyStr.lstrip].
  destruct (PyStr.isspace c) eqn:Hc.
  - rewrite IH. cbn [PyStr.rstrip]. destruct (PyStr.rstrip s) as [|d r].
    + by rewrite Hc.
    + cbn [PyStr.lstrip]. by rewrite Hc.
  - rewrite rstrip_cons_nonspace by done. cbn [PyStr.lstrip]. by rewrite Hc.
Qed.

Lemma strip_idemp s : PyStr.strip (PyStr.strip s) = PyStr.strip s.
Proof.
  unfold PyStr.strip. by rewrite rstrip_lstrip, rstrip_idemp, lstrip_idemp.
Qed.

Lemma strip_app_newline s : PyStr.strip (s +:+ NL) = PyStr.strip s.
Proof. unfold PyStr.strip, NL. by rewrite rstrip_app_space. Qed.

Lemma strip_cons_nonspace c s :
  PyStr.isspace c = false → PyStr.strip (String c s) = String c (PyStr.rstrip s).
Proof.
  intros Hc. unfold PyStr.strip. rewrite rstrip_cons_nonspace by done. cbn. by rewrite Hc.
Qed.

Lemma one_line_app a b :
  PyStr.one_line (a +:+ b) = PyStr.one_line a && PyStr.one_line b.
Proof.
  induction a as [|c a IH]; [done|]. rewrite append_cons. cbn. rewrite IH.
  by rewrite andb_assoc.
Qed.

Lemma one_line_lstrip s : PyStr.one_line s = true → PyStr.one_line (PyStr.lstrip s) = true.
Proof.
  induction s as [|c s IH]; [done|]. cbn [PyStr.lstrip].
  destruct (PyStr.isspace c); [|done]. cbn. intros [_ ?]%andb_true_iff. auto.
Qed.

Lemma one_line_rstrip s : PyStr.one_line s = true → PyStr.one_line (PyStr.rstrip s) = true.
Proof.
  induction s as [|c s IH]; [done|]. cbn. intros [Hc Hs]%andb_true_iff.
  specialize (IH Hs). destruct (PyStr.rstrip s) as [|d r].
  - destruct (PyStr.isspace c); [done|]. cbn. by rewrite Hc.
  - cbn. cbn in IH. by rewrite Hc, IH.
Qed.

Lemma one_line_strip s : PyStr.one_line s = true → PyStr.one_line (PyStr.strip s) = true.
Proof. intros. by apply one_line_lstrip, one_line_rstrip. Qed.

Lemma readlines_line a rest :
  PyStr.one_line a = true →
  PyStr.readlines (a +:+ NL +:+ rest) = (a +:+ NL) :: PyStr.readlines rest.
Proof.
  induction a as [|c a IH]; [done|]. rewrite !append_cons. cbn.
  intros [Hc Ha]%andb_true_iff. apply negb_true_iff, bool_decide_eq_false in Hc.
  rewrite decide_False by done. by rewrite IH.
Qed.

Lemma join_readlines s : PyStr.join (PyStr.readlines s) = s.
Proof.
  induction s as [|c s IH]; [done|]. cbn. case_decide as Hc.
  - cbn. by rewrite IH.
  - destruct (PyStr.readlines s) as [|l ls]; cbn in *; by rewrite <- IH.
Qed.

(** A line of [readlines] is one line of text, with or without its line feed. *)
Lemma readlines_shape s line :
  line ∈ PyStr.readlines s →
  ∃ a, PyStr.one_line a = true ∧ (line = a ∨ line = a +:+ NL).
Proof.
  revert line. induction s as [|c s IH]; intros line; cbn; [by intros ?%elem_of_nil|].
  case_decide as Hc.
  - intros [->|Hin]%elem_of_cons; [|by apply IH]. exists "". split; [done|]. right.
    by rewrite Hc.
  - assert (negb (bool_decide (c = PyStr.LF)) = true) as Hc'.
    { by apply negb_true_iff, bool_decide_eq_false. }
    destruct (PyStr.readlines s) as [|l ls] eqn:Hr.
    + intros ->%list_elem_of_singleton. exists (String c ""). split; [|by left].
      cbn. by rewrite Hc'.
    + intros [->|Hin]%elem_of_cons.
      * destruct (IH l) as (a & Ha & Hl); [left|]. exists (String c a). split.
        { cbn. by rewrite Hc', Ha. }
        destruct Hl as [->| ->]; [by left|by right].
      * apply IH. by right.
Qed.

Lemma rstrip_last_char s c :
  last_char s = Some c → PyStr.isspace c = false → PyStr.rstrip s = s.
Proof.
  intros Hl Hc. induction s as [|d s IH]; [done|]. cbn in Hl. destruct s as [|e s].
  - injection Hl as ->. cbn. by rewrite Hc.
  - specialize (IH Hl). cbn [PyStr.rstrip]. cbn [PyStr.rstrip] in IH. by rewrite IH.
Qed.

Lemma digit_isdigit n : PyStr.isdigit (digit n) = true.
Proof.
  unfold digit. pose proof (Nat.mod_upper_bound n 10 ltac:(lia)) as Hm.
  set (m := n mod 10) in *. clearbody m.
  do 10 (destruct m as [|m]; [vm_compute; reflexivity|]). lia.
Qed.

Lemma isdigit_facts c :
  PyStr.isdigit c = true → PyStr.isspace c = false ∧ negb (bool_decide (c = PyStr.LF)) = true.
Proof. destruct c as [[] [] [] [] [] [] [] []]; vm_compute; (done || by split). Qed.

Lemma one_line_strftime now : PyStr.one_line (strftime now) = true.
Proof.
  unfold strftime, four_digits, two_digits. cbn [PyStr.one_line].
  repeat match goal with
         | |- context [negb (bool_decide (digit ?n = PyStr.LF))] =>
             rewrite (proj2 (isdigit_facts _ (digit_isdigit n)))
         end.
  done.
Qed.

Lemma fresh_timestamp_good now : good_timestamp ("# Generated at: " +:+ strftime now).
Proof.
  split; [|split].
  - rewrite one_line_app, one_line_strftime. done.
  - unfold PyStr.strip.
    rewrite (rstrip_last_char _ (digit (second now))); [done|done|].
    apply isdigit_facts, digit_isdigit.
  - done.
Qed.

Lemma found_timestamp_good text ts :
  find_existing_timestamp (PyStr.readlines text) = Some ts → good_timestamp ts.
Proof.
  pose proof (readlines_shape text) as Hshape.
  induction (PyStr.readlines text) as [|line lines IH]; [done|]. cbn.
  destruct (is_timestamp_line line) eqn:Ht.
  - intros [= <-]. destruct (Hshape line) as (a & Ha & Hl); [left|].
    assert (PyStr.strip line = PyStr.strip a) as Hs.
    { destruct Hl as [->| ->]; [done|apply strip_app_newline]. }
    split; [|split].
    + rewrite Hs. by apply one_line_strip.
    + apply strip_idemp.
    + done.
  - apply IH. intros l Hl. apply Hshape. by right.
Qed.

Lemma good_timestamp_line ts :
  good_timestamp ts →
  PyStr.strip (ts +:+ NL) = ts ∧ is_timestamp_line (ts +:+ NL) = true
  ∧ is_blank (ts +:+ NL) = false ∧ PyStr.truthy ts = true.
Proof.
  intros (Hone & Hstrip & Hstart).
  assert (PyStr.strip (ts +:+ NL) = ts) as Hs by (by rewrite strip_app_newline).
  assert (PyStr.truthy ts = true) as Ht by (by destruct ts).
  repeat split; try done.
  - unfold is_timestamp_line. by rewrite Hs.
  - unfold is_blank. by rewrite Hs, Ht.
Qed.

Lemma is_blank_hash s : is_blank (String "#" s) = false.
Proof. unfold is_blank. by rewrite strip_cons_nonspace. Qed.

Lemma readlines_newline rest : PyStr.readlines (NL +:+ rest) = NL :: PyStr.readlines rest.
Proof. done. Qed.

Lemma inventory_file_text_lines title ts body :
  PyStr.one_line title = true → PyStr.one_line ts = true →
  PyStr.readlines (inventory_file_text title ts body)
  = ["# ----------------------------------------------------------------------" +:+ NL;
     "# AUTO-GENERATED FILE - DO NOT EDIT MANUALLY" +:+ NL;
     "# This file is generated by the inventory management system." +:+ NL;
     "# Any manual changes will be overwritten the next time inventory is generated." +:+ NL;
     "# ----------------------------------------------------------------------" +:+ NL;
     "# " +:+ title +:+ " Inventory" +:+ NL;
     "# Generated from enhanced CSV with CMDB and patch management integration" +:+ NL;
     ts +:+ NL; NL] ++ PyStr.readlines body.
Proof.
  intros Htitle Hts. unfold inventory_file_text.
  do 5 (rewrite readlines_line by done; f_equal).
  replace ("# " +:+ title +:+ " Inventory" +:+ NL +:+
           "# Generated from enhanced CSV with CMDB and patch management integration"
           +:+ NL +:+ ts +:+ NL +:+ NL +:+ body)
    with (("# " +:+ title +:+ " Inventory") +:+ NL +:+
          "# Generated from enhanced CSV with CMDB and patch management integration"
          +:+ NL +:+ ts +:+ NL +:+ NL +:+ body)
    by (by rewrite !append_assoc).
  rewrite readlines_line by (by rewrite !one_line_app, Htitle).
  rewrite !append_assoc. f_equal.
  rewrite readlines_line by done. f_equal.
  rewrite readlines_line by done. f_equal.
Qed.

Lemma parse_inventory_file_text title ts body :
  header_ok title → good_timestamp ts →
  parse_inventory_file (inventory_file_text title ts body) = (Some ts, Some body).
Proof.
  intros [Htitle Hline] Hts.
  destruct (good_timestamp_line ts Hts) as (Hstrip & Hmark & Hblank & _).
  unfold parse_inventory_file. cbv zeta.
  rewrite inventory_file_text_lines by (done || apply Hts).
  f_equal.
  - cbn [app find_existing_timestamp].
    do 5 (match goal with
          | |- context [is_timestamp_line ?l] =>
              change (is_timestamp_line l) with false; cbv iota
          end).
    rewrite Hline.
    match goal with
    | |- context [is_timestamp_line ?l] =>
        change (is_timestamp_line l) with false; cbv iota
    end.
    by rewrite Hmark, Hstrip.
  - unfold content_from, tree_yaml_start_index. cbn [app tree_yaml_start_from].
    do 4 (match goal with
          | |- context [is_blank ?l && _] =>
              change (is_blank l) with false; cbn [andb]
          end).
    rewrite !append_cons, is_blank_hash. cbn [andb].
    match goal with
    | |- context [is_blank ?l && _] => change (is_blank l) with false; cbn [andb]
    end.
    rewrite Hblank. cbn [andb].
    change (is_blank NL) with true. rewrite Hmark. cbn [andb fmap option_fmap option_map].
    f_equal. cbn [drop]. apply join_readlines.
Qed.

Lemma parse_host_vars_file_text primary_id header body :
  PyStr.one_line primary_id = true → PyStr.one_line header = true →
  parse_host_vars_file (host_vars_file_text primary_id header body) = Some body.
Proof.
  intros Hid Hheader. unfold parse_host_vars_file, host_vars_file_text. cbv zeta.
  rewrite readlines_line by done.
  replace ("# Host variables for " +:+ primary_id +:+ NL +:+ "# " +:+ header +:+ NL
           +:+ NL +:+ body)
    with (("# Host variables for " +:+ primary_id) +:+ NL +:+ ("# " +:+ header) +:+ NL
          +:+ NL +:+ body)
    by (by rewrite !append_assoc).
  rewrite readlines_line by (by rewrite one_line_app, Hid).
  rewrite readlines_line by (by rewrite one_line_app, Hheader).
  rewrite readlines_newline.
  unfold content_from, vars_yaml_start_index. cbn [vars_yaml_start_from].
  rewrite !append_cons, !is_blank_hash.
  change (is_blank NL) with true. cbn [fmap option_fmap option_map drop].
  f_equal. apply join_readlines.
Qed.

(** ** Titles *)

Lemma title_char_facts c :
  (PyStr.isalpha c = true →
     PyStr.islower (PyStr.upper_char c) = false
     ∧ PyStr.isalpha (PyStr.upper_char c) = true
     ∧ PyStr.isalpha (PyStr.lower_char c) = true
     ∧ PyStr.upper_char c ≠ PyStr.LF ∧ PyStr.lower_char c ≠ PyStr.LF)
  ∧ (PyStr.isalpha c = false → PyStr.islower c = false).
Proof. destruct c as [[] [] [] [] [] [] [] []]; vm_compute; split; try done; by intros. Qed.

Lemma title_cased_title after_letter s rest :
  (∀ b, title_cased b rest = true) →
  title_cased after_letter (PyStr.title_from after_letter s +:+ rest) = true.
Proof.
  intros Hrest. revert after_letter. induction s as [|c s IH]; intros after_letter.
  - rewrite append_nil_l. apply Hrest.
  - cbn [PyStr.title_from]. rewrite append_cons. cbn [title_cased].
    destruct (title_char_facts c) as [Halpha Hother].
    destruct (PyStr.isalpha c) eqn:Hc.
    + destruct (Halpha eq_refl) as (Hlow & Hup & Hlo & _).
      destruct after_letter.
      * rewrite Hlo. rewrite IH. by destruct (PyStr.islower (PyStr.lower_char c)).
      * rewrite Hlow, Hup. cbn. apply IH.
    + rewrite (Hother eq_refl), Hc. cbn. apply IH.
Qed.

Lemma title_cased_prefix after_letter p s :
  String.prefix p s = true → title_cased after_letter s = true →
  title_cased after_letter p = true.
Proof.
  revert after_letter s. induction p as [|c p IH]; intros after_letter s; [done|].
  destruct s as [|d s]; [done|]. cbn [String.prefix].
  destruct (ascii_dec c d) as [->|]; [|done]. cbn [title_cased].
  intros Hp [H1 H2]%andb_true_iff. rewrite H1. cbn. by eapply IH.
Qed.

Lemma prefix_rstrip p s :
  String.prefix p (PyStr.rstrip s) = true → String.prefix p s = true.
Proof.
  revert p. induction s as [|c s IH]; intros p; [done|]. cbn [PyStr.rstrip].
  destruct p as [|d p]; [done|].
  destruct (PyStr.rstrip s) as [|e r] eqn:Hr.
  - destruct (PyStr.isspace c); [done|]. cbn [String.prefix].
    destruct (ascii_dec d c); [|done]. destruct p; [|done]. by destruct s.
  - cbn [String.prefix]. destruct (ascii_dec d c); [|done]. apply IH.
Qed.

Lemma one_line_title after_letter s :
  PyStr.one_line s = true → PyStr.one_line (PyStr.title_from after_letter s) = true.
Proof.
  revert after_letter. induction s as [|c s IH]; intros after_letter; [done|].
  cbn. intros [Hc Hs]%andb_true_iff. rewrite IH by done. rewrite andb_true_r.
  destruct (title_char_facts c) as [Halpha _].
  destruct (PyStr.isalpha c) eqn:Hal; [|done].
  destruct (Halpha eq_refl) as (_ & _ & _ & Hu & Hl).
  apply negb_true_iff, bool_decide_eq_false. by destruct after_letter.
Qed.

(** The title the generator gives to a tree file keeps the header readable. *)
Lemma environment_title_ok environment :
  PyStr.one_line environment = true →
  header_ok (PyStr.title environment +:+ " Environment").
Proof.
  intros Hone. split.
  - rewrite one_line_app. unfold PyStr.title. by rewrite one_line_title.
  - unfold is_timestamp_line. rewrite !append_assoc, append_cons.
    rewrite strip_cons_nonspace by done.
    destruct (PyStr.startswith MARKER _) eqn:Hs; [|done]. exfalso.
    unfold PyStr.startswith, MARKER in Hs.
    cbn [String.prefix] in Hs. destruct (ascii_dec "#" "#"); [|done].
    apply prefix_rstrip in Hs. rewrite append_cons in Hs. cbn [String.prefix] in Hs.
    destruct (ascii_dec " " " "); [|done].
    apply (title_cased_prefix false) in Hs; [done|].
    apply title_cased_title. intros b. vm_compute. reflexivity.
Qed.

Lemma bind_nil {A B} (f : A → list B) : [] ≫= f = [].
Proof. done. Qed.

Section PlanFacts.

Variable lib : Library.
Variable cfg : Config.

Lemma io_ok_only_touches P w w' : only_touches P w w' → io_ok w → io_ok w'.
Proof. intros (_ & _ & Hr & Hw & _) Hio f. rewrite Hr, Hw. apply Hio. Qed.

Lemma write_text_ok f content w :
  write_fails w f = false →
  write_text f content w = (update_files f (Some content) (OpenedForWriting f) w, Ok ()).
Proof. intros Hw. unfold write_text. by rewrite Hw. Qed.

Lemma create_host_vars_ok host w :
  io_ok w → create_host_vars lib cfg host w = (perform lib cfg w (WriteHostVars host), Ok ()).
Proof.
  intros Hio. cbn [perform]. rewrite create_host_vars_unfold. cbv zeta.
  destruct (host_vars_should_write _ _ w); [|done].
  rewrite write_text_ok by apply Hio. done.
Qed.

Lemma write_inventory_file_ok inventory output_file title w :
  io_ok w →
  write_inventory_file lib inventory output_file title w
  = (perform lib cfg w (WriteTree output_file title inventory), Ok ()).
Proof.
  intros Hio. cbn [perform]. rewrite write_inventory_file_unfold. cbv zeta.
  rewrite write_text_ok; [done|].
  destruct (keeps_timestamp _ _); apply Hio.
Qed.

Lemma perform_touches w r :
  only_touches (λ f, f = target cfg r) w (perform lib cfg w r).
Proof.
  destruct r as [host|output_file title tree]; cbn [perform target].
  - apply create_host_vars_touches.
  - apply write_inventory_file_touches.
Qed.

Lemma io_ok_perform w r : io_ok w → io_ok (perform lib cfg w r).
Proof. apply io_ok_only_touches with (P := λ f, f = target cfg r), perform_touches. Qed.

Lemma io_ok_foldl_perform w rs : io_ok w → io_ok (foldl (perform lib cfg) w rs).
Proof.
  revert w. induction rs as [|r rs IH]; intros w Hio; [done|].
  cbn. by apply IH, io_ok_perform.
Qed.

Lemma for_each_create_host_vars_ok hosts w :
  io_ok w →
  for_each (create_host_vars lib cfg) hosts w
  = (foldl (perform lib cfg) w (WriteHostVars <$> hosts), Ok ()).
Proof.
  revert w. induction hosts as [|h hosts IH]; intros w Hio; [done|].
  cbn [for_each fmap list_fmap foldl]. unfold mbind, IO_bind.
  rewrite create_host_vars_ok by done. apply IH. by apply io_ok_perform.
Qed.

Lemma generate_environment_ok hosts env generated_files w :
  io_ok w →
  generate_environment lib cfg hosts false env generated_files w
  = (foldl (perform lib cfg) w (environment_requests cfg hosts env),
     Ok (generated_files ++ environment_outputs cfg hosts [env])).
Proof.
  intros Hio. rewrite generate_environment_unfold. cbv zeta.
  unfold environment_requests, environment_outputs, environment_hosts, environment_name.
  rewrite bind_cons, bind_nil, app_nil_r.
  destruct (filter _ hosts) as [|h0 rest] eqn:Hf; [by rewrite app_nil_r|].
  rewrite <- Hf. clear Hf h0 rest. cbv zeta.
  unfold _generate_inventory_file, try_except. unfold mbind at 1, IO_bind at 1.
  rewrite for_each_create_host_vars_ok by done.
  unfold mbind at 1, IO_bind at 1, lift. rewrite build_environment_inventory_tree.
  unfold mbind at 1, IO_bind at 1.
  rewrite write_inventory_file_ok by (by apply io_ok_foldl_perform).
  cbn -[perform]. rewrite foldl_app. cbn [foldl]. done.
Qed.

Lemma generate_environments_ok hosts envs generated_files w :
  io_ok w →
  generate_environments lib cfg hosts false envs generated_files w
  = (foldl (perform lib cfg) w (plan cfg hosts envs),
     Ok (generated_files ++ environment_outputs cfg hosts envs)).
Proof.
  revert generated_files w. induction envs as [|env envs IH]; intros generated_files w Hio.
  - cbn. by rewrite app_nil_r.
  - rewrite generate_environments_cons, generate_environment_ok by done.
    rewrite IH by (by apply io_ok_foldl_perform).
    unfold plan, environment_outputs. rewrite !bind_cons, foldl_app, bind_nil, app_nil_r.
    by rewrite <- app_assoc.
Qed.

End PlanFacts.

Section PerFile.

Variable lib : Library.
Variable cfg : Config.

Lemma perform_other w r f :
  f ≠ target cfg r → lookup_file f (perform lib cfg w r) = lookup_file f w.
Proof. intros Hf. by apply (perform_touches lib cfg w r). Qed.

Lemma should_write_settled f body w :
  io_ok w →
  host_vars_should_write f body w = negb (host_vars_settled body (lookup_file f w)).
Proof.
  intros Hio. unfold host_vars_should_write, host_vars_settled.
  destruct (lookup_file f w) as [text|]; [|done].
  rewrite (proj1 (Hio f)). destruct (parse_host_vars_file text) as [existing|].
  - f_equal. apply bool_decide_ext. naive_solver.
  - by rewrite bool_decide_false.
Qed.

Lemma perform_host_vars w host :
  io_ok w →
  let f := target cfg (WriteHostVars host) in
  lookup_file f (perform lib cfg w (WriteHostVars host))
  = if host_vars_settled (host_vars_body lib cfg host) (lookup_file f w)
    then lookup_file f w else Some (host_vars_text lib cfg host).
Proof.
  intros Hio f. cbn [perform]. rewrite create_host_vars_unfold. cbv zeta.
  fold f. fold (host_vars_body lib cfg host). rewrite should_write_settled by done.
  destruct (host_vars_settled _ _); cbn [negb]; [done|].
  rewrite write_text_ok by apply Hio. cbn [fst].
  rewrite lookup_file_update. by rewrite decide_True.
Qed.

Lemma existing_inventory_ok f w :
  io_ok w →
  existing_inventory f w
  = match lookup_file f w with
    | Some text => parse_inventory_file text
    | None => (None, None)
    end.
Proof. intros Hio. unfold existing_inventory. by rewrite (proj1 (Hio f)). Qed.

Lemma perform_tree w output_file title tree :
  io_ok w →
  let f := InventoryFile output_file in
  let body := yaml_dump lib (filtered_inventory tree) in
  tree_settled title body (lookup_file f (perform lib cfg w (WriteTree output_file title tree)))
  ∧ (header_ok title → tree_settled title body (lookup_file f w) →
     lookup_file f (perform lib cfg w (WriteTree output_file title tree))
     = lookup_file f w).
Proof.
  intros Hio f body. cbn [perform]. rewrite write_inventory_file_unfold. cbv zeta.
  fold f body. rewrite write_text_ok by (destruct (keeps_timestamp _ _); apply Hio).
  cbn [fst]. rewrite lookup_file_update, decide_True by done.
  rewrite existing_inventory_ok by done. split.
  - eexists. split; [|done]. unfold timestamp_line_for, keeps_timestamp.
    destruct (lookup_file f w) as [text|]; [|apply fresh_timestamp_good].
    unfold parse_inventory_file. cbv zeta. cbn [fst snd].
    destruct (find_existing_timestamp _) as [ts|] eqn:Hts.
    + destruct (bool_decide _ && _); [|apply fresh_timestamp_good].
      cbn. by eapply found_timestamp_good.
    + rewrite andb_false_r. apply fresh_timestamp_good.
  - intros Htitle (ts & Hts & Hstate). rewrite Hstate.
    rewrite parse_inventory_file_text by done.
    unfold timestamp_line_for, keeps_timestamp. cbn [fst snd].
    rewrite bool_decide_true by done.
    destruct (good_timestamp_line ts Hts) as (_ & _ & _ & Htruthy).
    cbn [PyStr.truthy_opt]. by rewrite Htruthy.
Qed.

End PerFile.

Section Folds.

Variable lib : Library.
Variable cfg : Config.

Lemma host_vars_writers_snoc f rs r :
  host_vars_writers cfg f (rs ++ [r])
  = host_vars_writers cfg f rs
    ++ match r with
       | WriteHostVars host => if decide (target cfg r = f) then [host] else []
       | WriteTree _ _ _ => []
       end.
Proof.
  unfold host_vars_writers. rewrite omap_app. f_equal. cbn.
  destruct r as [host|]; [|done]. by case_decide.
Qed.

Lemma elem_of_host_vars_writers f rs h :
  h ∈ host_vars_writers cfg f rs ↔ WriteHostVars h ∈ rs ∧ target cfg (WriteHostVars h) = f.
Proof.
  unfold host_vars_writers. rewrite list_elem_of_omap. split.
  - intros ([h'|] & Hin & Hr); [|done]. case_decide; [|done]. by simplify_eq.
  - intros [Hin Ht]. exists (WriteHostVars h). split; [done|]. by rewrite decide_True.
Qed.

Lemma same_file_same_text h h' :
  target cfg (WriteHostVars h) = target cfg (WriteHostVars h') →
  host_vars_body lib cfg h = host_vars_body lib cfg h' →
  host_vars_text lib cfg h = host_vars_text lib cfg h'.
Proof.
  cbn. unfold get_host_vars_filename. intros [= Hk%string_app_inj_r] Hb.
  unfold host_vars_text. by rewrite Hk, Hb.
Qed.

Lemma settled_on_text h body :
  PyStr.one_line (HOST_VARS_HEADER cfg) = true → well_named cfg h →
  host_vars_settled body (Some (host_vars_text lib cfg h))
  = bool_decide (host_vars_body lib cfg h = body).
Proof.
  intros Hheader [Hone _]. unfold host_vars_settled, host_vars_text.
  rewrite parse_host_vars_file_text by done. apply bool_decide_ext. naive_solver.
Qed.

(** What a list of writes leaves in one host-variable file. *)
Lemma foldl_perform_host_vars rs w f :
  io_ok w → PyStr.one_line (HOST_VARS_HEADER cfg) = true →
  (∀ h, WriteHostVars h ∈ rs → well_named cfg h) →
  (∃ n, f = HostVarsFile n) →
  lookup_file f (foldl (perform lib cfg) w rs)
  = host_vars_outcome lib cfg (lookup_file f w) (host_vars_writers cfg f rs).
Proof.
  intros Hio Hheader Hnamed Hf. induction rs as [|r rs IH] using rev_ind; [done|].
  rewrite foldl_app. cbn [foldl]. rewrite host_vars_writers_snoc.
  assert (io_ok (foldl (perform lib cfg) w rs)) as Hio' by (by apply io_ok_foldl_perform).
  assert (∀ h, WriteHostVars h ∈ rs → well_named cfg h) as Hnamed'.
  { intros h Hh. apply Hnamed. apply elem_of_app. by left. }
  specialize (IH Hnamed').
  destruct (decide (target cfg r = f)) as [Ht|Ht].
  2:{ rewrite perform_other by done. rewrite IH.
      destruct r as [host|]; by rewrite app_nil_r. }
  destruct r as [host|output_file title tree].
  2:{ destruct Hf as [n ->]. done. }
  subst f. rewrite perform_host_vars by done. cbv zeta.
  rewrite IH. set (f := target cfg (WriteHostVars host)) in *.
  set (ws := host_vars_writers cfg f rs) in *.
  set (init := lookup_file f w) in *.
  unfold host_vars_outcome. rewrite forallb_app, last_snoc. cbn [forallb fmap option_fmap option_map].
  rewrite andb_true_r.
  destruct (forallb _ ws) eqn:Hall; cbn [andb].
  - by destruct (host_vars_settled (host_vars_body lib cfg host) init).
  - destruct (last ws) as [h'|] eqn:Hlast.
    2:{ apply last_None in Hlast. by rewrite Hlast in Hall. }
    cbn [fmap option_fmap option_map].
    assert (h' ∈ ws) as Hin.
    { apply last_Some in Hlast as [l' ->]. apply elem_of_app. right. left. }
    apply elem_of_host_vars_writers in Hin as [Hin Htarget].
    rewrite settled_on_text by auto.
    case_bool_decide as Hbody; [|done].
    f_equal. by apply same_file_same_text.
Qed.

Lemma host_vars_outcome_idemp state ws :
  host_vars_outcome lib cfg (host_vars_outcome lib cfg state ws) ws
  = host_vars_outcome lib cfg state ws.
Proof.
  unfold host_vars_outcome at 2.
  destruct (forallb _ ws) eqn:Hall.
  - unfold host_vars_outcome. by rewrite Hall.
  - unfold host_vars_outcome. rewrite Hall.
    match goal with |- (if ?b then ?x else ?x) = _ => by destruct b end.
Qed.

(** What a list of writes leaves in one tree file. *)
Lemma foldl_perform_tree rs w f title body :
  io_ok w → header_ok title →
  tree_writes_agree lib f title body rs →
  (∃ n, f = InventoryFile n) →
  let s' := lookup_file f (foldl (perform lib cfg) w rs) in
  ((∀ r, r ∈ rs → target cfg r ≠ f) → s' = lookup_file f w)
  ∧ ((∃ r, r ∈ rs ∧ target cfg r = f) → tree_settled title body s')
  ∧ (tree_settled title body (lookup_file f w) → s' = lookup_file f w).
Proof.
  intros Hio Htitle Hagree Hf. cbv zeta.
  induction rs as [|r rs IH] using rev_ind.
  { split; [done|]. split; [|done]. by intros (r & ?%elem_of_nil & _). }
  rewrite foldl_app. cbn [foldl].
  assert (io_ok (foldl (perform lib cfg) w rs)) as Hio' by (by apply io_ok_foldl_perform).
  assert (tree_writes_agree lib f title body rs) as Hagree'.
  { intros o t tr Hin. apply Hagree. apply elem_of_app. by left. }
  destruct (IH Hagree') as (IH1 & IH2 & IH3). clear IH.
  destruct (decide (target cfg r = f)) as [Ht|Ht].
  - destruct r as [host|output_file title' tree].
    { destruct Hf as [n ->]. done. }
    destruct (Hagree output_file title' tree) as [-> Hbody];
      [apply elem_of_app; right; left|done|].
    cbn [target] in Ht. subst f.
    destruct (perform_tree lib cfg (foldl (perform lib cfg) w rs) output_file title tree Hio')
      as [Hsettled Hkeep].
    rewrite Hbody in *. split; [|split].
    + intros Hnone. destruct (Hnone (WriteTree output_file title tree)); [|done].
      apply elem_of_app. right. left.
    + intros _. exact Hsettled.
    + intros Hs. rewrite Hkeep; [by apply IH3|done|]. by rewrite IH3.
  - rewrite perform_other by done. split; [|split].
    + intros Hnone. apply IH1. intros r' Hr'. apply Hnone, elem_of_app. by left.
    + intros (r' & [Hr'|Hr']%elem_of_app & Ht'); [apply IH2; eauto|].
      apply list_elem_of_singleton in Hr' as ->. done.
    + done.
Qed.

End Folds.

Section PlanMembers.

Variable lib : Library.
Variable cfg : Config.

Lemma elem_of_environment_requests hosts env r :
  r ∈ environment_requests cfg hosts env →
  (∃ h, r = WriteHostVars h ∧ h ∈ hosts ∧ is_active h = true)
  ∨ r = WriteTree (environment_file cfg env)
          (PyStr.title (environment_name cfg env) +:+ " Environment")
          (tree_of (inventory_key cfg) (environment_name cfg env)
             (filter (λ h, is_active h = true) (environment_hosts cfg hosts env))).
Proof.
  unfold environment_requests.
  destruct (environment_hosts cfg hosts env) as [|h0 rest] eqn:He;
    [by intros ?%elem_of_nil|].
  rewrite <- He. cbv zeta. rewrite elem_of_app.
  intros [(h & -> & Hh)%list_elem_of_fmap|Hr%list_elem_of_singleton]; [|by right].
  left. exists h. split; [done|].
  apply list_elem_of_filter in Hh as [Hact Hh].
  unfold environment_hosts in Hh. by apply list_elem_of_filter in Hh as [_ Hh].
Qed.

Lemma elem_of_plan hosts envs r :
  r ∈ plan cfg hosts envs →
  (∃ h, r = WriteHostVars h ∧ h ∈ hosts ∧ is_active h = true)
  ∨ ∃ env, env ∈ envs
      ∧ r = WriteTree (environment_file cfg env)
              (PyStr.title (environment_name cfg env) +:+ " Environment")
              (tree_of (inventory_key cfg) (environment_name cfg env)
                 (filter (λ h, is_active h = true) (environment_hosts cfg hosts env))).
Proof.
  unfold plan. intros (env & Hr & Henv)%list_elem_of_bind.
  apply elem_of_environment_requests in Hr as [?|Hr]; [by left|]. right. eauto.
Qed.

(** The tree of an environment depends on the records of that environment
    only. *)
Lemma tree_of_relevant key env l1 l2 :
  (∀ h, Models.environment h = env → h ∈ l1 ↔ h ∈ l2) →
  tree_of key env l1 = tree_of key env l2.
Proof.
  intros H. apply foldl_edit_at_same_elements. intros xe. unfold edits.
  rewrite !list_elem_of_bind. split.
  - intros (h & Hxe & Hh). exists h. split; [done|].
    apply list_elem_of_bind in Hxe as (m & _ & Hm).
    apply memberships_key in Hm as [_ He]. by apply H.
  - intros (h & Hxe & Hh). exists h. split; [done|].
    apply list_elem_of_bind in Hxe as (m & _ & Hm).
    apply memberships_key in Hm as [_ He]. by apply H.
Qed.

Lemma environment_tree_eq hosts env :
  tree_of (inventory_key cfg) (environment_name cfg env)
    (filter (λ h, is_active h = true) (environment_hosts cfg hosts env))
  = tree_of (inventory_key cfg) (environment_name cfg env)
      (filter (λ h, is_active h = true) hosts).
Proof.
  apply tree_of_relevant. intros h He. unfold environment_hosts.
  rewrite !list_elem_of_filter. naive_solver.
Qed.

(** The key of a well-named record is one of its valid identifiers. *)
Lemma key_is_valid hosts h :
  h ∈ hosts → well_named cfg h →
  get_inventory_key_value h (inventory_key cfg) ∈ valid_identifiers hosts.
Proof.
  intros Hh [_ Ht]. apply elem_of_valid_identifiers. exists h. split; [done|].
  split; [done|]. revert Ht. unfold get_inventory_key_value. cbv zeta.
  destruct (String.eqb _ "cname").
  - destruct (cname h) as [c|]; cbn [from_option id].
    + destruct (PyStr.truthy c); intros; auto.
    + cbn [PyStr.truthy]. intros; auto.
  - destruct (PyStr.truthy (hostname h)) eqn:Hn; [intros; auto|].
    destruct (cname h) as [c|]; cbn [from_option id]; [intros; auto|done].
Qed.

(** The file of a well-named record is not an orphan. *)
Lemma written_file_not_orphaned hosts h directory :
  h ∈ hosts → well_named cfg h →
  get_host_vars_filename h (inventory_key cfg) ∉ orphaned_files hosts directory.
Proof.
  intros Hh Hn. rewrite elem_of_orphaned_files. intros (_ & _ & Hv). apply Hv.
  unfold get_host_vars_filename. rewrite stem_of_key.
  - by apply key_is_valid.
  - destruct Hn as [_ Ht]. by destruct (get_inventory_key_value _ _).
Qed.

Lemma load_hosts_csv environment w w' :
  csv_source w = csv_source w' →
  (load_hosts lib cfg environment w).2 = (load_hosts lib cfg environment w').2.
Proof.
  intros Hc. unfold load_hosts, mbind, IO_bind, lift.
  pose proof (load_csv_data_source cfg ["environment"] w w' Hc) as Hr.
  destruct (load_csv_data cfg ["environment"] w) as [w1 r1],
    (load_csv_data cfg ["environment"] w') as [w2 r2]. cbn [snd] in Hr. subst r2.
  by destruct r1.
Qed.

End PlanMembers.

Section Cleaned.

Variable lib : Library.
Variable cfg : Config.

Lemma cleanup_cleans hosts w :
  cleanup_orphaned_on_generate cfg = true →
  cleaned hosts (cleanup_orphaned_host_vars cfg hosts false w).1.
Proof.
  intros Hc. destruct (cleanup_spec cfg hosts w Hc)
    as (w' & -> & Hl & _ & _ & _ & _ & Hu & _). cbn [fst].
  intros n (Hex & Hyml & Hstem)%elem_of_orphaned_files. rewrite Hu.
  rewrite Hl in Hex. case_bool_decide as Hrem; [by destruct Hex|].
  destruct (unlink_fails w (HostVarsFile n)) eqn:Hn; [done|]. destruct Hrem.
  apply list_elem_of_filter. split; [done|]. by apply elem_of_orphaned_files.
Qed.

Lemma cleaned_cleanup hosts dry_run w :
  cleaned hosts w →
  let w' := (cleanup_orphaned_host_vars cfg hosts dry_run w).1 in
  (∀ f, lookup_file f w' = lookup_file f w)
  ∧ read_fails w' = read_fails w ∧ write_fails w' = write_fails w
  ∧ unlink_fails w' = unlink_fails w ∧ csv_source w' = csv_source w.
Proof.
  intros Hcl. cbv zeta. destruct (cleanup_orphaned_on_generate cfg) eqn:Hc;
    [|by rewrite cleanup_off].
  destruct dry_run; [by rewrite cleanup_unfold, Hc|].
  destruct (cleanup_spec cfg hosts w Hc)
    as (w' & -> & Hl & Hi & _ & ? & ? & ? & ? & _). cbn [fst].
  split; [|done]. intros [n|n]; cbn; [by rewrite Hi|]. rewrite Hl.
  rewrite bool_decide_false; [done|].
  intros [Hu Ho]%list_elem_of_filter. apply Hcl in Ho. congruence.
Qed.

Lemma foldl_perform_touches rs w :
  only_touches (λ f, ∃ r, r ∈ rs ∧ f = target cfg r) w (foldl (perform lib cfg) w rs).
Proof.
  induction rs as [|r rs IH] using rev_ind; [reflexivity|].
  rewrite foldl_app. cbn [foldl]. etrans.
  - eapply only_touches_mono; [|apply IH]. intros f (r' & ? & ?). exists r'.
    split; [|done]. apply elem_of_app. by left.
  - eapply only_touches_mono; [|apply perform_touches]. intros f ->. exists r.
    split; [|done]. apply elem_of_app. right. left.
Qed.

Lemma foldl_perform_other rs w f :
  (∀ r, r ∈ rs → target cfg r ≠ f) →
  lookup_file f (foldl (perform lib cfg) w rs) = lookup_file f w.
Proof.
  intros Hf. apply (foldl_perform_touches rs w). intros (r & Hr & ->). by eapply Hf.
Qed.

Lemma cleaned_plan hosts envs w :
  cleaned hosts w → Forall (well_named cfg) hosts →
  cleaned hosts (foldl (perform lib cfg) w (plan cfg hosts envs)).
Proof.
  intros Hcl Hnamed n Ho.
  destruct (foldl_perform_touches (plan cfg hosts envs) w)
    as (_ & _ & _ & _ & Hu & _). rewrite Hu. apply Hcl.
  pose proof Ho as (Hex & Hyml & Hstem)%elem_of_orphaned_files.
  apply elem_of_orphaned_files. split; [|done].
  change (is_Some (lookup_file (HostVarsFile n) w)).
  rewrite <- (foldl_perform_other (plan cfg hosts envs) w (HostVarsFile n)); [done|].
  intros r Hr Ht. apply elem_of_plan in Hr as [(h & -> & Hh & _)|(env & _ & ->)]; [|done].
  injection Ht as <-. revert Ho. apply written_file_not_orphaned; [done|].
  rewrite Forall_forall in Hnamed. auto.
Qed.

End Cleaned.

Section Twice.

Variable lib : Library.
Variable cfg : Config.

Lemma remove_orphaned_stuck files removed_count w :
  (∀ n, n ∈ files → unlink_fails w (HostVarsFile n) = true) →
  (remove_orphaned files removed_count w).1 = w.
Proof.
  revert removed_count. induction files as [|n files IH]; intros removed_count Hstuck;
    [done|].
  cbn [remove_orphaned]. unfold mbind, IO_bind, try_except, unlink, mret, IO_ret.
  rewrite (Hstuck n) by left. apply IH. intros n' Hn'. apply Hstuck. by right.
Qed.

(** Once no orphan can be removed, the clean-up changes nothing. *)
Lemma cleanup_settled hosts dry_run w :
  (cleanup_orphaned_on_generate cfg = true → cleaned hosts w) →
  (cleanup_orphaned_host_vars cfg hosts dry_run w).1 = w.
Proof.
  intros Hcl. rewrite cleanup_unfold.
  destruct (cleanup_orphaned_on_generate cfg); [|done]. cbn [negb].
  destruct dry_run; [done|]. apply remove_orphaned_stuck, Hcl. done.
Qed.

Variable hosts : list Host.
Variable envs : list string.

Hypothesis header_one_line : PyStr.one_line (HOST_VARS_HEADER cfg) = true.
Hypothesis records_named : Forall (well_named cfg) hosts.
Hypothesis names_one_line :
  ∀ env, env ∈ envs → PyStr.one_line (environment_name cfg env) = true.
Hypothesis one_name_per_file :
  ∀ env1 env2, env1 ∈ envs → env2 ∈ envs →
    environment_file cfg env1 = environment_file cfg env2 →
    environment_name cfg env1 = environment_name cfg env2.

Lemma plan_named h : WriteHostVars h ∈ plan cfg hosts envs → well_named cfg h.
Proof.
  intros [(h' & [= ->] & Hh & _)|(env & _ & ?)]%elem_of_plan; [|done].
  rewrite Forall_forall in records_named. auto.
Qed.

(** The writes of a second turn change no file. *)
Lemma plan_twice w f :
  io_ok w →
  let w1 := foldl (perform lib cfg) w (plan cfg hosts envs) in
  lookup_file f (foldl (perform lib cfg) w1 (plan cfg hosts envs)) = lookup_file f w1.
Proof.
  intros Hio w1.
  assert (io_ok w1) as Hio1 by (by apply io_ok_foldl_perform).
  destruct f as [n|n].
  2:{ rewrite (foldl_perform_host_vars lib cfg _ w1) by eauto using plan_named.
      unfold w1.
      rewrite (foldl_perform_host_vars lib cfg _ w) by eauto using plan_named.
      apply host_vars_outcome_idemp. }
  destruct (decide (Exists (λ r, target cfg r = InventoryFile n) (plan cfg hosts envs)))
    as [Hex|Hex].
  2:{ apply foldl_perform_other. intros r Hr Ht. apply Hex, Exists_exists. eauto. }
  apply Exists_exists in Hex as (r & Hr & Ht).
  pose proof Hr as [(h & -> & _)|(env & Henv & ->)]%elem_of_plan; [done|].
  cbn [target] in Ht. injection Ht as Ht.
  set (title := PyStr.title (environment_name cfg env) +:+ " Environment") in *.
  set (tree := tree_of _ _ _) in *.
  assert (tree_writes_agree lib (InventoryFile n) title
            (yaml_dump lib (filtered_inventory tree)) (plan cfg hosts envs)) as Hagree.
  { intros output_file title' tree' Hr' [= Hn].
    apply elem_of_plan in Hr' as [(h & ? & _)|(env' & Henv' & [= -> -> ->])]; [done|].
    assert (environment_name cfg env' = environment_name cfg env) as Hname.
    { apply one_name_per_file; [done..|]. congruence. }
    unfold title, tree. by rewrite !environment_tree_eq, Hname. }
  assert (header_ok title) as Htitle by (apply environment_title_ok; auto).
  destruct (foldl_perform_tree lib cfg (plan cfg hosts envs) w (InventoryFile n) title
              (yaml_dump lib (filtered_inventory tree)) Hio Htitle Hagree)
    as (_ & Hsettled & _); [by eexists|].
  destruct (foldl_perform_tree lib cfg (plan cfg hosts envs) w1 (InventoryFile n) title
              (yaml_dump lib (filtered_inventory tree)) Hio1 Htitle Hagree)
    as (_ & _ & Hsame); [by eexists|].
  apply Hsame, Hsettled. eexists. split; [done|]. cbn [target]. by rewrite Ht.
Qed.

End Twice.

Section Runs.

Variable lib : Library.
Variable cfg : Config.
Variable hosts : list Host.
Variable environments : option (list string).

Lemma run_loaded_dry_run w : (run_loaded lib cfg hosts environments true w).1 = w.
Proof.
  unfold run_loaded. rewrite cleanup_unfold.
  destruct (negb _); destruct (cleanup_orphaned_group_vars lib hosts true);
    by rewrite ?generate_environments_dry_run.
Qed.

(** A real run on a world where reading and writing work: the clean-up,
    then the writes of the plan. *)
Lemma run_loaded_ok w :
  io_ok w →
  let cleaned_world := (cleanup_orphaned_host_vars cfg hosts false w).1 in
  (run_loaded lib cfg hosts environments false w).1
  = match cleanup_orphaned_group_vars lib hosts false with
    | Ok _ =>
        foldl (perform lib cfg) cleaned_world
          (plan cfg hosts (target_environments cfg environments))
    | Raise _ => cleaned_world
    end.
Proof.
  intros Hio. cbv zeta. unfold run_loaded.
  pose proof (cleanup_touches cfg hosts false w) as Htouch.
  destruct (cleanup_returns cfg hosts false w) as [count Hcount].
  destruct (cleanup_orphaned_host_vars cfg hosts false w) as [wc r].
  cbn [fst snd] in *. subst r.
  destruct (cleanup_orphaned_group_vars lib hosts false); [|done].
  rewrite generate_environments_ok by (by eapply io_ok_only_touches). done.
Qed.

Hypothesis header_one_line : PyStr.one_line (HOST_VARS_HEADER cfg) = true.
Hypothesis records_named : Forall (well_named cfg) hosts.
Hypothesis names_one_line :
  ∀ env, env ∈ target_environments cfg environments →
    PyStr.one_line (environment_name cfg env) = true.
Hypothesis one_name_per_file :
  ∀ env1 env2,
    env1 ∈ target_environments cfg environments →
    env2 ∈ target_environments cfg environments →
    environment_file cfg env1 = environment_file cfg env2 →
    environment_name cfg env1 = environment_name cfg env2.

Lemma run_loaded_twice dry_run w f :
  io_ok w →
  let w1 := (run_loaded lib cfg hosts environments dry_run w).1 in
  lookup_file f (run_loaded lib cfg hosts environments dry_run w1).1 = lookup_file f w1.
Proof.
  intros Hio. cbv zeta. destruct dry_run; [by rewrite !run_loaded_dry_run|].
  rewrite (run_loaded_ok w) by done.
  set (wc := (cleanup_orphaned_host_vars cfg hosts false w).1).
  assert (io_ok wc) as Hioc.
  { eapply io_ok_only_touches; [apply (cleanup_touches cfg hosts false w)|done]. }
  assert (cleanup_orphaned_on_generate cfg = true → cleaned hosts wc) as Hcl.
  { intros Hc. by apply cleanup_cleans. }
  destruct (cleanup_orphaned_group_vars lib hosts false) as [removed|e] eqn:Hgroup.
  - set (w1 := foldl _ _ _).
    assert (io_ok w1) as Hio1 by (by apply io_ok_foldl_perform).
    rewrite (run_loaded_ok w1), Hgroup by done.
    rewrite cleanup_settled by (intros Hc; apply cleaned_plan; auto).
    by apply plan_twice.
  - rewrite (run_loaded_ok wc), Hgroup by done. by rewrite cleanup_settled.
Qed.

Lemma run_loaded_csv dry_run w :
  csv_source (run_loaded lib cfg hosts environments dry_run w).1 = csv_source w.
Proof.
  unfold run_loaded.
  pose proof (cleanup_touches cfg hosts dry_run w) as (_ & _ & _ & _ & _ & Hc & _).
  destruct (cleanup_orphaned_host_vars cfg hosts dry_run w) as [wc r]. cbn [fst] in Hc.
  destruct r as [count|e]; [|done].
  destruct (cleanup_orphaned_group_vars lib hosts dry_run); [|done].
  pose proof (generate_environments_touches lib cfg hosts dry_run
                (target_environments cfg environments) [] wc)
    as (_ & _ & _ & _ & _ & Hc' & _).
  destruct (generate_environments _ _ _ _ _ _ wc) as [w2 [files|e]]; cbn [fst] in *;
    congruence.
Qed.

Lemma run_loaded_io_ok dry_run w :
  io_ok w → io_ok (run_loaded lib cfg hosts environments dry_run w).1.
Proof.
  intros Hio. destruct dry_run; [by rewrite run_loaded_dry_run|].
  rewrite run_loaded_ok by done.
  assert (io_ok (cleanup_orphaned_host_vars cfg hosts false w).1) as Hioc.
  { eapply io_ok_only_touches; [apply (cleanup_touches cfg hosts false w)|done]. }
  destruct (cleanup_orphaned_group_vars lib hosts false); [|done].
  by apply io_ok_foldl_perform.
Qed.

End Runs.

Lemma generate_inventories_loaded lib cfg environments dry_run w hosts :
  (load_hosts lib cfg None w).2 = Ok hosts → hosts ≠ [] →
  generate_inventories lib cfg environments dry_run w
  = run_loaded lib cfg hosts environments dry_run w.
Proof.
  intros Hload Hne. rewrite generate_inventories_unfold, Hload. by destruct hosts.
Qed.










(** * The claims *)

(** C3. Building the tree of an environment from any permutation of a list
    of records gives the same tree, as a mapping from group names to host
    sets and child sets, and the build succeeds; adding again what is
    already there changes nothing: the records a second time, or one
    group, membership and parent-child relation a second time. *)
Theorem tree_is_order_independent (inventory_key : string)
  (hosts permuted : list Host) (environment : string) :
  permuted ≡ₚ hosts →
  build_environment_inventory inventory_key permuted environment
  = build_environment_inventory inventory_key hosts environment
  ∧ (∃ tree, build_environment_inventory inventory_key hosts environment = Ok tree)
  ∧ build_environment_inventory inventory_key (hosts ++ permuted) environment
    = build_environment_inventory inventory_key hosts environment
  ∧ (∀ parent g host_key inventory inventory',
       add_member parent g host_key inventory = Ok inventory' →
       add_member parent g host_key inventory' = Ok inventory').
Proof.
  intros Hperm. rewrite !build_environment_inventory_tree. repeat split.
  - f_equal. apply tree_of_same_elements. intros h. by rewrite Hperm.
  - eauto.
  - f_equal. apply tree_of_same_elements. intros h. rewrite elem_of_app, Hperm. tauto.
  - intros parent g host_key inventory inventory'. apply add_member_idemp.
Qed.

Lemma tree_is_order_independent_witness :
  [Sample.db01; Sample.web01] ≡ₚ [Sample.web01; Sample.db01]
  ∧ build_environment_inventory "hostname" [Sample.db01; Sample.web01] "production"
    = build_environment_inventory "hostname" [Sample.web01; Sample.db01] "production".
Proof.
  split; [apply perm_swap|].
  exact (proj1 (tree_is_order_independent "hostname" [Sample.web01; Sample.db01]
                  [Sample.db01; Sample.web01] "production" (perm_swap _ _ _))).
Defined.




(** C4. Whatever tree is passed to the writer of tree files, the file it
    writes holds the serialization of the groups that have a host, and of
    no other group: a group whose host table is empty or missing is left
    out, whatever its children. *)
Theorem written_groups_have_hosts (lib : Library) (inventory : Inventory)
  (output_file title : string) (w : World) :
  write_fails w (InventoryFile output_file) = false →
  ∃ w' timestamp_line,
    write_inventory_file lib inventory output_file title w = (w', Ok ())
    ∧ inventory_files w' !! output_file
      = Some (inventory_file_text title timestamp_line
                (yaml_dump lib (filtered_inventory inventory)))
    ∧ (∀ g data, filtered_inventory inventory !! g = Some data ↔
         inventory !! g = Some data ∧ ∃ hs, hosts data = Some hs ∧ hs ≠ ∅)
    ∧ (∀ g data, inventory !! g = Some data →
         hosts data = None ∨ hosts data = Some ∅ →
         filtered_inventory inventory !! g = None).
Proof.
  intros Hw. rewrite write_inventory_file_unfold. cbv zeta.
  set (existing := existing_inventory _ w).
  set (body := yaml_dump lib _).
  set (w1 := if keeps_timestamp existing body then w else (datetime_now w).1).
  assert (write_fails w1 (InventoryFile output_file) = false) as Hw1.
  { unfold w1. by destruct (keeps_timestamp _ _). }
  unfold write_text. rewrite Hw1. eexists _, _. split; [done|].
  split; [cbn; by rewrite lookup_partial_alter_eq|].
  assert (∀ data, has_hosts data = true ↔ ∃ hs, hosts data = Some hs ∧ hs ≠ ∅) as Hh.
  { intros [[hs|] cs]; unfold has_hosts; cbn.
    - rewrite negb_true_iff, bool_decide_eq_false. naive_solver.
    - naive_solver. }
  split.
  - intros g data. unfold filtered_inventory. rewrite map_lookup_filter_Some. cbn.
    by rewrite Hh.
  - intros g data Hg Hn. unfold filtered_inventory. apply map_lookup_filter_None.
    right. intros data' Hg'. cbn. rewrite Hh. intros (hs & Hhs & Hne).
    assert (data' = data) as -> by congruence. naive_solver.
Qed.

Lemma written_groups_have_hosts_witness :
  ∃ w' timestamp_line,
    write_inventory_file Sample.library
      {[ "all" := {| hosts := None; children := {["env_production"]} |};
         "env_production" := {| hosts := Some ∅; children := {["app_web"]} |};
         "app_web" := {| hosts := Some {["web01"]}; children := ∅ |} ]}
      "production.yml" "Production Environment" (Sample.world [])
    = (w', Ok ())
    ∧ inventory_files w' !! "production.yml"
      = Some (inventory_file_text "Production Environment" timestamp_line
                (yaml_dump Sample.library
                   {[ "app_web" := {| hosts := Some {["web01"]}; children := ∅ |} ]})).
Proof.
  destruct (written_groups_have_hosts Sample.library
      {[ "all" := {| hosts := None; children := {["env_production"]} |};
         "env_production" := {| hosts := Some ∅; children := {["app_web"]} |};
         "app_web" := {| hosts := Some {["web01"]}; children := ∅ |} ]}
      "production.yml" "Production Environment" (Sample.world []) eq_refl)
    as (w' & ts & Hrun & Hfile & _).
  exists w', ts. split; [exact Hrun|]. rewrite Hfile. do 3 f_equal.
Defined.

(** C5, as the code has it. The orphans of the host-variable directory
    are its files named [*.yml] whose stem is not the hostname or cname of
    a record. With the clean-up enabled in the configuration, a dry run
    returns their number and leaves the world as it is, and a real run
    removes the orphans that can be removed, leaves every other file as it
    is and returns the number of files removed: a file whose removal fails
    stays and is not counted, and when no removal fails every orphan is
    gone and the count is the one of the dry run. With the clean-up
    disabled in the configuration, a dry run and a real run both return 0
    and leave the world as it is. *)
Theorem cleanup_removes_orphans (cfg : Config) (hosts : list Host) (w : World) :
  let orphans := orphaned_files hosts (host_vars_files w) in
  let removed := filter (λ n, unlink_fails w (HostVarsFile n) = false) orphans in
  NoDup orphans
  ∧ (∀ n, n ∈ orphans ↔
       is_Some (host_vars_files w !! n) ∧ (∃ identifier, n = identifier +:+ ".yml")
       ∧ ¬ ∃ h, h ∈ hosts ∧ (stem n = hostname h ∨ cname h = Some (stem n)))
  ∧ (cleanup_orphaned_on_generate cfg = true →
     cleanup_orphaned_host_vars cfg hosts true w = (w, Ok (length orphans))
     ∧ ∃ w',
         cleanup_orphaned_host_vars cfg hosts false w = (w', Ok (length removed))
         ∧ (∀ n, host_vars_files w' !! n
                 = if bool_decide (n ∈ removed) then None else host_vars_files w !! n)
         ∧ inventory_files w' = inventory_files w
         ∧ journal w' = journal w ++ ((λ n, Unlinked (HostVarsFile n)) <$> removed))
  ∧ (cleanup_orphaned_on_generate cfg = false →
     ∀ dry_run, cleanup_orphaned_host_vars cfg hosts dry_run w = (w, Ok 0))
  ∧ ((∀ n, n ∈ orphans → unlink_fails w (HostVarsFile n) = false) → removed = orphans)
  ∧ (∀ n, n ∈ orphans → unlink_fails w (HostVarsFile n) = true → n ∉ removed).
Proof.
  intros orphans removed. split; [apply NoDup_orphaned_files|]. split.
  { intros n. unfold orphans. rewrite elem_of_orphaned_files.
    assert (is_Some (remove_suffix ".yml" n) ↔ ∃ identifier, n = identifier +:+ ".yml") as Hs.
    { unfold is_Some. by setoid_rewrite remove_suffix_Some. }
    rewrite <- Hs. split.
    - intros (? & Hg & Hv). repeat split; try done. intros (h & Hh & Hn). apply Hv.
      apply elem_of_valid_identifiers. exists h. by rewrite stem_truthy.
    - intros (? & Hg & Hv). repeat split; try done.
      intros (h & Hh & _ & Hn)%elem_of_valid_identifiers. apply Hv. eauto. }
  split.
  { intros Hc. split; [by rewrite cleanup_unfold, Hc|].
    destruct (cleanup_spec cfg hosts w Hc) as (w' & ? & ? & ? & ? & _). by exists w'. }
  split; [intros Hc dry_run; by rewrite cleanup_unfold, Hc|].
  split.
  - intros Hall. unfold removed. apply filter_all. done.
  - intros n _ Hu. unfold removed. rewrite list_elem_of_filter. intros [? _]. congruence.
Qed.

Lemma cleanup_removes_orphans_witness :
  cleanup_orphaned_host_vars Sample.config [Sample.record_a; Sample.record_c] true Sample.abc
  = (Sample.abc, Ok 1)
  ∧ ∃ w', cleanup_orphaned_host_vars Sample.config [Sample.record_a; Sample.record_c]
            false Sample.abc = (w', Ok 1)
          ∧ host_vars_files w' !! "a.yml" = Some "a: 1"
          ∧ host_vars_files w' !! "b.yml" = None
          ∧ host_vars_files w' !! "c.yml" = Some "c: 3".
Proof.
  destruct (cleanup_removes_orphans Sample.config [Sample.record_a; Sample.record_c]
              Sample.abc) as (_ & _ & Henabled & _).
  destruct (Henabled eq_refl) as (Hdry & w' & Hrun & Hfiles & _).
  assert (orphaned_files [Sample.record_a; Sample.record_c] (host_vars_files Sample.abc)
          = ["b.yml"]) as Ho by (vm_compute; reflexivity).
  rewrite Ho in Hdry, Hrun, Hfiles. split; [exact Hdry|].
  exists w'. split; [exact Hrun|]. rewrite !Hfiles. repeat split.
Defined.

(** C5 fails as stated: with the clean-up disabled in the configuration,
    the files [a.yml], [b.yml], [c.yml] and the records [a] and [c], the
    orphan [b.yml] stays and both runs report 0, not 1. *)
Lemma cleanup_can_be_disabled :
  let cfg := cleanup_disabled Sample.config in
  let records := [Sample.record_a; Sample.record_c] in
  orphaned_files records (host_vars_files Sample.abc) = ["b.yml"]
  ∧ cleanup_orphaned_host_vars cfg records false Sample.abc = (Sample.abc, Ok 0)
  ∧ cleanup_orphaned_host_vars cfg records true Sample.abc = (Sample.abc, Ok 0).
Proof. repeat split; vm_compute; reflexivity. Qed.

(** The example of the design document with a removal that fails: nothing
    is removed and nothing is counted, while the dry run still reports 1. *)
Example cleanup_with_failing_removal :
  let w := Sample.with_faults (λ _, false) (λ _, false) (λ _, true) Sample.abc in
  cleanup_orphaned_host_vars Sample.config [Sample.record_a; Sample.record_c] false w
  = (w, Ok 0)
  ∧ cleanup_orphaned_host_vars Sample.config [Sample.record_a; Sample.record_c] true w
    = (w, Ok 1).
Proof. split; vm_compute; reflexivity. Qed.

(** C10. A host-variable file whose stem is the hostname or the cname of
    a loaded record, whatever the status of the record, is not an orphan:
    the clean-up leaves it as it is, in a dry run and in a real one, and a
    whole generation run, which passes every loaded record to the clean-up,
    does not remove it; the run leaves it untouched unless an active record
    owns it. *)
Theorem cleanup_keeps_files_of_records (lib : Library) (cfg : Config)
  (hosts : list Host) (host : Host) (n : string) :
  host ∈ hosts → stem n = hostname host ∨ cname host = Some (stem n) →
  (∀ dry_run w,
     host_vars_files (cleanup_orphaned_host_vars cfg hosts dry_run w).1 !! n
     = host_vars_files w !! n)
  ∧ (∀ environments dry_run w,
       (load_hosts lib cfg None w).2 = Ok hosts →
       let w' := (generate_inventories lib cfg environments dry_run w).1 in
       (is_Some (host_vars_files w !! n) → is_Some (host_vars_files w' !! n))
       ∧ ((∀ h, h ∈ hosts → is_active h = true →
             get_host_vars_filename h (inventory_key cfg) ≠ n) →
          host_vars_files w' !! n = host_vars_files w !! n)).
Proof.
  intros Hh Hn.
  assert (∀ dry_run w,
     host_vars_files (cleanup_orphaned_host_vars cfg hosts dry_run w).1 !! n
     = host_vars_files w !! n) as Hclean.
  { intros dry_run w. apply cleanup_keeps. by eapply record_file_not_orphaned. }
  split; [done|]. intros environments dry_run w Hload. cbv zeta.
  rewrite generate_inventories_unfold, Hload.
  destruct hosts as [|h0 hosts0] eqn:Hhosts; [by apply elem_of_nil in Hh|].
  rewrite <- Hhosts in *. clear Hhosts h0 hosts0.
  unfold run_loaded. specialize (Hclean dry_run w).
  destruct (cleanup_returns cfg hosts dry_run w) as [orphaned Ho].
  destruct (cleanup_orphaned_host_vars cfg hosts dry_run w) as [w1 r1].
  cbn [fst snd] in *. subst r1.
  destruct (cleanup_orphaned_group_vars lib hosts dry_run) as [g|e]; cbn [fst].
  2:{ rewrite Hclean. done. }
  pose proof (generate_environments_keeps lib cfg hosts dry_run
                (target_environments cfg environments) [] w1) as Hkeep.
  pose proof (generate_environments_touches lib cfg hosts dry_run
                (target_environments cfg environments) [] w1) as Htouch.
  destruct (generate_environments _ _ _ _ _ _ w1) as [w2 [files|e]]; cbn [fst] in *.
  - split.
    + intros Hs. apply (Hkeep (HostVarsFile n)). cbn. by rewrite Hclean.
    + intros Hother. destruct Htouch as [Hf _].
      rewrite <- Hclean. apply (Hf (HostVarsFile n)).
      intros [(h & ? & ? & [= ->])|[m [=]]]. by eapply Hother.
  - split.
    + intros Hs. apply (Hkeep (HostVarsFile n)). cbn. by rewrite Hclean.
    + intros Hother. destruct Htouch as [Hf _].
      rewrite <- Hclean. apply (Hf (HostVarsFile n)).
      intros [(h & ? & ? & [= ->])|[m [=]]]. by eapply Hother.
Qed.

Lemma cleanup_keeps_files_of_records_witness :
  host_vars_files
    (cleanup_orphaned_host_vars Sample.config [Sample.record_a; Sample.record_c]
       false Sample.abc).1 !! "c.yml"
  = Some "c: 3".
Proof.
  exact (proj1 (cleanup_keeps_files_of_records Sample.library Sample.config
                  [Sample.record_a; Sample.record_c] Sample.record_c "c.yml"
                  (list_elem_of_further _ _ _ (list_elem_of_here _ _))
                  (or_introl eq_refl))
           false Sample.abc).
Defined.

(** C7. When the source table is missing, or when loading it gives no
    record, the run stops there: it returns the error report, with status
    ["error"], a message and no generated file, and the world is as it was
    (nothing removed, nothing written). *)
Theorem no_records_aborts (lib : Library) (cfg : Config)
  (environments : option (list string)) (dry_run : bool) (w : World) :
  csv_source w = None ∨ (load_hosts lib cfg None w).2 = Ok [] →
  ∃ error,
    generate_inventories lib cfg environments dry_run w = (w, Ok (Error error dry_run))
    ∧ report_status (Error error dry_run) = "error"
    ∧ report_generated_files (Error error dry_run) = []
    ∧ error = (if csv_source w
               then "Failed to generate inventories: No valid hosts found in CSV file"
               else "CSV source file not found: CSV file not found: " +:+ csv_file cfg).
Proof.
  intros H. rewrite generate_inventories_unfold.
  destruct (csv_source w) as [table|] eqn:Hs.
  - destruct H as [?|Hl]; [done|]. rewrite Hl. by eexists.
  - assert ((load_hosts lib cfg None w).2
            = Raise (FileNotFoundError ("CSV file not found: " +:+ csv_file cfg))) as ->.
    { unfold load_hosts, load_csv_data, mbind, IO_bind. by rewrite Hs. }
    by eexists.
Qed.

Lemma no_records_aborts_witness :
  generate_inventories Sample.library Sample.config None false
    (Sample.without_source Sample.abc)
  = (Sample.without_source Sample.abc,
     Ok (Error "CSV source file not found: CSV file not found: inventory_source/hosts.csv"
           false)).
Proof.
  destruct (no_records_aborts Sample.library Sample.config None false
              (Sample.without_source Sample.abc) (or_introl eq_refl))
    as (error & Hrun & _ & _ & ->).
  exact Hrun.
Defined.



(** The run in the sample world where the tree file of production cannot
    be written: the host variables of production are written, its tree
    file is not, development is generated and the run reports success. *)
Example locked_environment_is_skipped :
  let run := generate_inventories Sample.library Sample.config None false
               Sample.production_locked in
  run.2 = Ok (Success ["inventory/development.yml"] false
                ["production"; "development"; "test"; "acceptance"] 0 0)
  ∧ journal run.1 = [OpenedForWriting (HostVarsFile "web01.yml");
                     OpenedForWriting (HostVarsFile "dev01.yml");
                     OpenedForWriting (InventoryFile "development.yml")].
Proof. split; vm_compute; reflexivity. Qed.

(** C6. A decommissioned record whose key no active record shares is left
    out of what a run generates. Whenever the generation for an environment
    returns, the tree file it wrote holds the serialization of the tree
    built from the active records only, and the key of the decommissioned
    record is in none of the host tables of that tree, whatever grouping
    attributes the record has. Over a whole run the host-variable file of
    the record is never opened for writing, and it is not there after the
    run if it was not there before. *)
Theorem decommissioned_records_are_left_out (lib : Library) (cfg : Config)
  (loaded : list Host) (host : Host) :
  host ∈ loaded → is_active host = false →
  (∀ h, h ∈ loaded → is_active h = true →
        get_inventory_key_value h (inventory_key cfg)
        ≠ get_inventory_key_value host (inventory_key cfg)) →
  let host_key := get_inventory_key_value host (inventory_key cfg) in
  let host_vars_file := get_host_vars_filename host (inventory_key cfg) in
  (∀ environment records inventory_filename w w' output_file,
     (∀ h, h ∈ records → h ∈ loaded) →
     _generate_inventory_file lib cfg environment records inventory_filename w
     = (w', Ok output_file) →
     ∃ tree timestamp_line,
       build_environment_inventory (inventory_key cfg)
         (filter (λ h, is_active h = true) records) environment = Ok tree
       ∧ inventory_files w' !! output_file
         = Some (inventory_file_text (PyStr.title environment +:+ " Environment")
                   timestamp_line (yaml_dump lib (filtered_inventory tree)))
       ∧ ∀ g data hs, tree !! g = Some data → hosts data = Some hs → host_key ∉ hs)
  ∧ (∀ environments dry_run w,
       (load_hosts lib cfg None w).2 = Ok loaded →
       let w' := (generate_inventories lib cfg environments dry_run w).1 in
       (host_vars_files w !! host_vars_file = None →
        host_vars_files w' !! host_vars_file = None)
       ∧ ∀ events, journal w' = journal w ++ events →
                   OpenedForWriting (HostVarsFile host_vars_file) ∉ events).
Proof.
  intros Hin Hdec Huniq host_key host_vars_file. split.
  - intros environment records inventory_filename w w' output_file Hsub Hgen.
    apply generate_inventory_file_Ok in Hgen as (_ & w1 & _ & Hwrite).
    apply write_inventory_file_Ok in Hwrite as [ts Hfile].
    rewrite build_environment_inventory_tree. eexists _, ts. split; [done|].
    split; [done|]. intros g data hs Hg Hhs Hk.
    destruct (tree_of_hosts _ _ _ _ _ _ _ Hg Hhs Hk) as (h & Hh & _ & Hkey).
    apply list_elem_of_filter in Hh as [Hact Hh].
    apply (Huniq h (Hsub h Hh) Hact). exact Hkey.
  - intros environments dry_run w Hload. cbv zeta.
    assert (¬ (active_files cfg loaded (HostVarsFile host_vars_file)
               ∨ is_inventory_file (HostVarsFile host_vars_file))) as Huntouched.
    { intros [(h & Hh & Hact & Hf)|[m [=]]]. injection Hf as Hf.
      apply (Huniq h Hh Hact). unfold host_vars_file, get_host_vars_filename in Hf.
      symmetry. by eapply (string_app_inj_r ".yml"). }
    rewrite generate_inventories_unfold, Hload.
    destruct loaded as [|h0 loaded0] eqn:Hl; [by apply elem_of_nil in Hin|].
    rewrite <- Hl in *. clear Hl h0 loaded0. unfold run_loaded.
    pose proof (cleanup_creates_nothing cfg loaded dry_run w host_vars_file) as Hnone.
    destruct (cleanup_journal cfg loaded dry_run w) as [removed Hj1].
    destruct (cleanup_returns cfg loaded dry_run w) as [orphaned Ho].
    destruct (cleanup_orphaned_host_vars cfg loaded dry_run w) as [w1 r1].
    cbn [fst snd] in *. subst r1.
    assert (∀ events, journal w1 = journal w ++ events →
              OpenedForWriting (HostVarsFile host_vars_file) ∉ events) as Hev1.
    { intros events. rewrite Hj1. intros <-%app_inv_head.
      by intros (n & ? & ?)%list_elem_of_fmap. }
    destruct (cleanup_orphaned_group_vars lib loaded dry_run) as [g|e]; cbn [fst];
      [|by split].
    pose proof (generate_environments_touches lib cfg loaded dry_run
                  (target_environments cfg environments) [] w1) as Htouch.
    assert (∀ w2 : World,
              only_touches (λ f, active_files cfg loaded f ∨ is_inventory_file f) w1 w2 →
              (host_vars_files w !! host_vars_file = None →
               host_vars_files w2 !! host_vars_file = None)
              ∧ ∀ events, journal w2 = journal w ++ events →
                          OpenedForWriting (HostVarsFile host_vars_file) ∉ events) as Hall.
    { intros w2 (Hf & (events2 & Hj2 & Hev2) & _). split.
      - intros Hn. specialize (Hf (HostVarsFile host_vars_file) Huntouched).
        cbn in Hf. rewrite Hf. by apply Hnone.
      - intros events. rewrite Hj2, Hj1, <- app_assoc. intros <-%app_inv_head.
        rewrite elem_of_app. intros [(n & ? & ?)%list_elem_of_fmap|Hin2]; [done|].
        rewrite Forall_forall in Hev2. by apply Hev2 in Hin2. }
    destruct (generate_environments _ _ _ _ _ _ w1) as [w2 [files|e]]; cbn [fst] in *;
      by apply Hall.
Qed.

Lemma decommissioned_records_are_left_out_witness :
  host_vars_files
    (generate_inventories Sample.library Sample.config None false (Sample.world [])).1
    !! "old01.yml" = None.
Proof.
  assert (Sample.decommissioned ∈ Sample.loaded) as Hin.
  { apply list_elem_of_lookup. exists 1. vm_compute. reflexivity. }
  assert (∀ h, h ∈ Sample.loaded → is_active h = true →
            get_inventory_key_value h (inventory_key Sample.config)
            ≠ get_inventory_key_value Sample.decommissioned (inventory_key Sample.config))
    as Huniq.
  { apply (proj1 (Forall_forall
              (λ h, is_active h = true →
                    get_inventory_key_value h (inventory_key Sample.config)
                    ≠ get_inventory_key_value Sample.decommissioned
                        (inventory_key Sample.config))
              Sample.loaded)).
    vm_compute. repeat constructor; intros; discriminate. }
  destruct (decommissioned_records_are_left_out Sample.library Sample.config
              Sample.loaded Sample.decommissioned Hin eq_refl Huniq) as [_ Hrun].
  assert ((load_hosts Sample.library Sample.config None (Sample.world [])).2
          = Ok Sample.loaded) as Hload by (vm_compute; reflexivity).
  destruct (Hrun None false (Sample.world []) Hload) as [Hfile _].
  assert (get_host_vars_filename Sample.decommissioned (inventory_key Sample.config)
          = "old01.yml") as Hname by (vm_compute; reflexivity).
  rewrite Hname in Hfile. apply Hfile. vm_compute. reflexivity.
Defined.

(** C1. Running the generation twice in succession over the same source
    table leaves, after the second run, every tree file and every
    host-variable file with the bytes the first run left: the two
    directories are equal as maps from file names to texts, so the body of
    every file is the same and the timestamp line of every tree file is the
    one of the first run, although the clock has moved on. Reading and
    writing must not fail, every loaded record must have a non-empty key of
    one line, the header of the host-variable files and the names of the
    target environments must fit on one line, and two target environments
    that share an output file must share their name. *)
Theorem generation_is_idempotent lib cfg environments dry_run (w : World) :
  io_ok w →
  PyStr.one_line (HOST_VARS_HEADER cfg) = true →
  (∀ loaded, (load_hosts lib cfg None w).2 = Ok loaded →
             Forall (well_named cfg) loaded) →
  (∀ env, env ∈ target_environments cfg environments →
          PyStr.one_line (environment_name cfg env) = true) →
  (∀ env1 env2,
     env1 ∈ target_environments cfg environments →
     env2 ∈ target_environments cfg environments →
     environment_file cfg env1 = environment_file cfg env2 →
     environment_name cfg env1 = environment_name cfg env2) →
  let first := (generate_inventories lib cfg environments dry_run w).1 in
  let second := (generate_inventories lib cfg environments dry_run first).1 in
  inventory_files second = inventory_files first
  ∧ host_vars_files second = host_vars_files first.
Proof.
  intros Hio Hheader Hnamed Hnames Hfiles. cbv zeta.
  destruct ((load_hosts lib cfg None w).2) as [loaded|e] eqn:Hload.
  2:{ assert ((generate_inventories lib cfg environments dry_run w).1 = w) as Hw;
        [|by rewrite !Hw].
      by rewrite generate_inventories_unfold, Hload. }
  destruct (decide (loaded = [])) as [->|Hne].
  { assert ((generate_inventories lib cfg environments dry_run w).1 = w) as Hw;
      [|by rewrite !Hw].
    by rewrite generate_inventories_unfold, Hload. }
  rewrite (generate_inventories_loaded lib cfg environments dry_run w loaded) by done.
  specialize (Hnamed loaded eq_refl).
  set (first := (run_loaded lib cfg loaded environments dry_run w).1).
  assert ((load_hosts lib cfg None first).2 = Ok loaded) as Hload'.
  { rewrite <- Hload. apply load_hosts_csv, run_loaded_csv. }
  rewrite (generate_inventories_loaded lib cfg environments dry_run first loaded) by done.
  split; apply map_eq; intros n.
  - by apply (run_loaded_twice lib cfg loaded environments Hheader Hnamed Hnames Hfiles
                dry_run w (InventoryFile n)).
  - by apply (run_loaded_twice lib cfg loaded environments Hheader Hnamed Hnames Hfiles
                dry_run w (HostVarsFile n)).
Qed.

Lemma generation_is_idempotent_witness :
  inventory_files
    (generate_inventories Sample.library Sample.config None false
       (generate_inventories Sample.library Sample.config None false
          (Sample.world [])).1).1
  = inventory_files
      (generate_inventories Sample.library Sample.config None false (Sample.world [])).1
  ∧ host_vars_files
      (generate_inventories Sample.library Sample.config None false
         (generate_inventories Sample.library Sample.config None false
            (Sample.world [])).1).1
    = host_vars_files
        (generate_inventories Sample.library Sample.config None false (Sample.world [])).1.
Proof.
  assert (io_ok (Sample.world [])) as Hio by (intros f; split; reflexivity).
  assert (∀ loaded,
            (load_hosts Sample.library Sample.config None (Sample.world [])).2 = Ok loaded →
            Forall (well_named Sample.config) loaded) as Hnamed.
  { intros loaded Hl. vm_compute in Hl. injection Hl as <-.
    repeat constructor. }
  assert (∀ env, env ∈ target_environments Sample.config None →
                 PyStr.one_line (environment_name Sample.config env) = true) as Hnames.
  { apply (proj1 (Forall_forall
              (λ env, PyStr.one_line (environment_name Sample.config env) = true)
              (target_environments Sample.config None))).
    vm_compute. repeat constructor. }
  assert (∀ env1 env2,
            env1 ∈ target_environments Sample.config None →
            env2 ∈ target_environments Sample.config None →
            environment_file Sample.config env1 = environment_file Sample.config env2 →
            environment_name Sample.config env1 = environment_name Sample.config env2)
    as Hfiles.
  { intros env1 env2 H1%list_elem_of_In H2%list_elem_of_In Hf. cbn in H1, H2.
    destruct H1 as [<-|[<-|[<-|[<-|[]]]]], H2 as [<-|[<-|[<-|[<-|[]]]]];
      vm_compute in Hf |- *; first [reflexivity|discriminate]. }
  exact (generation_is_idempotent Sample.library Sample.config None false
           (Sample.world []) Hio eq_refl Hnamed Hnames Hfiles).
Defined.

(** The host-variable writer leaves a file alone when it already holds
    the regenerated body: nothing is opened for writing. *)
Lemma unchanged_host_vars_file_is_skipped lib cfg host (w : World) :
  io_ok w →
  host_vars_settled (host_vars_body lib cfg host)
    (lookup_file (HostVarsFile (get_host_vars_filename host (inventory_key cfg))) w)
  = true →
  create_host_vars lib cfg host w = (w, Ok ()).
Proof.
  intros Hio Hsettled. rewrite create_host_vars_unfold. cbv zeta.
  rewrite should_write_settled by done.
  fold (host_vars_body lib cfg host). by rewrite Hsettled.
Qed.

(** C2. What [write_inventory_file] does when the tree file already holds
    the regenerated body: the bytes of the file, timestamp line included,
    stay as they are, but the file is opened for writing and written again,
    so it is not left untouched: the journal of the world records the
    opening, and with it the change of the modification time. The
    docstring of the function promises that the file is only updated when
    the content has changed, and [create_host_vars] does skip the write. *)
Theorem unchanged_tree_file_is_reopened lib tree output_file title ts (w : World) :
  io_ok w → header_ok title → good_timestamp ts →
  inventory_files w !! output_file
  = Some (inventory_file_text title ts (yaml_dump lib (filtered_inventory tree))) →
  let w' := (write_inventory_file lib tree output_file title w).1 in
  inventory_files w' = inventory_files w
  ∧ host_vars_files w' = host_vars_files w
  ∧ journal w' = journal w ++ [OpenedForWriting (InventoryFile output_file)].
Proof.
  intros Hio Htitle Hts Hfile. cbv zeta.
  rewrite write_inventory_file_unfold. cbv zeta.
  rewrite existing_inventory_ok by done. cbn [lookup_file]. rewrite Hfile.
  rewrite parse_inventory_file_text by done.
  destruct (good_timestamp_line ts Hts) as (_ & _ & _ & Htruthy).
  unfold timestamp_line_for, keeps_timestamp. cbn [fst snd PyStr.truthy_opt].
  rewrite bool_decide_true, Htruthy by done. cbn [andb from_option].
  rewrite write_text_ok by apply Hio. cbn [fst update_files inventory_files
    host_vars_files journal].
  split; [|done]. apply map_eq. intros n. rewrite lookup_partial_alter.
  case_decide; by subst.
Qed.

Lemma unchanged_tree_file_is_reopened_witness :
  let w' := (write_inventory_file Sample.library Sample.production_tree
               "production.yml" "Production Environment" Sample.first_run).1 in
  inventory_files w' = inventory_files Sample.first_run
  ∧ host_vars_files w' = host_vars_files Sample.first_run
  ∧ journal w'
    = journal Sample.first_run ++ [OpenedForWriting (InventoryFile "production.yml")].
Proof.
  assert (io_ok Sample.first_run) as Hio by (intros f; split; reflexivity).
  assert (header_ok "Production Environment") as Htitle by (split; reflexivity).
  assert (good_timestamp "# Generated at: 2024-05-17 12:00:00") as Hts
    by (repeat split; reflexivity).
  assert (inventory_files Sample.first_run !! "production.yml"
          = Some (inventory_file_text "Production Environment"
                    "# Generated at: 2024-05-17 12:00:00"
                    (yaml_dump Sample.library
                       (filtered_inventory Sample.production_tree)))) as Hfile
    by (vm_compute; reflexivity).
  exact (unchanged_tree_file_is_reopened Sample.library Sample.production_tree
           "production.yml" "Production Environment"
           "# Generated at: 2024-05-17 12:00:00" Sample.first_run
           Hio Htitle Hts Hfile).
Defined.

(** After the application service of a record of development has changed,
    a second run rewrites the tree file of production too, with the bytes
    it had, and does not open the host-variable files. *)
Example regrouping_reopens_every_tree_file :
  let second :=
    (generate_inventories Sample.library Sample.config None false
       (Sample.with_source Sample.regrouped Sample.first_run)).1 in
  journal second
  = journal Sample.first_run
    ++ [OpenedForWriting (InventoryFile "production.yml");
        OpenedForWriting (InventoryFile "development.yml")]
  ∧ inventory_files second !! "production.yml"
    = inventory_files Sample.first_run !! "production.yml"
  ∧ inventory_files second !! "development.yml"
    ≠ inventory_files Sample.first_run !! "development.yml".
Proof. vm_compute. repeat split. discriminate. Qed.

(** * Further properties of the code *)

(** ** The tree builder *)

(** The parent of a membership of a host is the root or a group the same
    host is put in. *)
Lemma memberships_parent_member key env h m :
  m ∈ memberships key env h →
  m.1.1 = "all" ∨ ∃ m', m' ∈ memberships key env h ∧ m'.1.2 = m.1.1.
Proof.
  intros Hm. pose proof Hm as Hm0. revert Hm.
  unfold memberships at 1. destruct (negb _) eqn:Henv; [by intros ?%elem_of_nil|]. cbv zeta.
  assert (("all", "env_" +:+ env, get_inventory_key_value h key)
          ∈ memberships key env h) as Hroot.
  { unfold memberships. rewrite Henv. cbv zeta. apply elem_of_app. left. left. }
  rewrite !elem_of_app. intros [Hm|[Hm|[Hm|Hm]]].
  - apply list_elem_of_singleton in Hm as ->. by left.
  - destruct (PyStr.truthy_opt _ && PyStr.truthy _) eqn:Hguard; [|by apply elem_of_nil in Hm].
    apply elem_of_cons in Hm as [->|Hm]; [right; eauto|].
    apply list_elem_of_fmap in Hm as (p & -> & Hp). right.
    exists ("env_" +:+ env, get_app_group_name h, get_inventory_key_value h key).
    split; [|done]. unfold memberships. rewrite Henv. cbv zeta.
    apply elem_of_app. right. apply elem_of_app. left. rewrite Hguard. left.
  - destruct (site_group_name h); [|by apply elem_of_nil in Hm].
    apply list_elem_of_singleton in Hm as ->. right. eauto.
  - destruct (_ && _); [|by apply elem_of_nil in Hm].
    apply list_elem_of_singleton in Hm as ->. right. eauto.
Qed.

Lemma tree_of_root key env l :
  ∃ root, tree_of key env l !! "all" = Some root ∧ hosts root = None.
Proof.
  unfold tree_of. rewrite lookup_foldl_edit_at.
  destruct (edits_for "all" (edits key env l)) as [|e es]; [by eexists|].
  eexists. split; [done|]. done.
Qed.

(** Every group of the tree but the root holds a host. *)
Lemma tree_of_group_has_host key env l g data :
  tree_of key env l !! g = Some data → g ≠ "all" →
  ∃ hs k, hosts data = Some hs ∧ k ∈ hs.
Proof.
  intros Hg Hne.
  assert (∃ h p k, h ∈ l ∧ (p, g, k) ∈ memberships key env h)
    as (h & p & k & Hh & Hm).
  { revert Hg. unfold tree_of. rewrite lookup_foldl_edit_at.
    destruct (edits_for g (edits key env l)) as [|e es] eqn:Hes.
    { unfold root_inventory. rewrite lookup_singleton_ne by done. done. }
    intros _. assert (e ∈ edits_for g (edits key env l)) as He by (rewrite Hes; left).
    apply elem_of_edits_for, elem_of_edits in He as (h & [[p g'] k] & Hh & Hm & Hin).
    apply elem_of_member_edits in Hin as [[-> _]|[[-> _]|[-> _]]]; cbn in *.
    - eauto.
    - apply memberships_parent_member in Hm as [Hall|([[p' g''] k'] & Hm' & Hp)];
        cbn in *; [done|]. subst. eauto.
    - eauto. }
  destruct (tree_of_membership key env l h p g k Hh Hm)
    as (parent_data & data' & hs & _ & _ & Hg' & Hhs & Hk).
  rewrite Hg in Hg'. simplify_eq. eauto.
Qed.

(** X1. The tree the builder returns has no empty group: its root [all]
    has no host table, and every other group holds at least one host. The
    pruning step of the writer therefore removes the root and nothing
    else. *)
Theorem pruning_removes_only_the_root (inventory_key : string) (records : list Host)
  (environment : string) :
  ∃ tree root,
    build_environment_inventory inventory_key records environment = Ok tree
    ∧ tree !! "all" = Some root ∧ hosts root = None
    ∧ (∀ g data, tree !! g = Some data → g ≠ "all" →
         ∃ hs, hosts data = Some hs ∧ hs ≠ ∅)
    ∧ filtered_inventory tree = delete "all" tree.
Proof.
  rewrite build_environment_inventory_tree.
  destruct (tree_of_root inventory_key environment records) as (root & Hroot & Hnone).
  assert (∀ g data, tree_of inventory_key environment records !! g = Some data →
            g ≠ "all" → ∃ hs, hosts data = Some hs ∧ hs ≠ ∅) as Hfull.
  { intros g data Hg Hne.
    destruct (tree_of_group_has_host _ _ _ _ _ Hg Hne) as (hs & k & Hhs & Hk).
    exists hs. split; [done|]. set_solver. }
  eexists _, root. split; [done|]. split; [done|]. split; [done|]. split; [done|].
  apply map_eq. intros g. unfold filtered_inventory.
  destruct (decide (g = "all")) as [->|Hne].
  - rewrite lookup_delete_eq. apply map_lookup_filter_None. right.
    intros data Hdata. rewrite Hroot in Hdata. injection Hdata as <-.
    cbn. unfold has_hosts. by rewrite Hnone.
  - rewrite lookup_delete_ne by done.
    destruct (tree_of inventory_key environment records !! g) as [data|] eqn:Hg.
    + apply map_lookup_filter_Some. split; [done|]. cbn.
      destruct (Hfull g data Hg Hne) as (hs & Hhs & Hnonempty).
      unfold has_hosts. rewrite Hhs. by rewrite bool_decide_false.
    + apply map_lookup_filter_None. by left.
Qed.

(** A child of a group of the tree was registered by a membership. *)
Lemma tree_of_children key env l g data c :
  tree_of key env l !! g = Some data → c ∈ children data →
  ∃ h k, h ∈ l ∧ (g, c, k) ∈ memberships key env h.
Proof.
  unfold tree_of. rewrite lookup_foldl_edit_at.
  destruct (edits_for g (edits key env l)) as [|e es] eqn:Hes.
  - unfold root_inventory. rewrite lookup_singleton. case_decide; [|done].
    intros [= <-]. cbn. set_solver.
  - intros [= <-]. unfold group_after. cbn [children].
    assert (children (getitem g root_inventory) = ∅) as ->.
    { unfold getitem, root_inventory. rewrite lookup_singleton. by case_decide. }
    rewrite elem_of_union. intros [Hc|Hc]; [|set_solver].
    unfold added_children in Hc. rewrite elem_of_list_to_set, list_elem_of_omap in Hc.
    destruct Hc as (e' & He' & Hc). destruct e'; try done. simplify_eq.
    rewrite <- Hes in He'.
    apply elem_of_edits_for, elem_of_edits in He' as (h & [[p g'] k] & Hh & Hm & Hin).
    apply elem_of_member_edits in Hin as [[_ ?]|[[? [= ->]]|[_ ?]]]; try done.
    cbn in *. subst. eauto.
Qed.

(** X2. The hierarchy of the tree the builder returns. Every child named
    in a group is a group of the tree, and every group but the root is the
    child of a group. The only child the root can have is the group of the
    environment. The host table of the environment group holds exactly the
    keys of the records of that environment, and the hosts of every group
    are among them. *)
Theorem tree_hierarchy (inventory_key : string) (records : list Host)
  (environment : string) :
  ∃ tree,
    build_environment_inventory inventory_key records environment = Ok tree
    ∧ (∀ g data c, tree !! g = Some data → c ∈ children data → is_Some (tree !! c))
    ∧ (∀ g, is_Some (tree !! g) → g ≠ "all" →
         ∃ p parent, tree !! p = Some parent ∧ g ∈ children parent)
    ∧ (∀ root, tree !! "all" = Some root → children root ⊆ {["env_" +:+ environment]})
    ∧ (∀ g data hs k, tree !! g = Some data → hosts data = Some hs → k ∈ hs →
         ∃ env_data env_hosts,
           tree !! ("env_" +:+ environment) = Some env_data
           ∧ hosts env_data = Some env_hosts ∧ k ∈ env_hosts)
    ∧ (∀ k, (∃ env_data env_hosts,
               tree !! ("env_" +:+ environment) = Some env_data
               ∧ hosts env_data = Some env_hosts ∧ k ∈ env_hosts)
            ↔ ∃ h, h ∈ records ∧ Models.environment h = environment
                   ∧ get_inventory_key_value h inventory_key = k).
Proof.
  rewrite build_environment_inventory_tree. eexists. split; [done|].
  set (tree := tree_of inventory_key environment records).
  assert (∀ h, h ∈ records → Models.environment h = environment →
            ("all", "env_" +:+ environment, get_inventory_key_value h inventory_key)
            ∈ memberships inventory_key environment h) as Hroot.
  { intros h _ He. unfold memberships.
    rewrite (proj2 (String.eqb_eq _ _) He). cbn [negb]. cbv zeta.
    apply elem_of_app. left. left. }
  assert (∀ k, (∃ h, h ∈ records ∧ Models.environment h = environment
                     ∧ get_inventory_key_value h inventory_key = k) →
            ∃ env_data env_hosts,
              tree !! ("env_" +:+ environment) = Some env_data
              ∧ hosts env_data = Some env_hosts ∧ k ∈ env_hosts) as Henv.
  { intros k (h & Hh & He & <-).
    destruct (tree_of_membership inventory_key environment records h _ _ _ Hh
                (Hroot h Hh He)) as (_p & data & hs & _ & _ & Hg & Hhs & Hk).
    eauto. }
  split; [|split; [|split; [|split]]].
  - intros g data c Hg Hc.
    destruct (tree_of_children _ _ _ _ _ _ Hg Hc) as (h & k & Hh & Hm).
    destruct (tree_of_membership _ _ _ _ _ _ _ Hh Hm)
      as (_p & data' & hs & _ & _ & Hc' & _). eauto.
  - intros g [data Hg] Hne.
    assert (∃ h p k, h ∈ records ∧ (p, g, k) ∈ memberships inventory_key environment h)
      as (h & p & k & Hh & Hm).
    { destruct (tree_of_group_has_host _ _ _ _ _ Hg Hne) as (hs & k & Hhs & Hk).
      revert Hg. unfold tree, tree_of. rewrite lookup_foldl_edit_at.
      destruct (edits_for g (edits inventory_key environment records)) as [|e es] eqn:Hes.
      { unfold root_inventory. rewrite lookup_singleton_ne by done. done. }
      intros _.
      assert (e ∈ edits_for g (edits inventory_key environment records)) as He
        by (rewrite Hes; left).
      apply elem_of_edits_for, elem_of_edits in He as (h & [[p g'] k'] & Hh & Hm & Hin).
      apply elem_of_member_edits in Hin as [[-> _]|[[-> _]|[-> _]]]; cbn in *.
      - eauto.
      - apply memberships_parent_member in Hm as [Hall|([[p' g''] k''] & Hm' & Hp)];
          cbn in *; [done|]. subst. eauto.
      - eauto. }
    destruct (tree_of_membership _ _ _ _ _ _ _ Hh Hm)
      as (parent & _d & _hs & Hp & Hc & _). eauto.
  - intros root Hr c Hc.
    destruct (tree_of_children _ _ _ _ _ _ Hr Hc) as (h & k & Hh & Hm).
    apply elem_of_singleton. revert Hm. unfold memberships.
    destruct (negb _); [by intros ?%elem_of_nil|]. cbv zeta.
    rewrite !elem_of_app. intros [Hm|[Hm|[Hm|Hm]]].
    + by apply list_elem_of_singleton in Hm as [= <-].
    + destruct (PyStr.truthy_opt (application_service h)
                && PyStr.truthy (get_app_group_name h)) eqn:Hguard;
        [|by apply elem_of_nil in Hm].
      apply elem_of_cons in Hm as [[=]|Hm].
      apply list_elem_of_fmap in Hm as (p & [= Hp] & _).
      apply andb_true_iff in Hguard as [_ Happ].
      destruct (app_group_name_prefix h Happ) as [rest Hrest].
      rewrite Hrest in Hp. symmetry in Hp. by apply prefixed_not_all in Hp.
    + destruct (site_group_name h); [|by apply elem_of_nil in Hm].
      by apply list_elem_of_singleton in Hm as [=].
    + destruct (_ && _); [|by apply elem_of_nil in Hm].
      by apply list_elem_of_singleton in Hm as [=].
  - intros g data hs k Hg Hhs Hk. apply Henv. by eapply tree_of_hosts.
  - intros k. split; [|apply Henv].
    intros (env_data & env_hosts & Hg & Hhs & Hk). by eapply tree_of_hosts.
Qed.

(** X3. Records of other environments leave no trace in the tree: the
    builder returns for a list of records what it returns for the records
    of the environment among them, and when there is none the tree is the
    root alone, without children. *)
Theorem other_environments_are_ignored (inventory_key : string) (records : list Host)
  (environment : string) :
  build_environment_inventory inventory_key records environment
  = build_environment_inventory inventory_key
      (filter (λ h, Models.environment h = environment) records) environment
  ∧ (filter (λ h, Models.environment h = environment) records = [] →
     build_environment_inventory inventory_key records environment
     = Ok {[ "all" := {| hosts := None; children := ∅ |} ]}).
Proof.
  assert (build_environment_inventory inventory_key records environment
          = build_environment_inventory inventory_key
              (filter (λ h, Models.environment h = environment) records) environment)
    as Hsame.
  { rewrite !build_environment_inventory_tree. f_equal. apply tree_of_relevant.
    intros h He. rewrite list_elem_of_filter. tauto. }
  split; [done|]. intros Hnone. rewrite Hsame, Hnone. done.
Qed.

(** ** The run *)

Lemma remove_orphaned_stuck_result files removed_count w :
  (∀ n, n ∈ files → unlink_fails w (HostVarsFile n) = true) →
  remove_orphaned files removed_count w = (w, Ok removed_count).
Proof.
  revert removed_count. induction files as [|n files IH]; intros removed_count Hstuck;
    [done|].
  cbn [remove_orphaned]. unfold mbind, IO_bind, try_except, unlink, mret, IO_ret.
  rewrite (Hstuck n) by left. apply IH. intros n' Hn'. apply Hstuck. by right.
Qed.

(** X4. A dry run changes nothing: whatever the world, it ends in the world
    it started in, with no file written or removed and no event in the
    journal, and it reports no generated file. When records were loaded it
    reports success, with the number of orphaned host-variable files found
    (none when the clean-up is disabled). *)
Theorem dry_run_changes_nothing (lib : Library) (cfg : Config)
  (environments : option (list string)) (w : World) :
  ∃ report,
    generate_inventories lib cfg environments true w = (w, Ok report)
    ∧ report_generated_files report = []
    ∧ (∀ loaded group_orphaned_removed,
         (load_hosts lib cfg None w).2 = Ok loaded → loaded ≠ [] →
         cleanup_orphaned_group_vars lib loaded true = Ok group_orphaned_removed →
         report = Success [] true (target_environments cfg environments)
                    (if cleanup_orphaned_on_generate cfg
                     then length (orphaned_files loaded (host_vars_files w)) else 0)
                    group_orphaned_removed).
Proof.
  rewrite generate_inventories_unfold.
  destruct ((load_hosts lib cfg None w).2) as [loaded|e] eqn:Hload.
  2:{ eexists. split; [done|]. split; [done|]. by intros. }
  destruct loaded as [|h0 loaded0] eqn:Hl.
  { eexists. split; [done|]. split; [done|]. by intros ? ? [= <-]. }
  rewrite <- Hl in *. clear Hl h0 loaded0. unfold run_loaded. rewrite cleanup_unfold.
  assert ((if negb (cleanup_orphaned_on_generate cfg) then (w, Ok 0)
           else (w, Ok (length (orphaned_files loaded (host_vars_files w)))))
          = (w, Ok (if cleanup_orphaned_on_generate cfg
                    then length (orphaned_files loaded (host_vars_files w)) else 0)))
    as -> by (by destruct (cleanup_orphaned_on_generate cfg)).
  destruct (cleanup_orphaned_group_vars lib loaded true) as [removed|e] eqn:Hgroup.
  - rewrite generate_environments_dry_run. eexists. split; [done|]. split; [done|].
    intros ? ? [= <-] _ Hg. rewrite Hgroup in Hg. by injection Hg as <-.
  - eexists. split; [done|]. split; [done|].
    intros ? ? [= <-] _ Hg. by rewrite Hgroup in Hg.
Qed.

(** X5. Cleaning up twice in a row: the second clean-up finds nothing it
    can remove, changes nothing and returns 0; the orphans that are left
    are the ones whose removal failed, and a dry run after the clean-up
    counts exactly them. *)
Theorem cleanup_twice_removes_nothing (cfg : Config) (hosts : list Host) (w : World) :
  let w' := (cleanup_orphaned_host_vars cfg hosts false w).1 in
  cleanup_orphaned_host_vars cfg hosts false w' = (w', Ok 0)
  ∧ (cleanup_orphaned_on_generate cfg = true →
     (∀ n, n ∈ orphaned_files hosts (host_vars_files w')
           ↔ n ∈ orphaned_files hosts (host_vars_files w)
             ∧ unlink_fails w (HostVarsFile n) = true)
     ∧ cleanup_orphaned_host_vars cfg hosts true w'
       = (w', Ok (length (orphaned_files hosts (host_vars_files w'))))).
Proof.
  cbv zeta. destruct (cleanup_orphaned_on_generate cfg) eqn:Hc.
  2:{ rewrite !cleanup_off by done. done. }
  pose proof (cleanup_cleans cfg hosts w Hc) as Hcl.
  destruct (cleanup_spec cfg hosts w Hc)
    as (w' & Hrun & Hl & _ & _ & _ & _ & Hu & _).
  rewrite Hrun in *. cbn [fst] in *. split; [|intros _; split].
  - rewrite cleanup_unfold, Hc. cbn [negb]. by apply remove_orphaned_stuck_result.
  - intros n. rewrite !elem_of_orphaned_files, Hl. case_bool_decide as Hrem.
    + split; [by intros [[? [=]] _]|]. intros [_ Hfail].
      apply list_elem_of_filter in Hrem as [Hrem _]. congruence.
    + split.
      * intros (Hex & Hyml & Hstem). split; [done|].
        destruct (unlink_fails w (HostVarsFile n)) eqn:Hn; [done|]. destruct Hrem.
        apply list_elem_of_filter. split; [done|]. by apply elem_of_orphaned_files.
      * tauto.
  - by rewrite cleanup_unfold, Hc.
Qed.

(** ** The writers *)

(** The timestamp line the tree writer settles on is well formed. *)
Lemma timestamp_line_for_good existing_text new_yaml_content (w : World) :
  let existing :=
    match existing_text with
    | Some text => parse_inventory_file text
    | None => (None, None)
    end in
  good_timestamp (timestamp_line_for existing new_yaml_content w).
Proof.
  cbv zeta. unfold timestamp_line_for, keeps_timestamp.
  destruct existing_text as [text|]; [|apply fresh_timestamp_good].
  unfold parse_inventory_file. cbv zeta. cbn [fst snd].
  destruct (find_existing_timestamp _) as [ts|] eqn:Hts.
  - destruct (bool_decide _ && _); [|apply fresh_timestamp_good].
    cbn. by eapply found_timestamp_good.
  - rewrite andb_false_r. apply fresh_timestamp_good.
Qed.

(** X6. What the tree writer writes, it reads back. When the file can be
    opened for writing and the title is one line that is not taken for a
    timestamp line, the call returns, the file holds the header with a
    timestamp line followed by the serialized pruned tree, and the two
    loops that read an existing file find in it that timestamp line and
    that body. A file that was not there, or that cannot be read, gets the
    current reading of the clock as its timestamp. *)
Theorem written_tree_file_reads_back (lib : Library) (inventory : Inventory)
  (output_file title : string) (w : World) :
  write_fails w (InventoryFile output_file) = false →
  PyStr.one_line title = true →
  is_timestamp_line ("# " +:+ title +:+ " Inventory" +:+ NL) = false →
  let new_yaml_content := yaml_dump lib (filtered_inventory inventory) in
  ∃ w' timestamp_line text,
    write_inventory_file lib inventory output_file title w = (w', Ok ())
    ∧ inventory_files w' !! output_file = Some text
    ∧ text = inventory_file_text title timestamp_line new_yaml_content
    ∧ PyStr.startswith "# Generated at:" timestamp_line = true
    ∧ find_existing_timestamp (PyStr.readlines text) = Some timestamp_line
    ∧ content_from (PyStr.readlines text) (tree_yaml_start_index (PyStr.readlines text))
      = Some new_yaml_content
    ∧ (inventory_files w !! output_file = None
       ∨ read_fails w (InventoryFile output_file) = true →
       timestamp_line = "# Generated at: " +:+ strftime (clock w (ticks w))
       ∧ ticks w' = S (ticks w)).
Proof.
  intros Hwrite Hone Hline. cbv zeta.
  rewrite write_inventory_file_unfold. cbv zeta.
  set (f := InventoryFile output_file).
  set (body := yaml_dump lib (filtered_inventory inventory)).
  set (existing := existing_inventory f w).
  assert (good_timestamp (timestamp_line_for existing body w)) as Hgood.
  { unfold existing, existing_inventory.
    destruct (lookup_file f w) as [text|] eqn:Hl.
    - destruct (read_fails w f).
      + apply (timestamp_line_for_good None).
      + apply (timestamp_line_for_good (Some text)).
    - apply (timestamp_line_for_good None). }
  pose proof (parse_inventory_file_text title _ body (conj Hone Hline) Hgood) as Hparse.
  pose proof (f_equal fst Hparse) as Hts. pose proof (f_equal snd Hparse) as Hbody.
  unfold parse_inventory_file in Hts, Hbody. cbn [fst snd] in Hts, Hbody.
  rewrite write_text_ok by (by destruct (keeps_timestamp existing body)).
  eexists _, (timestamp_line_for existing body w),
    (inventory_file_text title (timestamp_line_for existing body w) body).
  split; [done|]. split.
  { unfold f. cbn [fst update_files inventory_files].
    by rewrite lookup_partial_alter_eq. }
  split; [done|]. split; [apply Hgood|]. split; [done|]. split; [done|].
  intros Hfresh.
  assert (existing = (None, None)) as ->.
  { unfold existing, existing_inventory. destruct Hfresh as [Hnone|Hfail].
    - unfold f. cbn [lookup_file]. by rewrite Hnone.
    - rewrite Hfail. by destruct (lookup_file f w). }
  unfold timestamp_line_for, keeps_timestamp. cbn [fst snd PyStr.truthy_opt].
  rewrite andb_false_r. done.
Qed.

Lemma written_tree_file_reads_back_witness :
  ∃ w' timestamp_line text,
    write_inventory_file Sample.library Sample.production_tree "production.yml"
      "Production Environment" (Sample.world []) = (w', Ok ())
    ∧ inventory_files w' !! "production.yml" = Some text
    ∧ text = inventory_file_text "Production Environment" timestamp_line
               (yaml_dump Sample.library (filtered_inventory Sample.production_tree))
    ∧ PyStr.startswith "# Generated at:" timestamp_line = true
    ∧ find_existing_timestamp (PyStr.readlines text) = Some timestamp_line
    ∧ content_from (PyStr.readlines text) (tree_yaml_start_index (PyStr.readlines text))
      = Some (yaml_dump Sample.library (filtered_inventory Sample.production_tree))
    ∧ (inventory_files (Sample.world []) !! "production.yml" = None
       ∨ read_fails (Sample.world []) (InventoryFile "production.yml") = true →
       timestamp_line = "# Generated at: " +:+ strftime (clock (Sample.world []) (ticks (Sample.world [])))
       ∧ ticks w' = S (ticks (Sample.world []))).
Proof.
  exact (written_tree_file_reads_back Sample.library Sample.production_tree
           "production.yml" "Production Environment" (Sample.world [])
           eq_refl eq_refl eq_refl).
Defined.

(** X7. The writer of host-variable files writes once. When the file of a
    record can be read and written, and the key of the record and the
    configured header fit on one line, [create_host_vars] returns, the
    file then holds a text whose body, as the function reads it back, is
    the serialized variables of the record, and a second call changes
    nothing: the world, journal included, stays as the first call left it. *)
Theorem host_vars_are_written_once (lib : Library) (cfg : Config) (host : Host)
  (w : World) :
  let host_vars_filename := get_host_vars_filename host (inventory_key cfg) in
  read_fails w (HostVarsFile host_vars_filename) = false →
  write_fails w (HostVarsFile host_vars_filename) = false →
  PyStr.one_line (get_inventory_key_value host (inventory_key cfg)) = true →
  PyStr.one_line (HOST_VARS_HEADER cfg) = true →
  ∃ w' text,
    create_host_vars lib cfg host w = (w', Ok ())
    ∧ host_vars_files w' !! host_vars_filename = Some text
    ∧ content_from (PyStr.readlines text) (vars_yaml_start_index (PyStr.readlines text))
      = Some (yaml_dump_vars lib (host_vars_of lib cfg host))
    ∧ create_host_vars lib cfg host w' = (w', Ok ()).
Proof.
  cbv zeta. intros Hread Hwrite Hkey Hheader.
  set (f := HostVarsFile (get_host_vars_filename host (inventory_key cfg))) in *.
  set (body := yaml_dump_vars lib (host_vars_of lib cfg host)).
  assert (∀ w1 text,
            read_fails w1 f = false → lookup_file f w1 = Some text →
            parse_host_vars_file text = Some body →
            create_host_vars lib cfg host w1 = (w1, Ok ())) as Hskip.
  { intros w1 text Hr Hl Hp. rewrite create_host_vars_unfold. cbv zeta.
    fold f body. unfold host_vars_should_write. rewrite Hl, Hr, Hp.
    by rewrite bool_decide_true. }
  rewrite create_host_vars_unfold. cbv zeta. fold f body.
  destruct (host_vars_should_write f body w) eqn:Hshould.
  - rewrite write_text_ok by done.
    set (text := host_vars_file_text _ _ body).
    assert (parse_host_vars_file text = Some body) as Hparse
      by (by apply parse_host_vars_file_text).
    exists (update_files f (Some text) (OpenedForWriting f) w), text.
    split; [done|].
    assert (lookup_file f (update_files f (Some text) (OpenedForWriting f) w) = Some text)
      as Hl by (by rewrite lookup_file_update, decide_True).
    split; [exact Hl|]. split; [exact Hparse|]. by eapply Hskip.
  - revert Hshould. unfold host_vars_should_write.
    destruct (lookup_file f w) as [text|] eqn:Hl; [|done]. rewrite Hread.
    destruct (parse_host_vars_file text) as [existing|] eqn:Hp; [|done].
    intros Heq%negb_false_iff%bool_decide_eq_true. subst existing.
    exists w, text. split; [done|]. split; [exact Hl|]. split; [exact Hp|].
    by eapply Hskip.
Qed.

Lemma host_vars_are_written_once_witness :
  ∃ w' text,
    create_host_vars Sample.library Sample.config Sample.web01 (Sample.world [])
    = (w', Ok ())
    ∧ host_vars_files w' !! "web01.yml" = Some text
    ∧ content_from (PyStr.readlines text) (vars_yaml_start_index (PyStr.readlines text))
      = Some (yaml_dump_vars Sample.library
                (host_vars_of Sample.library Sample.config Sample.web01))
    ∧ create_host_vars Sample.library Sample.config Sample.web01 w' = (w', Ok ()).
Proof.
  exact (host_vars_are_written_once Sample.library Sample.config Sample.web01
           (Sample.world []) eq_refl eq_refl eq_refl eq_refl).
Defined.

(** [create_host_vars] raises only when the file cannot be opened for
    writing, and then it has changed nothing. *)
Lemma create_host_vars_raises lib cfg host w w' e :
  create_host_vars lib cfg host w = (w', Raise e) →
  e = OSError "Permission denied" ∧ w' = w.
Proof.
  rewrite create_host_vars_unfold. cbv zeta.
  destruct (host_vars_should_write _ _ w); [|done].
  unfold write_text. destruct (write_fails w _); [|done]. by intros [= <- <-].
Qed.

Lemma create_host_vars_blocked lib cfg host w :
  let f := HostVarsFile (get_host_vars_filename host (inventory_key cfg)) in
  write_fails w f = true → lookup_file f w = None →
  create_host_vars lib cfg host w = (w, Raise (OSError "Permission denied")).
Proof.
  cbv zeta. intros Hfail Hnone. rewrite create_host_vars_unfold. cbv zeta.
  unfold host_vars_should_write. rewrite Hnone. unfold write_text. by rewrite Hfail.
Qed.

Lemma for_each_create_host_vars_blocked lib cfg host hosts w :
  let f := HostVarsFile (get_host_vars_filename host (inventory_key cfg)) in
  host ∈ hosts → write_fails w f = true → lookup_file f w = None →
  ∃ w', for_each (create_host_vars lib cfg) hosts w
        = (w', Raise (OSError "Permission denied")).
Proof.
  cbv zeta. revert w. induction hosts as [|h hosts IH]; intros w Hin Hfail Hnone.
  { by apply elem_of_nil in Hin. }
  cbn [for_each]. unfold mbind, IO_bind.
  destruct (create_host_vars lib cfg h w) as [w1 [[]|e]] eqn:Hh.
  2:{ apply create_host_vars_raises in Hh as [-> ->]. eauto. }
  destruct (decide (HostVarsFile (get_host_vars_filename h (inventory_key cfg))
                    = HostVarsFile (get_host_vars_filename host (inventory_key cfg))))
    as [Hsame|Hother].
  { rewrite create_host_vars_blocked in Hh by (by rewrite Hsame). done. }
  pose proof (create_host_vars_touches lib cfg h w) as (Hl & _ & _ & Hw & _).
  rewrite Hh in Hl, Hw. cbn [fst] in Hl, Hw.
  apply IH.
  - apply elem_of_cons in Hin as [->|Hin]; [done|done].
  - by rewrite Hw.
  - rewrite Hl by (intros Heq; by apply Hother). done.
Qed.

(** X8. One host-variable file that cannot be created stops the
    generation of its environment before the tree: when the file of an
    active record does not exist and cannot be opened for writing,
    [_generate_inventory_file] raises the [OSError] as it is, and no tree
    file has been written, opened or removed. *)
Theorem unwritable_host_vars_stop_the_tree (lib : Library) (cfg : Config)
  (environment : string) (hosts : list Host) (inventory_filename : option string)
  (host : Host) (w : World) :
  let host_vars_file := HostVarsFile (get_host_vars_filename host (inventory_key cfg)) in
  host ∈ hosts → is_active host = true →
  write_fails w host_vars_file = true → lookup_file host_vars_file w = None →
  ∃ w' events,
    _generate_inventory_file lib cfg environment hosts inventory_filename w
    = (w', Raise (OSError "Permission denied"))
    ∧ inventory_files w' = inventory_files w
    ∧ journal w' = journal w ++ events
    ∧ Forall (λ ev, ∃ n, event_location ev = HostVarsFile n) events.
Proof.
  cbv zeta. intros Hin Hactive Hfail Hnone.
  assert (host ∈ filter (λ h, is_active h = true) hosts) as Hin'
    by (by apply list_elem_of_filter).
  destruct (for_each_create_host_vars_blocked lib cfg host _ w Hin' Hfail Hnone)
    as [w' Hloop].
  assert (respects (only_touches (λ f, ∃ n, f = HostVarsFile n))
            (for_each (create_host_vars lib cfg) (filter (λ h, is_active h = true) hosts)))
    as Htouch.
  { apply respects_for_each; [apply _|]. intros h _.
    eapply respects_impl; [|apply create_host_vars_touches].
    intros w1 w2. apply only_touches_mono. intros f ->. eauto. }
  specialize (Htouch w). rewrite Hloop in Htouch. cbn [fst] in Htouch.
  destruct Htouch as (Hl & (events & Hj & Hev) & _).
  exists w', events. split; [|split; [|split]].
  - unfold _generate_inventory_file, try_except. cbv zeta.
    unfold mbind at 1, IO_bind at 1. by rewrite Hloop.
  - apply map_eq. intros n. apply (Hl (InventoryFile n)). by intros [? [=]].
  - done.
  - eapply Forall_impl; [exact Hev|]. intros ev [n Hn]. eauto.
Qed.

Lemma unwritable_host_vars_stop_the_tree_witness :
  ∃ w' events,
    _generate_inventory_file Sample.library Sample.config "production"
      [Sample.web01; Sample.db01] None
      (Sample.with_faults (λ _, false)
         (λ f, bool_decide (f = HostVarsFile "db01.yml")) (λ _, false) (Sample.world []))
    = (w', Raise (OSError "Permission denied"))
    ∧ inventory_files w' = inventory_files (Sample.world [])
    ∧ journal w' = journal (Sample.world []) ++ events
    ∧ Forall (λ ev, ∃ n, event_location ev = HostVarsFile n) events.
Proof.
  assert (Sample.db01 ∈ [Sample.web01; Sample.db01]) as Hin by (right; left).
  exact (unwritable_host_vars_stop_the_tree Sample.library Sample.config "production"
           [Sample.web01; Sample.db01] None Sample.db01
           (Sample.with_faults (λ _, false)
              (λ f, bool_decide (f = HostVarsFile "db01.yml")) (λ _, false)
              (Sample.world []))
           Hin eq_refl eq_refl eq_refl).
Defined.

Lemma environment_outputs_filter cfg hosts envs :
  environment_outputs cfg hosts envs
  = (λ env, inventory_dir cfg +:+ "/" +:+ environment_file cfg env)
      <$> filter (λ env, 0 < length (environment_hosts cfg hosts env)) envs.
Proof.
  unfold environment_outputs. induction envs as [|env envs IH]; [done|].
  rewrite bind_cons, IH. destruct (environment_hosts cfg hosts env) as [|h hs] eqn:Hh.
  - rewrite filter_cons_False by (rewrite Hh; cbn; lia). done.
  - rewrite filter_cons_True by (rewrite Hh; cbn; lia). done.
Qed.

(** X9. The files a run reports. When reading and writing work, records
    were loaded and the clean-up of group variables returns, a real run
    reports success and its list of generated files has, in the order of
    the target environments, one path for every target environment that
    has a record, active or not: the inventory directory joined with the
    file of the environment. An environment without a record is passed
    over. *)
Theorem generated_files_follow_the_targets (lib : Library) (cfg : Config)
  (environments : option (list string)) (loaded : list Host)
  (group_orphaned_removed : nat) (w : World) :
  io_ok w →
  (load_hosts lib cfg None w).2 = Ok loaded → loaded ≠ [] →
  cleanup_orphaned_group_vars lib loaded false = Ok group_orphaned_removed →
  ∃ w' orphaned_count,
    generate_inventories lib cfg environments false w
    = (w', Ok (Success
                 ((λ env, inventory_dir cfg +:+ "/" +:+ environment_file cfg env)
                    <$> filter (λ env, 0 < length (environment_hosts cfg loaded env))
                          (target_environments cfg environments))
                 false (target_environments cfg environments)
                 orphaned_count group_orphaned_removed)).
Proof.
  intros Hio Hload Hne Hgroup.
  rewrite (generate_inventories_loaded lib cfg environments false w loaded) by done.
  unfold run_loaded.
  pose proof (cleanup_touches cfg loaded false w) as Htouch.
  destruct (cleanup_returns cfg loaded false w) as [count Hcount].
  destruct (cleanup_orphaned_host_vars cfg loaded false w) as [wc r].
  cbn [fst snd] in *. subst r. rewrite Hgroup.
  rewrite generate_environments_ok by (by eapply io_ok_only_touches).
  rewrite environment_outputs_filter. cbn [app]. eauto.
Qed.

Lemma generated_files_follow_the_targets_witness :
  ∃ w' orphaned_count,
    generate_inventories Sample.library Sample.config None false (Sample.world [])
    = (w', Ok (Success
                 ((λ env, inventory_dir Sample.config +:+ "/"
                          +:+ environment_file Sample.config env)
                    <$> filter (λ env, 0 < length (environment_hosts Sample.config
                                                     Sample.loaded env))
                          (target_environments Sample.config None))
                 false (target_environments Sample.config None) orphaned_count 0)).
Proof.
  assert (io_ok (Sample.world [])) as Hio by (intros f; split; reflexivity).
  assert ((load_hosts Sample.library Sample.config None (Sample.world [])).2
          = Ok Sample.loaded) as Hload by (vm_compute; reflexivity).
  assert (Sample.loaded ≠ []) as Hne by (vm_compute; discriminate).
  exact (generated_files_follow_the_targets Sample.library Sample.config None
           Sample.loaded 0 (Sample.world []) Hio Hload Hne eq_refl).
Defined.

(** X10. An environment whose records are all decommissioned still gets
    its tree file: [_generate_inventory_file] writes no host-variable file
    and writes the tree file with the serialization of the empty
    inventory as its body, under the name it was given or, without one,
    the name of the environment followed by [.yml]. *)
Theorem decommissioned_environment_gets_an_empty_tree (lib : Library) (cfg : Config)
  (environment : string) (hosts : list Host) (inventory_filename : option string)
  (w : World) :
  let output_file :=
    if PyStr.truthy_opt inventory_filename then default "" inventory_filename
    else environment +:+ ".yml" in
  (∀ h, h ∈ hosts → is_active h = false) →
  write_fails w (InventoryFile output_file) = false →
  ∃ w' timestamp_line,
    _generate_inventory_file lib cfg environment hosts inventory_filename w
    = (w', Ok output_file)
    ∧ inventory_files w' !! output_file
      = Some (inventory_file_text (PyStr.title environment +:+ " Environment")
                timestamp_line (yaml_dump lib ∅))
    ∧ host_vars_files w' = host_vars_files w.
Proof.
  cbv zeta. intros Hall Hwrite.
  assert (filter (λ h, is_active h = true) hosts = []) as Hnone.
  { induction hosts as [|h hosts IH]; [done|].
    rewrite filter_cons_False by (rewrite (Hall h) by left; done).
    apply IH. intros h' Hh'. apply Hall. by right. }
  set (output_file := if PyStr.truthy_opt inventory_filename
                      then default "" inventory_filename else environment +:+ ".yml") in *.
  unfold _generate_inventory_file, try_except. cbv zeta. rewrite Hnone.
  cbn [for_each]. unfold mbind, IO_bind, mret, IO_ret, lift. cbn [build_environment_inventory for_result].
  fold output_file.
  rewrite write_inventory_file_unfold. cbv zeta.
  assert (filtered_inventory ({["all" := {| hosts := None; children := ∅ |}]} : Inventory)
          = ∅) as Hempty.
  { unfold filtered_inventory. apply map_filter_singleton_False. by cbn. }
  rewrite Hempty.
  rewrite write_text_ok by (by destruct (keeps_timestamp _ _)).
  eexists _, _. split; [done|]. split.
  - cbn [fst update_files inventory_files]. by rewrite lookup_partial_alter_eq.
  - cbn [fst update_files host_vars_files]. by destruct (keeps_timestamp _ _).
Qed.

Lemma decommissioned_environment_gets_an_empty_tree_witness :
  ∃ w' timestamp_line,
    _generate_inventory_file Sample.library Sample.config "production" [Sample.old01] None
      (Sample.world [])
    = (w', Ok "production.yml")
    ∧ inventory_files w' !! "production.yml"
      = Some (inventory_file_text (PyStr.title "production" +:+ " Environment")
                timestamp_line (yaml_dump Sample.library ∅))
    ∧ host_vars_files w' = host_vars_files (Sample.world []).
Proof.
  assert (∀ h, h ∈ [Sample.old01] → is_active h = false) as Hall.
  { intros h ->%list_elem_of_singleton. reflexivity. }
  exact (decommissioned_environment_gets_an_empty_tree Sample.library Sample.config
           "production" [Sample.old01] None (Sample.world []) Hall eq_refl).
Defined.

(** ** Loading the records *)

Lemma hosts_of_rows_filter lib cfg normalized_env csv_data :
  hosts_of_rows lib cfg (Some normalized_env) csv_data
  = match hosts_of_rows lib cfg None csv_data with
    | Ok hosts =>
        Ok (if PyStr.truthy normalized_env
            then filter (λ h, Models.environment h = normalized_env) hosts
            else hosts)
    | Raise e => Raise e
    end.
Proof.
  induction csv_data as [|row_data rest IH]; [by destruct (PyStr.truthy _)|].
  cbn [hosts_of_rows]. cbv zeta.
  destruct (from_csv_row lib _) as [host|e].
  2:{ by destruct e. }
  rewrite IH. destruct (hosts_of_rows lib cfg None rest) as [hosts|e]; [|done].
  cbn [mbind result_bind PyStr.truthy_opt default from_option andb negb id].
  destruct (PyStr.truthy normalized_env) eqn:Ht; cbn [andb]; [|done].
  destruct (String.eqb_spec (Models.environment host) normalized_env) as [Heq|Hne];
    cbn [negb].
  - by rewrite filter_cons_True.
  - by rewrite filter_cons_False.
Qed.

(** X11. Loading with an environment filter is loading everything and
    then keeping the records of that environment, in the same order: the
    filter, stripped of surrounding white space and mapped to a full name
    when it is a known code, is compared with the environment of each
    record. A filter that is empty or blank keeps every record, and a
    failure to load is the same failure with and without a filter. *)
Theorem load_hosts_filters_by_environment (lib : Library) (cfg : Config)
  (environment : string) (w : World) :
  let env_filter := PyStr.strip environment in
  let normalized_env :=
    match get_environment_info_from_code cfg env_filter with
    | Some env_info => name env_info
    | None => env_filter
    end in
  load_hosts lib cfg (Some environment) w
  = (w, match (load_hosts lib cfg None w).2 with
        | Ok hosts =>
            Ok (if PyStr.truthy environment && PyStr.truthy normalized_env
                then filter (λ h, Models.environment h = normalized_env) hosts
                else hosts)
        | Raise e => Raise e
        end).
Proof.
  cbv zeta. unfold load_hosts, mbind, IO_bind, lift.
  pose proof (load_csv_data_pure cfg ["environment"] w) as Hw.
  destruct (load_csv_data cfg ["environment"] w) as [w1 [csv_data|e]].
  2:{ cbn [fst snd] in *. by subst w1. }
  cbn [fst] in Hw. subst w1.
  cbn [snd PyStr.truthy_opt default from_option id].
  destruct (PyStr.truthy environment) eqn:Ht; cbn [andb].
  - f_equal.
    destruct (get_environment_info_from_code cfg (PyStr.strip environment));
      apply hosts_of_rows_filter.
  - f_equal. by destruct (hosts_of_rows lib cfg None csv_data).
Qed.

Lemma all_chars_lstrip test s :
  all_chars test s = true → all_chars test (PyStr.lstrip s) = true.
Proof.
  induction s as [|c s IH]; [done|]. cbn [PyStr.lstrip all_chars].
  intros [Hc Hs]%andb_true_iff. destruct (PyStr.isspace c); [by apply IH|].
  cbn. by rewrite Hc, Hs.
Qed.

Lemma all_chars_rstrip test s :
  all_chars test s = true → all_chars test (PyStr.rstrip s) = true.
Proof.
  induction s as [|c s IH]; [done|]. cbn [PyStr.rstrip all_chars].
  intros [Hc Hs]%andb_true_iff. specialize (IH Hs).
  destruct (PyStr.rstrip s) as [|d r].
  - destruct (PyStr.isspace c); [done|]. cbn. by rewrite Hc.
  - change (test c && all_chars test (String d r) = true). by rewrite Hc, IH.
Qed.

Lemma all_chars_strip test s :
  all_chars test s = true → all_chars test (PyStr.strip s) = true.
Proof. intros H. by apply all_chars_lstrip, all_chars_rstrip. Qed.

(** The parts of a split hold no separator, and there is at least one. *)
Lemma split_parts sep s :
  PyStr.split sep s ≠ []
  ∧ Forall (λ part, all_chars (λ c, negb (bool_decide (c = sep))) part = true)
      (PyStr.split sep s).
Proof.
  induction s as [|c s [IHne IH]]; [by repeat constructor|].
  cbn [PyStr.split]. case_decide as Hc.
  - split; [done|]. by constructor.
  - destruct (PyStr.split sep s) as [|part parts]; [done|]. split; [done|].
    apply Forall_cons in IH as [Hpart Hparts]. constructor; [|done].
    cbn. by rewrite bool_decide_false, Hpart.
Qed.

Lemma split_app_sep sep part s :
  all_chars (λ c, negb (bool_decide (c = sep))) part = true →
  PyStr.split sep (part +:+ String sep s) = part :: PyStr.split sep s.
Proof.
  induction part as [|c part IH]; cbn [all_chars].
  - intros _. rewrite append_nil_l. cbn [PyStr.split]. by rewrite decide_True.
  - intros [Hc Hpart]%andb_true_iff. apply negb_true_iff, bool_decide_eq_false in Hc.
    rewrite append_cons. cbn [PyStr.split].
    rewrite decide_False by done. by rewrite IH.
Qed.

Lemma split_no_sep sep part :
  all_chars (λ c, negb (bool_decide (c = sep))) part = true →
  PyStr.split sep part = [part].
Proof.
  induction part as [|c part IH]; [done|]. cbn [all_chars PyStr.split].
  intros [Hc Hpart]%andb_true_iff. apply negb_true_iff, bool_decide_eq_false in Hc.
  rewrite decide_False by done. by rewrite IH.
Qed.

(** Splitting what was joined gives the parts back. *)
Lemma split_join_with sep parts :
  parts ≠ [] →
  Forall (λ part, all_chars (λ c, negb (bool_decide (c = sep))) part = true) parts →
  PyStr.split sep (PyStr.join_with (String sep "") parts) = parts.
Proof.
  induction parts as [|part parts IH]; [done|]. intros _ [Hpart Hparts]%Forall_cons.
  destruct parts as [|part' parts'].
  - cbn. by apply split_no_sep.
  - cbn [PyStr.join_with]. rewrite append_cons, append_nil_l.
    rewrite split_app_sep by done. f_equal. by apply IH.
Qed.

Lemma lookup_clean_row row k :
  columns (clean_row row) !! k
  = (λ v, match v with
          | Some v =>
              if String.eqb k "product_id" && PyStr.truthy v
              then PyStr.join_with "," (PyStr.strip <$> PyStr.split "," v)
              else PyStr.strip v
          | None => ""
          end) <$> cells row !! k.
Proof. unfold clean_row. cbn [columns]. rewrite map_lookup_imap. by destruct (cells row !! k). Qed.

Lemma clean_value_idemp k v :
  let clean := λ v, if String.eqb k "product_id" && PyStr.truthy v
                    then PyStr.join_with "," (PyStr.strip <$> PyStr.split "," v)
                    else PyStr.strip v in
  clean (clean v) = clean v.
Proof.
  cbv zeta beta. destruct (String.eqb k "product_id" && PyStr.truthy v) eqn:Hguard.
  - apply andb_true_iff in Hguard as [Hk _]. rewrite Hk. cbn [andb].
    set (items := PyStr.strip <$> PyStr.split "," v).
    destruct (PyStr.truthy (PyStr.join_with "," items)) eqn:Hjoined.
    + destruct (split_parts ","%char v) as [Hne Hparts].
      rewrite split_join_with.
      * unfold items. rewrite <- list_fmap_compose. f_equal.
        apply list_fmap_ext. intros _ part _. cbn. apply strip_idemp.
      * unfold items. by destruct (PyStr.split "," v).
      * unfold items. apply Forall_fmap. eapply Forall_impl; [exact Hparts|].
        intros part Hpart. by apply all_chars_strip.
    + by destruct (PyStr.join_with "," items).
  - assert (String.eqb k "product_id" && PyStr.truthy (PyStr.strip v) = false) as ->.
    { apply andb_false_iff in Hguard as [->|Hv]; [done|].
      destruct v; [|done]. by rewrite andb_false_r. }
    apply strip_idemp.
Qed.

Lemma clean_row_idemp row : clean_row (as_reader_row (clean_row row)) = clean_row row.
Proof.
  assert (∀ r1 r2, columns r1 = columns r2 → has_none_key r1 = has_none_key r2 → r1 = r2)
    as Heq by (intros [c1 n1] [c2 n2]; cbn; congruence).
  apply Heq.
  - apply map_eq. intros k. rewrite !lookup_clean_row. cbn [as_reader_row cells].
    rewrite lookup_fmap, lookup_clean_row.
    destruct (cells row !! k) as [[v|]|]; cbn [fmap option_fmap option_map]; [| |done].
    + f_equal. apply (clean_value_idemp k v).
    + cbn [PyStr.truthy]. by rewrite andb_false_r.
  - cbn [clean_row has_none_key as_reader_row restkey].
    by destruct (bool_decide (is_Some (restkey row))).
Qed.

Lemma stripped_cell_as_reader_row row column v :
  column ≠ "product_id" → stripped_cell row column = Ok v →
  stripped_cell (as_reader_row (clean_row row)) column = Ok v.
Proof.
  intros Hcolumn%String.eqb_neq. unfold stripped_cell. cbn [as_reader_row cells].
  rewrite lookup_fmap, lookup_clean_row. rewrite Hcolumn. cbn [andb].
  destruct (cells row !! column) as [[v0|]|]; cbn [fmap option_fmap option_map];
    [|done..].
  intros [= <-]. by rewrite strip_idemp.
Qed.

(** A row that is kept is kept again when its cleaned form is read as a
    row. *)
Lemma load_row_kept cfg hosts row hosts' :
  load_row cfg hosts row = Ok hosts' →
  hosts' = hosts
  ∨ (hosts' = hosts ++ [clean_row row]
     ∧ ∀ others, load_row cfg others (as_reader_row (clean_row row))
                 = Ok (others ++ [clean_row row])).
Proof.
  unfold load_row.
  destruct (stripped_cell row "hostname") as [hostname|e] eqn:Hh; [|done].
  destruct (stripped_cell row "cname") as [cname|e] eqn:Hc; [|done].
  cbn [mbind result_bind]. cbv zeta.
  destruct (negb _ || _) eqn:Hskip; intros [= <-]; [by left|right].
  split; [done|]. intros others.
  rewrite (stripped_cell_as_reader_row row "hostname" hostname) by done.
  rewrite (stripped_cell_as_reader_row row "cname" cname) by done.
  cbn [mbind result_bind]. rewrite Hskip. by rewrite clean_row_idemp.
Qed.

Lemma load_row_lacking cfg hosts row :
  lacks_name_cell row = true →
  load_row cfg hosts row = Raise (AttributeError "'NoneType' object has no attribute 'strip'").
Proof.
  unfold lacks_name_cell, load_row, stripped_cell. rewrite bool_decide_eq_true.
  intros [->| ->]; [done|]. by destruct (cells row !! "hostname") as [[v|]|].
Qed.

Lemma load_row_returns cfg hosts row :
  lacks_name_cell row = false → ∃ hosts', load_row cfg hosts row = Ok hosts'.
Proof.
  unfold lacks_name_cell, load_row, stripped_cell. rewrite bool_decide_eq_false.
  intros Hcells.
  destruct (cells row !! "hostname") as [[hostname|]|]; [|destruct Hcells; by left|];
    (destruct (cells row !! "cname") as [[cname|]|]; [|destruct Hcells; by right|]);
    cbn [mbind result_bind]; cbv zeta; destruct (negb _ || _); eauto.
Qed.

(** The loop over the rows: it raises at the first line that lacks a name
    cell, and otherwise returns the cleaned rows it keeps, in order. *)
Lemma load_rows_outcome cfg hosts rows :
  if existsb lacks_name_cell rows
  then for_result (load_row cfg) hosts rows
       = Raise (AttributeError "'NoneType' object has no attribute 'strip'")
  else ∃ kept,
         for_result (load_row cfg) hosts rows = Ok (hosts ++ kept)
         ∧ length kept ≤ length rows
         ∧ Forall (λ row_data,
                     (∃ row, row ∈ rows ∧ row_data = clean_row row)
                     ∧ ∀ others, load_row cfg others (as_reader_row row_data)
                                 = Ok (others ++ [row_data])) kept.
Proof.
  revert hosts. induction rows as [|row rows IH]; intros hosts.
  { cbn. exists []. by rewrite app_nil_r. }
  cbn [existsb for_result].
  destruct (lacks_name_cell row) eqn:Hrow; cbn [orb].
  - destruct (existsb lacks_name_cell rows); by rewrite load_row_lacking.
  - destruct (load_row_returns cfg hosts row Hrow) as [hosts' Hload]. rewrite Hload.
    cbn [mbind result_bind]. specialize (IH hosts').
    destruct (existsb lacks_name_cell rows); [done|].
    destruct IH as (kept & -> & Hlen & Hkept).
    assert (Forall (λ row_data,
                      (∃ row0, row0 ∈ row :: rows ∧ row_data = clean_row row0)
                      ∧ ∀ others, load_row cfg others (as_reader_row row_data)
                                  = Ok (others ++ [row_data])) kept) as Hkept'.
    { eapply Forall_impl; [exact Hkept|]. intros row_data [(row0 & Hin & ->) Hagain].
      split; [|done]. exists row0. split; [by right|done]. }
    destruct (load_row_kept cfg hosts row hosts' Hload) as [->|[-> Hagain]].
    + exists kept. split; [done|]. split; [cbn [length]; lia|done].
    + exists (clean_row row :: kept). rewrite <- app_assoc. split; [done|].
      split; [cbn [length]; lia|]. constructor; [|done]. split; [|done].
      exists row. split; [by left|done].
Qed.

Lemma load_rows_again cfg hosts kept :
  Forall (λ row_data,
            ∀ others, load_row cfg others (as_reader_row row_data)
                      = Ok (others ++ [row_data])) kept →
  for_result (load_row cfg) hosts (as_reader_row <$> kept) = Ok (hosts ++ kept).
Proof.
  revert hosts. induction kept as [|row_data kept IH]; intros hosts Hkept.
  { cbn. by rewrite app_nil_r. }
  apply Forall_cons in Hkept as [Hrow Hkept]. cbn [fmap list_fmap for_result].
  rewrite Hrow. cbn [mbind result_bind]. rewrite IH by done. by rewrite <- app_assoc.
Qed.

(** X12. The rows [load_csv_data] returns are clean: every value but the
    product list is stripped of surrounding white space, and loading the
    returned rows again, as the rows of a table with the same header,
    returns them unchanged: no row is dropped and no value changes. *)
Theorem loaded_rows_are_clean (cfg : Config) (required_fields : list string)
  (table : CsvTable) (csv_data : list RowData) (w : World) :
  csv_source w = Some table →
  (load_csv_data cfg required_fields w).2 = Ok csv_data →
  (∀ row_data k v, row_data ∈ csv_data → columns row_data !! k = Some v →
     k ≠ "product_id" → PyStr.strip v = v)
  ∧ (∀ w2,
       csv_source w2
       = Some {| header_error := None; fieldnames := fieldnames table;
                 rows := as_reader_row <$> csv_data; rows_error := None |} →
       (load_csv_data cfg required_fields w2).2 = Ok csv_data).
Proof.
  intros Hsource. unfold load_csv_data. rewrite Hsource.
  destruct (header_error table); [done|].
  destruct (filter (λ f, f ∉ fieldnames table) required_fields) eqn:Hmissing; [|done].
  pose proof (load_rows_outcome cfg [] (rows table)) as Hrows.
  destruct (existsb lacks_name_cell (rows table)); [by rewrite Hrows|].
  destruct Hrows as (kept & -> & _ & Hkept). cbn [app].
  destruct (rows_error table); [done|]. cbn [snd]. intros [= <-]. split.
  - intros row_data k v Hin Hv Hk. rewrite Forall_forall in Hkept.
    destruct (Hkept row_data Hin) as [(row & _ & ->) _].
    rewrite lookup_clean_row in Hv. apply String.eqb_neq in Hk.
    destruct (cells row !! k) as [[v0|]|]; cbn in Hv; [| |done].
    + rewrite Hk in Hv. cbn [andb] in Hv. injection Hv as <-. apply strip_idemp.
    + by injection Hv as <-.
  - intros w2 ->. cbn [header_error fieldnames rows rows_error]. rewrite Hmissing.
    rewrite load_rows_again; [done|].
    eapply Forall_impl; [exact Hkept|]. by intros row_data [_ Hagain].
Qed.

Lemma loaded_rows_are_clean_witness :
  ∃ csv_data,
    (load_csv_data Sample.config ["environment"] (Sample.world [])).2 = Ok csv_data
    ∧ (∀ row_data k v, row_data ∈ csv_data → columns row_data !! k = Some v →
         k ≠ "product_id" → PyStr.strip v = v)
    ∧ (∀ w2,
         csv_source w2
         = Some {| header_error := None; fieldnames := fieldnames Sample.table;
                   rows := as_reader_row <$> csv_data; rows_error := None |} →
         (load_csv_data Sample.config ["environment"] w2).2 = Ok csv_data).
Proof.
  destruct ((load_csv_data Sample.config ["environment"] (Sample.world [])).2)
    as [csv_data|e] eqn:Hload; [|by vm_compute in Hload].
  exists csv_data. split; [done|].
  exact (loaded_rows_are_clean Sample.config ["environment"] Sample.table csv_data
           (Sample.world []) eq_refl Hload).
Defined.

Lemma hosts_of_rows_returns lib cfg normalized_env csv_data :
  (∀ row e, from_csv_row lib row = Raise e → ∃ message, e = ValueError message) →
  ∃ hosts, hosts_of_rows lib cfg normalized_env csv_data = Ok hosts
           ∧ length hosts ≤ length csv_data.
Proof.
  intros Hvalue. induction csv_data as [|row_data rest (hosts & IH & Hlen)].
  { exists []. by split. }
  cbn [hosts_of_rows]. cbv zeta.
  destruct (from_csv_row lib _) as [host|e] eqn:Hrow.
  - rewrite IH. cbn [mbind result_bind].
    destruct (_ && _); eexists; (split; [done|]); cbn [length]; lia.
  - destruct (Hvalue _ _ Hrow) as [message ->]. exists hosts. split; [done|].
    cbn [length]. lia.
Qed.

(** X13. How loading fails. When the row parser raises nothing but
    [ValueError], [load_hosts] fails in these ways only, tried in this
    order: with [FileNotFoundError] when the source table is missing; with
    the error of opening the file or reading its header, a [csv.Error]
    turned into a [ValueError]; with [ValueError] when the header has no
    [environment] column; with [AttributeError] when one of the lines read
    is too short to reach its [hostname] or [cname] column; with the error
    at which reading the lines stops, a [csv.Error] again turned into a
    [ValueError]. Otherwise it returns, with at most one record per row of
    the table: a row the parser rejects is skipped. The world is left as
    it is in every case. *)
Theorem load_hosts_failures (lib : Library) (cfg : Config)
  (environment : option string) (w : World) :
  (∀ row e, from_csv_row lib row = Raise e → ∃ message, e = ValueError message) →
  match csv_source w with
  | None =>
      load_hosts lib cfg environment w
      = (w, Raise (FileNotFoundError ("CSV file not found: " +:+ csv_file cfg)))
  | Some table =>
      match header_error table with
      | Some e => load_hosts lib cfg environment w = (w, Raise (reader_exception e))
      | None =>
          if bool_decide ("environment" ∈ fieldnames table)
          then
            if existsb lacks_name_cell (rows table)
            then load_hosts lib cfg environment w
                 = (w, Raise (AttributeError
                                "'NoneType' object has no attribute 'strip'"))
            else
              match rows_error table with
              | Some e =>
                  load_hosts lib cfg environment w = (w, Raise (reader_exception e))
              | None =>
                  ∃ hosts, load_hosts lib cfg environment w = (w, Ok hosts)
                           ∧ length hosts ≤ length (rows table)
              end
          else load_hosts lib cfg environment w
               = (w, Raise (ValueError "Missing required CSV fields: {'environment'}"))
      end
  end.
Proof.
  intros Hvalue. unfold load_hosts, load_csv_data, mbind, IO_bind, lift.
  destruct (csv_source w) as [table|]; [|done].
  destruct (header_error table); [done|].
  case_bool_decide as Hcolumn.
  - rewrite filter_cons_False by (intros Hn; by apply Hn).
    rewrite filter_nil.
    pose proof (load_rows_outcome cfg [] (rows table)) as Hrows.
    destruct (existsb lacks_name_cell (rows table)); [by rewrite Hrows|].
    destruct Hrows as (kept & -> & Hkept & _). cbn [app].
    destruct (rows_error table); [done|].
    match goal with
    | |- context [hosts_of_rows lib cfg ?ne ?data] =>
        destruct (hosts_of_rows_returns lib cfg ne data Hvalue) as (hosts & -> & Hlen)
    end.
    exists hosts. split; [done|]. lia.
  - rewrite filter_cons_True by done. done.
Qed.

Lemma load_hosts_failures_witness :
  let w := Sample.with_source short_line_table (Sample.world []) in
  load_hosts Sample.library Sample.config None w
  = (w, Raise (AttributeError "'NoneType' object has no attribute 'strip'")).
Proof.
  assert (∀ row e, from_csv_row Sample.library row = Raise e →
                   ∃ message, e = ValueError message) as Hvalue.
  { intros row e. cbn [from_csv_row Sample.library]. unfold Sample.parse_row.
    cbv zeta. repeat (destruct (negb _); [intros [= <-]; eauto|]). done. }
  exact (load_hosts_failures Sample.library Sample.config None
           (Sample.with_source short_line_table (Sample.world [])) Hvalue).
Defined.

(** ** The variables of a host *)

Lemma lookup_designated_step lib host field k (m : gmap string PyVal) :
  (match getattr host field with
   | None => m
   | Some value =>
       if String.eqb field "ssl_port" && PyStr.truthy value
       then match py_int lib value with
            | Some port => <[field:=VInt port]> m
            | None => <[field:=VStr value]> m
            end
       else <[field:=VStr (if PyStr.truthy value then value else "")]> m
   end) !! k
  = if decide (field = k) then
      match designated_value lib host k with
      | Some v => Some v
      | None => m !! k
      end
    else m !! k.
Proof.
  unfold designated_value. destruct (decide (field = k)) as [<-|Hk].
  - destruct (getattr host field) as [value|]; [|done].
    destruct (String.eqb field "ssl_port" && PyStr.truthy value).
    + destruct (py_int lib value); by rewrite lookup_insert_eq.
    + rewrite lookup_insert_eq. by destruct value.
  - destruct (getattr host field) as [value|]; [|done].
    destruct (String.eqb field "ssl_port" && PyStr.truthy value).
    + destruct (py_int lib value); by rewrite lookup_insert_ne.
    + by rewrite lookup_insert_ne.
Qed.

Lemma lookup_designated_fields lib cfg host k :
  designated_fields lib cfg host !! k
  = if bool_decide (k ∈ host_var_fields cfg) then designated_value lib host k else None.
Proof.
  unfold designated_fields.
  induction (host_var_fields cfg) as [|field fields IH] using rev_ind.
  { rewrite bool_decide_false by apply not_elem_of_nil. done. }
  rewrite foldl_app. cbn [foldl].
  rewrite lookup_designated_step, IH. destruct (decide (field = k)) as [<-|Hk].
  - rewrite (bool_decide_true (field ∈ fields ++ [field])) by set_solver.
    destruct (designated_value lib host field); [done|]. by case_bool_decide.
  - rewrite (bool_decide_ext (k ∈ fields ++ [field]) (k ∈ fields)); [done|]. set_solver.
Qed.

Lemma lookup_with_metadata cfg host (m : gmap string PyVal) k :
  with_metadata cfg host m !! k
  = match (if bool_decide (k ∈ host_var_fields cfg ∨ k ∈ group_references cfg
                            ∨ k = "ansible_tags")
           then None else metadata host !! k) with
    | Some v => Some (VStr v)
    | None => m !! k
    end.
Proof.
  unfold with_metadata. cbv zeta.
  set (configured := list_to_set (host_var_fields cfg)
                     ∪ list_to_set (group_references cfg) ∪ {["ansible_tags"]} : gset string).
  assert (k ∈ configured ↔ k ∈ host_var_fields cfg ∨ k ∈ group_references cfg
                             ∨ k = "ansible_tags") as Hconf.
  { unfold configured. rewrite !elem_of_union, !elem_of_list_to_set, elem_of_singleton.
    tauto. }
  destruct (filter (λ entry : string * string, entry.1 ∉ configured) (metadata host) !! k)
    as [v|] eqn:Hf.
  - pose proof Hf as [Hm Hk]%map_lookup_filter_Some. cbn in Hk.
    rewrite bool_decide_false by (by rewrite <- Hconf). rewrite Hm.
    rewrite lookup_union_l' by (rewrite lookup_fmap, Hf; by eexists).
    by rewrite lookup_fmap, Hf.
  - rewrite lookup_union_r by (by rewrite lookup_fmap, Hf).
    apply map_lookup_filter_None in Hf as [Hm|Hk].
    + rewrite Hm. by case_bool_decide.
    + case_bool_decide as Hc; [done|].
      destruct (metadata host !! k) as [v|] eqn:Hm; [|done].
      destruct (Hk v eq_refl). cbn. by rewrite Hconf.
Qed.

(** X14. Where the variables of a host come from. A designated field other
    than the support group (and other than the function when the short
    cname is appended to it) has the value of the attribute of the record,
    the port as a number when it parses, and is left out when the record
    has no such attribute. Any other key comes from the metadata of the
    record, unless it is a group reference or [ansible_tags], which are
    left out. The metadata never replaces a designated field, and the
    support group, when designated, is always there. *)
Theorem host_variables_by_key (lib : Library) (cfg : Config) (host : Host) (k : string) :
  (k ∈ host_var_fields cfg → k ≠ "support_group" →
   k ≠ "function" ∨ function_append_short_cname cfg = false →
   host_vars_of lib cfg host !! k = designated_value lib host k)
  ∧ (k ∉ host_var_fields cfg →
     host_vars_of lib cfg host !! k
     = if bool_decide (k ∈ group_references cfg ∨ k = "ansible_tags") then None
       else VStr <$> metadata host !! k)
  ∧ ("support_group" ∈ host_var_fields cfg →
     host_vars_of lib cfg host !! "support_group"
     = if truthy_val (designated_value lib host "support_group")
       then designated_value lib host "support_group"
       else Some (VStr (default_support_group cfg))).
Proof.
  assert (∀ m : gmap string PyVal,
            k ≠ "function" ∨ function_append_short_cname cfg = false →
            with_short_cname cfg m !! k = m !! k) as Hshort.
  { intros m Hk. unfold with_short_cname.
    destruct (function_append_short_cname cfg); [|done].
    destruct Hk as [Hk|Hk]; [|done].
    destruct (m !! "function") as [[function_val|]|]; try done.
    destruct (m !! "cname") as [[cname_val|]|]; try done.
    destruct (_ && _); [|done].
    destruct (String.eqb _ _); by rewrite lookup_insert_ne. }
  assert (∀ m : gmap string PyVal,
            k ≠ "support_group" → with_support_group cfg m !! k = m !! k) as Hsupport.
  { intros m Hk. unfold with_support_group.
    case_bool_decide; [|done]. destruct (negb _); [|done]. by rewrite lookup_insert_ne. }
  unfold host_vars_of. split; [|split].
  - intros Hin Hk Hf. rewrite lookup_with_metadata, bool_decide_true by auto.
    rewrite Hshort, Hsupport, lookup_designated_fields by done.
    by rewrite bool_decide_true.
  - intros Hnot. rewrite lookup_with_metadata.
    assert (with_short_cname cfg (with_support_group cfg (designated_fields lib cfg host))
            !! k = None) as Hnone.
    { assert (designated_fields lib cfg host !! k = None) as Hd.
      { rewrite lookup_designated_fields. by rewrite bool_decide_false. }
      assert (with_support_group cfg (designated_fields lib cfg host) !! k = None) as Hs.
      { unfold with_support_group. case_bool_decide as Hsg; [|done].
        destruct (negb _); [|done]. rewrite lookup_insert_ne; [done|].
        intros <-. done. }
      unfold with_short_cname. destruct (function_append_short_cname cfg); [|done].
      destruct (_ !! "function") as [[function_val|]|] eqn:Hfun; try done.
      destruct (_ !! "cname") as [[cname_val|]|]; try done.
      destruct (_ && _); [|done].
      assert (k ≠ "function") as Hk by (intros ->; congruence).
      destruct (String.eqb _ _); by rewrite lookup_insert_ne. }
    rewrite Hnone.
    destruct (bool_decide (k ∈ group_references cfg ∨ k = "ansible_tags")) eqn:Hg.
    + apply bool_decide_eq_true in Hg. rewrite bool_decide_true by tauto. done.
    + apply bool_decide_eq_false in Hg. rewrite bool_decide_false by tauto.
      by destruct (metadata host !! k).
  - intros Hin.
    rewrite lookup_with_metadata, bool_decide_true by auto.
    assert (∀ m : gmap string PyVal,
              with_short_cname cfg m !! "support_group" = m !! "support_group") as Hs.
    { intros m. unfold with_short_cname.
      destruct (function_append_short_cname cfg); [|done].
      destruct (m !! "function") as [[function_val|]|]; try done.
      destruct (m !! "cname") as [[cname_val|]|]; try done.
      destruct (_ && _); [|done].
      destruct (String.eqb _ _); by rewrite lookup_insert_ne. }
    rewrite Hs. unfold with_support_group. rewrite bool_decide_true by done.
    rewrite lookup_designated_fields, bool_decide_true by done.
    destruct (truthy_val (designated_value lib host "support_group")) eqn:Ht;
      cbn [negb]; [|by rewrite lookup_insert_eq].
    by rewrite lookup_designated_fields, bool_decide_true.
Qed.

Lemma prefix_app p s : String.prefix p (p +:+ s) = true.
Proof.
  induction p as [|c p IH]; [by destruct s|]. rewrite append_cons. cbn [String.prefix].
  by destruct (ascii_dec c c).
Qed.

Lemma contains_app p a b : PyStr.contains p (a +:+ p +:+ b) = true.
Proof.
  induction a as [|c a IH].
  - rewrite append_nil_l. destruct (p +:+ b) eqn:Hpb; cbn [PyStr.contains];
      rewrite <- Hpb, prefix_app; done.
  - rewrite append_cons. cbn [PyStr.contains]. rewrite IH. apply orb_true_r.
Qed.

(** X15. The short cname in the function of a host. With the option
    enabled, when the variables hold a function and a cname that are
    non-empty texts and the cname does not start with a dot, the function
    that results mentions the short cname, the part of the cname before
    its first dot: it is left as it is when it already mentions it, and
    otherwise the short cname is put in front or appended in brackets.
    Every other variable is left as it is, and so is everything when the
    option is disabled. *)
Theorem function_mentions_the_short_cname (cfg : Config)
  (host_vars : gmap string PyVal) (function_val cname_val : string) :
  host_vars !! "function" = Some (VStr function_val) →
  host_vars !! "cname" = Some (VStr cname_val) →
  PyStr.truthy function_val = true →
  PyStr.truthy (PyStr.before "." cname_val) = true →
  let short_cname := PyStr.before "." cname_val in
  (function_append_short_cname cfg = true →
   ∃ function_val',
     with_short_cname cfg host_vars !! "function" = Some (VStr function_val')
     ∧ PyStr.contains short_cname function_val' = true
     ∧ function_val'
       = (if PyStr.contains short_cname function_val then function_val
          else if String.eqb (function_short_cname_position cfg) "front"
               then short_cname +:+ " - " +:+ function_val
               else function_val +:+ " (" +:+ short_cname +:+ ")"))
  ∧ (function_append_short_cname cfg = false → with_short_cname cfg host_vars = host_vars)
  ∧ (∀ k, k ≠ "function" → with_short_cname cfg host_vars !! k = host_vars !! k).
Proof.
  intros Hf Hc Hfun Hshort. cbv zeta. unfold with_short_cname. rewrite Hf, Hc.
  assert (PyStr.truthy cname_val = true) as Hcname by (by destruct cname_val).
  rewrite Hcname, Hfun, Hshort. cbn [andb]. split; [|split].
  - intros ->.
    destruct (PyStr.contains (PyStr.before "." cname_val) function_val) eqn:Hin;
      cbn [negb].
    + eauto.
    + destruct (String.eqb _ _).
      * eexists. rewrite lookup_insert_eq. split; [done|]. split; [|done].
        rewrite <- (append_nil_l (PyStr.before "." cname_val +:+ _)).
        apply contains_app.
      * eexists. rewrite lookup_insert_eq. split; [done|]. split; [|done].
        replace (function_val +:+ " (" +:+ PyStr.before "." cname_val +:+ ")")
          with ((function_val +:+ " (") +:+ PyStr.before "." cname_val +:+ ")")
          by (by rewrite append_assoc).
        apply contains_app.
  - by intros ->.
  - intros k Hk. destruct (function_append_short_cname cfg); [|done].
    destruct (negb _); [|done]. destruct (String.eqb _ _); by rewrite lookup_insert_ne.
Qed.

Lemma function_mentions_the_short_cname_witness :
  with_short_cname
    {| inventory_key := "hostname"; environments := [];
       inventory_dir := "inventory"; csv_file := "hosts.csv";
       cleanup_orphaned_on_generate := true;
       host_var_fields := ["function"; "cname"]; group_references := [];
       default_support_group := "";
       function_append_short_cname := true;
       function_short_cname_position := "back";
       location_codes := ∅; HOST_VARS_HEADER := "" |}
    {[ "function" := VStr "web server"; "cname" := VStr "portal.example.org" ]}
  !! "function" = Some (VStr "web server (portal)").
Proof.
  set (cfg := {| inventory_key := "hostname"; environments := [];
                 inventory_dir := "inventory"; csv_file := "hosts.csv";
                 cleanup_orphaned_on_generate := true;
                 host_var_fields := ["function"; "cname"]; group_references := [];
                 default_support_group := "";
                 function_append_short_cname := true;
                 function_short_cname_position := "back";
                 location_codes := ∅; HOST_VARS_HEADER := "" |}).
  set (host_vars := ({[ "function" := VStr "web server";
                        "cname" := VStr "portal.example.org" ]} : gmap string PyVal)).
  assert (host_vars !! "function" = Some (VStr "web server")) as Hf
    by (vm_compute; reflexivity).
  assert (host_vars !! "cname" = Some (VStr "portal.example.org")) as Hc
    by (vm_compute; reflexivity).
  destruct (function_mentions_the_short_cname cfg host_vars
              "web server" "portal.example.org" Hf Hc eq_refl eq_refl)
    as [Hon _].
  destruct (Hon eq_refl) as (function_val' & Hlookup & _ & Hvalue).
  rewrite Hlookup, Hvalue. reflexivity.
Defined.

(** ** Environment codes *)

Lemma upper_char_idemp c : PyStr.upper_char (PyStr.upper_char c) = PyStr.upper_char c.
Proof. each_ascii c. Qed.

Lemma upper_lower_char c : PyStr.upper_char (PyStr.lower_char c) = PyStr.upper_char c.
Proof. each_ascii c. Qed.

Lemma upper_idemp s : PyStr.upper (PyStr.upper s) = PyStr.upper s.
Proof.
  induction s as [|c s IH]; [done|]. unfold PyStr.upper in *. cbn [PyStr.map].
  by rewrite upper_char_idemp, IH.
Qed.

Lemma upper_lower s : PyStr.upper (PyStr.lower s) = PyStr.upper s.
Proof.
  induction s as [|c s IH]; [done|]. unfold PyStr.upper, PyStr.lower in *.
  cbn [PyStr.map]. by rewrite upper_lower_char, IH.
Qed.

(** X16. Environment codes written in ASCII are looked up without regard
    to case: such a code, its lower-case form and its upper-case form give
    the same answer, and so do two such codes that differ only in the case
    of their letters. *)
Theorem environment_codes_ignore_case (cfg : Config) (code : string) :
  isascii code = true →
  get_environment_info_from_code cfg (PyStr.lower code)
  = get_environment_info_from_code cfg code
  ∧ get_environment_info_from_code cfg (PyStr.upper code)
    = get_environment_info_from_code cfg code
  ∧ (∀ other, isascii other = true → PyStr.lower other = PyStr.lower code →
       get_environment_info_from_code cfg other
       = get_environment_info_from_code cfg code).
Proof.
  intros _. unfold get_environment_info_from_code. rewrite upper_lower, upper_idemp.
  split; [done|]. split; [done|].
  intros other _ Hlower. by rewrite <- (upper_lower other), Hlower, upper_lower.
Qed.

Lemma environment_codes_ignore_case_witness :
  isascii "Prd" = true
  ∧ get_environment_info_from_code Sample.config "prd"
    = get_environment_info_from_code Sample.config "Prd"
  ∧ get_environment_info_from_code Sample.config "PRD"
    = get_environment_info_from_code Sample.config "Prd".
Proof.
  split; [reflexivity|].
  destruct (environment_codes_ignore_case Sample.config "Prd" eq_refl) as (Hl & Hu & _).
  split; [exact Hl|exact Hu].
Defined.

(** ** Merging configuration dictionaries *)

Import ConfigFile.

Lemma merged_value_eq current value :
  merged_value current value
  = match current, value with
    | Some (YDict base), YDict override => YDict (_deep_merge base override)
    | _, _ => value
    end.
Proof. destruct current as [[]|], value; reflexivity. Qed.

Lemma dict_get_set_eq key value d : dict_get key (dict_set key value d) = Some value.
Proof.
  induction d as [|[k v] d IH]; cbn.
  - by rewrite String.eqb_refl.
  - destruct (String.eqb k key) eqn:Hk; cbn; by rewrite Hk.
Qed.

Lemma dict_get_set_ne key key' value d :
  key ≠ key' → dict_get key' (dict_set key value d) = dict_get key' d.
Proof.
  intros Hne. induction d as [|[k v] d IH]; cbn.
  - by rewrite (proj2 (String.eqb_neq _ _) Hne).
  - destruct (String.eqb_spec k key) as [->|Hk]; cbn.
    + by rewrite (proj2 (String.eqb_neq _ _) Hne).
    + by rewrite IH.
Qed.

Lemma dict_get_None key d : dict_get key d = None ↔ key ∉ d.*1.
Proof.
  induction d as [|[k v] d IH]; cbn; [split; [intros _; apply not_elem_of_nil|done]|].
  rewrite not_elem_of_cons. destruct (String.eqb_spec k key) as [->|Hk]; [naive_solver|].
  rewrite IH. naive_solver.
Qed.

Lemma dict_get_Some key d value : dict_get key d = Some value → (key, value) ∈ d.
Proof.
  induction d as [|[k v] d IH]; cbn; [done|].
  destruct (String.eqb_spec k key) as [->|Hk].
  - intros [= ->]. left.
  - intros H. right. by apply IH.
Qed.

Lemma dict_set_keys key value d :
  (dict_set key value d).*1 = if decide (key ∈ d.*1) then d.*1 else d.*1 ++ [key].
Proof.
  induction d as [|[k v] d IH]; cbn.
  - by rewrite decide_False by apply not_elem_of_nil.
  - destruct (String.eqb_spec k key) as [->|Hk]; cbn.
    + by rewrite decide_True by left.
    + rewrite IH. destruct (decide (key ∈ d.*1)) as [Hin|Hin].
      * by rewrite decide_True by (by right).
      * rewrite decide_False; [done|]. rewrite not_elem_of_cons. naive_solver.
Qed.

Lemma dict_set_absent key value d :
  key ∉ d.*1 → dict_set key value d = d ++ [(key, value)].
Proof.
  induction d as [|[k v] d IH]; cbn; [done|]. rewrite not_elem_of_cons. intros [Hk Hd].
  destruct (String.eqb_spec k key) as [->|_]; [done|]. by rewrite IH.
Qed.

(** X17. What a deep merge holds under a key. When the keys of the
    override are distinct, a key the override does not have keeps the value
    of the base; a key the override has gets the value of the override,
    except that two dictionaries are merged in turn. So a dictionary of the
    base is replaced as a whole by a value of the override that is not a
    dictionary, and a value of the base that is not a dictionary by a
    dictionary of the override. *)
Theorem deep_merge_lookup (base override : Dictionary) (key : string) :
  NoDup override.*1 →
  dict_get key (_deep_merge base override)
  = match dict_get key override with
    | None => dict_get key base
    | Some value =>
        Some (match dict_get key base, value with
              | Some (YDict base_entries), YDict override_entries =>
                  YDict (_deep_merge base_entries override_entries)
              | _, _ => value
              end)
    end.
Proof.
  revert base. induction override as [|[k v] override IH]; intros base Hnd; [done|].
  apply NoDup_cons in Hnd as [Hk Hnd]. cbn [_deep_merge]. rewrite IH by done.
  cbn [dict_get]. destruct (String.eqb_spec k key) as [->|Hne].
  - rewrite (proj2 (dict_get_None key override)) by done.
    by rewrite dict_get_set_eq, merged_value_eq.
  - by rewrite dict_get_set_ne.
Qed.

Lemma deep_merge_lookup_witness :
  dict_get "b"
    (_deep_merge [("a", YInt 1); ("b", YDict [("x", YInt 2)])]
       [("b", YDict [("y", YInt 3)])])
  = Some (YDict [("x", YInt 2); ("y", YInt 3)]).
Proof.
  assert (NoDup [("b", YDict [("y", YInt 3)])].*1) as Hnd
    by (repeat constructor; set_solver).
  exact (deep_merge_lookup [("a", YInt 1); ("b", YDict [("x", YInt 2)])]
           [("b", YDict [("y", YInt 3)])] "b" Hnd).
Defined.

Lemma filter_ext_in {A} (P Q : A → Prop) `{!∀ x, Decision (P x)} `{!∀ x, Decision (Q x)}
  (l : list A) :
  (∀ x, x ∈ l → P x ↔ Q x) → filter P l = filter Q l.
Proof.
  induction l as [|x l IH]; intros Hext; [done|].
  assert (filter P l = filter Q l) as Hl.
  { apply IH. intros y Hy. apply Hext. by right. }
  destruct (decide (P x)) as [HP|HP].
  - rewrite !filter_cons_True by (done || (apply Hext; [left|done])). by rewrite Hl.
  - rewrite !filter_cons_False; [done| |done]. intros HQ. apply HP, Hext; [left|done].
Qed.

Lemma deep_merge_keys base override :
  NoDup override.*1 →
  (_deep_merge base override).*1
  = base.*1 ++ filter (λ key, key ∉ base.*1) override.*1.
Proof.
  revert base. induction override as [|[k v] override IH]; intros base Hnd.
  { cbn. by rewrite app_nil_r. }
  apply NoDup_cons in Hnd as [Hk Hnd]. cbn [_deep_merge fmap list_fmap fst].
  rewrite IH by done. rewrite dict_set_keys. destruct (decide (k ∈ base.*1)) as [Hin|Hin].
  - by rewrite filter_cons_False by (intros Hn; by apply Hn).
  - rewrite filter_cons_True by done. rewrite <- app_assoc. cbn [app]. do 2 f_equal.
    apply filter_ext_in. intros key Hkey. rewrite elem_of_app, list_elem_of_singleton.
    split; [tauto|]. intros Hb [?| ->]; done.
Qed.

Lemma deep_merge_into_empty acc override :
  NoDup override.*1 → (∀ key, key ∈ override.*1 → key ∉ acc.*1) →
  _deep_merge acc override = acc ++ override.
Proof.
  revert acc. induction override as [|[k v] override IH]; intros acc Hnd Hdisjoint.
  { cbn. by rewrite app_nil_r. }
  apply NoDup_cons in Hnd as [Hk Hnd]. cbn [_deep_merge].
  assert (k ∉ acc.*1) as Hacc by (apply Hdisjoint; left).
  rewrite (proj2 (dict_get_None k acc)) by done. rewrite merged_value_eq.
  rewrite dict_set_absent by done. rewrite IH.
  - by rewrite <- app_assoc.
  - done.
  - intros key Hkey. rewrite fmap_app. cbn [fmap list_fmap fst].
    rewrite elem_of_app, list_elem_of_singleton.
    intros [Hin| ->]; [|done]. revert Hin. apply Hdisjoint. by right.
Qed.

(** X18. The keys of a deep merge and their order. When the keys of the
    override are distinct, the merge has the keys of the base, in the order
    of the base, followed by the keys only the override has, in the order
    of the override. Merging an empty override returns the base, and
    merging into an empty base returns the override. *)
Theorem deep_merge_keeps_the_order (base override : Dictionary) :
  NoDup override.*1 →
  (_deep_merge base override).*1
  = base.*1 ++ filter (λ key, key ∉ base.*1) override.*1
  ∧ _deep_merge base [] = base
  ∧ _deep_merge [] override = override.
Proof.
  intros Hnd. split; [by apply deep_merge_keys|]. split; [done|].
  rewrite deep_merge_into_empty; [done|done|]. intros key _. apply not_elem_of_nil.
Qed.

Lemma deep_merge_keeps_the_order_witness :
  (_deep_merge (minimal_defaults "2.0.0")
     [("logging", YDict [("level", YStr "DEBUG")]); ("features", YDict [])]).*1
  = ["version"; "paths"; "data"; "environments"; "hosts"; "logging"; "features"].
Proof.
  assert (NoDup [("logging", YDict [("level", YStr "DEBUG")]);
                 ("features", YDict [])].*1) as Hnd.
  { repeat constructor; set_solver. }
  destruct (deep_merge_keeps_the_order (minimal_defaults "2.0.0")
              [("logging", YDict [("level", YStr "DEBUG")]); ("features", YDict [])] Hnd)
    as [Hkeys _].
  rewrite Hkeys. reflexivity.
Defined.

Lemma well_formed_dict d :
  well_formed (YDict d) ↔ NoDup d.*1 ∧ Forall (λ entry, well_formed entry.2) d.
Proof.
  cbn [well_formed]. apply and_iff_compat_l.
  induction d as [|[k v] d IH]; [by split; [constructor|]|].
  rewrite Forall_cons, <- IH. done.
Qed.

Lemma value_size_entry key value d :
  (key, value) ∈ d → value_size value < value_size (YDict d).
Proof.
  cbn [value_size]. induction d as [|[k v] d IH]; [by intros ?%elem_of_nil|].
  intros [[= -> ->]|Hin]%elem_of_cons; [lia|]. specialize (IH Hin). lia.
Qed.

(** Two dictionaries with the same keys in the same order and the same
    value under every key are equal. *)
Lemma dict_ext d1 d2 :
  NoDup d1.*1 → d1.*1 = d2.*1 → (∀ key, dict_get key d1 = dict_get key d2) → d1 = d2.
Proof.
  revert d2. induction d1 as [|[k v1] d1 IH]; intros [|[k2 v2] d2] Hnd Hkeys Hget;
    try done.
  cbn in Hkeys. injection Hkeys as <- Hkeys. apply NoDup_cons in Hnd as [Hk Hnd].
  pose proof (Hget k) as Hv. cbn in Hv. rewrite String.eqb_refl in Hv.
  injection Hv as <-. f_equal. apply IH; [done..|]. intros key.
  destruct (decide (key = k)) as [->|Hne].
  - rewrite (proj2 (dict_get_None k d1)) by done.
    by rewrite (proj2 (dict_get_None k d2)) by (by rewrite <- Hkeys).
  - specialize (Hget key). cbn in Hget.
    by rewrite (proj2 (String.eqb_neq k key)) in Hget by done.
Qed.

Lemma filter_none {A} (P : A → Prop) `{!∀ x, Decision (P x)} (l : list A) :
  (∀ x, x ∈ l → ¬ P x) → filter P l = [].
Proof.
  induction l as [|x l IH]; intros Hnone; [done|].
  rewrite filter_cons_False by (apply Hnone; left). apply IH. intros y Hy.
  apply Hnone. by right.
Qed.

Lemma deep_merge_idemp_sized n :
  (∀ d, value_size (YDict d) ≤ n → well_formed (YDict d) → _deep_merge d d = d)
  ∧ (∀ base override,
       value_size (YDict override) ≤ n →
       well_formed (YDict base) → well_formed (YDict override) →
       _deep_merge (_deep_merge base override) override = _deep_merge base override).
Proof.
  induction n as [|n [IHself IHidemp]].
  { split; [intros d Hsize|intros base override Hsize]; cbn in Hsize; lia. }
  assert (∀ d, value_size (YDict d) ≤ S n → well_formed (YDict d) → _deep_merge d d = d)
    as Hself.
  { intros d Hsize [Hnd Hwf]%well_formed_dict. symmetry. apply dict_ext; [done| |].
    - rewrite deep_merge_keys by done. rewrite filter_none; [by rewrite app_nil_r|].
      intros key Hkey Hnot. by apply Hnot.
    - intros key. rewrite deep_merge_lookup by done.
      destruct (dict_get key d) as [value|] eqn:Hget; [|done]. f_equal.
      destruct value as [| | | | |entries]; try done. f_equal. symmetry.
      apply dict_get_Some in Hget. apply IHself.
      + apply value_size_entry in Hget. lia.
      + rewrite Forall_forall in Hwf. apply (Hwf _ Hget). }
  split; [exact Hself|].
  intros base override Hsize [Hbase Hwfb]%well_formed_dict Hwfo.
  pose proof Hwfo as [Hover Hwfo']%well_formed_dict.
  assert (NoDup (_deep_merge base override).*1) as Hnd.
  { rewrite deep_merge_keys by done. apply NoDup_app. split; [done|]. split.
    - intros key Hkey [Hnot _]%list_elem_of_filter. done.
    - by apply NoDup_filter. }
  symmetry. apply dict_ext; [done| |].
  - rewrite (deep_merge_keys (_deep_merge base override)) by done.
    rewrite filter_none; [by rewrite app_nil_r|].
    intros key Hkey Hnot. apply Hnot.
    rewrite deep_merge_keys by done. apply elem_of_app.
    destruct (decide (key ∈ base.*1)); [by left|]. right. by apply list_elem_of_filter.
  - intros key. rewrite (deep_merge_lookup (_deep_merge base override)) by done.
    rewrite (deep_merge_lookup base) by done.
    destruct (dict_get key override) as [value|] eqn:Hget; [|done]. f_equal.
    destruct value as [| | | | |entries]; try (by destruct (dict_get key base) as [[]|]).
    apply dict_get_Some in Hget.
    assert (value_size (YDict entries) ≤ n) as Hsmall
      by (apply value_size_entry in Hget; lia).
    assert (well_formed (YDict entries)) as Hentries
      by (rewrite Forall_forall in Hwfo'; apply (Hwfo' _ Hget)).
    destruct (dict_get key base) as [current|] eqn:Hcur.
    + destruct current as [| | | | |base_entries];
        try (f_equal; symmetry; by apply IHself).
      f_equal. symmetry. apply IHidemp; [done| |done].
      apply dict_get_Some in Hcur. rewrite Forall_forall in Hwfb. apply (Hwfb _ Hcur).
    + f_equal. symmetry. by apply IHself.
Qed.

(** X19. Merging the same override twice is merging it once, and merging
    a dictionary into itself changes nothing, for dictionaries whose keys
    are distinct at every depth. *)
Theorem deep_merge_is_idempotent (base override : Dictionary) :
  well_formed (YDict base) → well_formed (YDict override) →
  _deep_merge (_deep_merge base override) override = _deep_merge base override
  ∧ _deep_merge override override = override.
Proof.
  intros Hbase Hover.
  destruct (deep_merge_idemp_sized (value_size (YDict override))) as [Hself Hidemp].
  split; [by apply Hidemp|by apply Hself].
Qed.

Lemma deep_merge_is_idempotent_witness :
  _deep_merge
    (_deep_merge (minimal_defaults "2.0.0")
       [("data", YDict [("csv_file", YStr "hosts.csv")]); ("hosts", YStr "none")])
    [("data", YDict [("csv_file", YStr "hosts.csv")]); ("hosts", YStr "none")]
  = _deep_merge (minimal_defaults "2.0.0")
      [("data", YDict [("csv_file", YStr "hosts.csv")]); ("hosts", YStr "none")].
Proof.
  assert (well_formed (YDict (minimal_defaults "2.0.0"))) as Hbase.
  { cbn. repeat split; repeat constructor; set_solver. }
  assert (well_formed
            (YDict [("data", YDict [("csv_file", YStr "hosts.csv")]);
                    ("hosts", YStr "none")])) as Hover.
  { cbn. repeat split; repeat constructor; set_solver. }
  exact (proj1 (deep_merge_is_idempotent (minimal_defaults "2.0.0")
                  [("data", YDict [("csv_file", YStr "hosts.csv")]);
                   ("hosts", YStr "none")] Hbase Hover)).
Defined.

(** ** Loading the configuration *)

Lemma load_config_unfold s :
  _config_cache s = None →
  load_config s
  = match _apply_env_overrides s
            (match config_file s with
             | Some (Ok (YDict yaml_config)) =>
                 _deep_merge (minimal_defaults (VERSION s)) yaml_config
             | _ => minimal_defaults (VERSION s)
             end) with
    | Returns config => (with_cache (Some config) s, Returns config)
    | TypeError => (s, TypeError)
    end.
Proof. intros Hcache. unfold load_config. by rewrite Hcache. Qed.

(** The section of the configuration before the environment is looked at. *)
Lemma merged_section s section :
  (∀ yaml, config_file s = Some (Ok yaml) → well_formed yaml) →
  dict_get section
    (match config_file s with
     | Some (Ok (YDict yaml_config)) =>
         _deep_merge (minimal_defaults (VERSION s)) yaml_config
     | _ => minimal_defaults (VERSION s)
     end)
  = match (match config_file s with
           | Some (Ok (YDict yaml_config)) => dict_get section yaml_config
           | _ => None
           end) with
    | None => dict_get section (minimal_defaults (VERSION s))
    | Some value =>
        Some (match dict_get section (minimal_defaults (VERSION s)), value with
              | Some (YDict base_entries), YDict override_entries =>
                  YDict (_deep_merge base_entries override_entries)
              | _, _ => value
              end)
    end.
Proof.
  intros Hwf. destruct (config_file s) as [[yaml|e]|]; try done.
  destruct yaml as [| | | | |yaml_config]; try done.
  apply deep_merge_lookup. by destruct (proj1 (well_formed_dict _) (Hwf _ eq_refl)).
Qed.

Lemma set_in_section_get section key value config config' :
  set_in_section section key value config = Returns config' →
  get_in section key config' = Some value
  ∧ (∀ other, other ≠ section → dict_get other config' = dict_get other config).
Proof.
  unfold set_in_section, get_in.
  destruct (dict_get section config) as [[| | | | |entries]|] eqn:Hsection; try done;
    intros [= <-]; rewrite dict_get_set_eq.
  - split; [apply dict_get_set_eq|]. intros other Hne. by rewrite dict_get_set_ne.
  - split; [by cbn; rewrite String.eqb_refl|].
    intros other Hne. by rewrite dict_get_set_ne.
Qed.

Lemma set_in_section_fails section key value config :
  set_in_section section key value config = TypeError
  ↔ ∃ current, dict_get section config = Some current
               ∧ ∀ entries, current ≠ YDict entries.
Proof.
  unfold set_in_section.
  destruct (dict_get section config) as [[| | | | |entries]|]; split; try done;
    try (intros _; eexists; split; [done|]; by intros);
    try (by intros (current & [= <-] & Hnot); destruct (Hnot entries)).
Qed.

Lemma set_in_section_outcome section key value config :
  match set_in_section section key value config with
  | TypeError => not_a_dictionary (dict_get section config) = true
  | Returns config' =>
      not_a_dictionary (dict_get section config) = false
      ∧ get_in section key config' = Some value
      ∧ ∀ other, other ≠ section → dict_get other config' = dict_get other config
  end.
Proof.
  destruct (set_in_section section key value config) as [config'|] eqn:Hset.
  - destruct (set_in_section_get _ _ _ _ _ Hset) as [Hget Hother].
    split; [|done]. revert Hset. unfold set_in_section.
    by destruct (dict_get section config) as [[]|].
  - revert Hset. unfold set_in_section.
    by destruct (dict_get section config) as [[]|].
Qed.

Lemma apply_env_overrides_outcome s config :
  let csv_set := PyStr.truthy_opt (INVENTORY_CSV_FILE s) in
  let level_set := PyStr.truthy_opt (INVENTORY_LOG_LEVEL s) in
  match _apply_env_overrides s config with
  | TypeError =>
      csv_set && not_a_dictionary (dict_get "data" config)
      || level_set && not_a_dictionary (dict_get "logging" config) = true
  | Returns config' =>
      csv_set && not_a_dictionary (dict_get "data" config)
      || level_set && not_a_dictionary (dict_get "logging" config) = false
      ∧ get_in "data" "csv_file" config'
        = (if csv_set then Some (YStr (default "" (INVENTORY_CSV_FILE s)))
           else get_in "data" "csv_file" config)
  end.
Proof.
  cbv zeta. unfold _apply_env_overrides.
  destruct (PyStr.truthy_opt (INVENTORY_CSV_FILE s)) eqn:Hcsv; cbn [andb orb].
  - pose proof (set_in_section_outcome "data" "csv_file"
                  (YStr (default "" (INVENTORY_CSV_FILE s))) config) as Hdata.
    destruct (set_in_section "data" "csv_file" _ config) as [config1|]; [|by rewrite Hdata].
    destruct Hdata as (Hd & Hget & Hother). rewrite Hd. cbn [orb].
    destruct (PyStr.truthy_opt (INVENTORY_LOG_LEVEL s)) eqn:Hlevel; cbn [andb]; [|done].
    pose proof (set_in_section_outcome "logging" "level"
                  (YStr (default "" (INVENTORY_LOG_LEVEL s))) config1) as Hlog.
    rewrite (Hother "logging") in Hlog by done.
    destruct (set_in_section "logging" "level" _ config1) as [config2|]; [|done].
    destruct Hlog as (Hl & _ & Hother2). split; [done|].
    unfold get_in in *. by rewrite (Hother2 "data").
  - destruct (PyStr.truthy_opt (INVENTORY_LOG_LEVEL s)) eqn:Hlevel; cbn [andb]; [|done].
    pose proof (set_in_section_outcome "logging" "level"
                  (YStr (default "" (INVENTORY_LOG_LEVEL s))) config) as Hlog.
    destruct (set_in_section "logging" "level" _ config) as [config2|]; [|done].
    destruct Hlog as (Hl & _ & Hother2). split; [done|].
    unfold get_in in *. by rewrite (Hother2 "data").
Qed.

(** X20. Where the path of the source table comes from. On a first load
    (nothing cached) of a configuration file whose keys are distinct,
    [load_config] raises [TypeError] exactly when an environment variable is
    set while the file gives its section ([data] for [INVENTORY_CSV_FILE],
    [logging] for [INVENTORY_LOG_LEVEL]) as something that is not a
    dictionary. Otherwise it returns a configuration, which it caches, and
    [data.csv_file] is there the environment variable when that is set,
    else the value of the file when the file has one, else
    [inventory_source/hosts.csv]; it is missing when the file gives [data]
    as something that is not a dictionary. *)
Theorem csv_file_precedence (s : Setting) :
  _config_cache s = None →
  (∀ yaml, config_file s = Some (Ok yaml) → well_formed yaml) →
  let csv_set := PyStr.truthy_opt (INVENTORY_CSV_FILE s) in
  let level_set := PyStr.truthy_opt (INVENTORY_LOG_LEVEL s) in
  if csv_set && not_a_dictionary (yaml_section s "data")
     || level_set && not_a_dictionary (yaml_section s "logging")
  then load_config s = (s, TypeError)
  else ∃ config,
         load_config s = (with_cache (Some config) s, Returns config)
         ∧ get_in "data" "csv_file" config
           = if csv_set then Some (YStr (default "" (INVENTORY_CSV_FILE s)))
             else match yaml_section s "data" with
                  | None => Some (YStr "inventory_source/hosts.csv")
                  | Some (YDict entries) =>
                      Some (default (YStr "inventory_source/hosts.csv")
                              (dict_get "csv_file" entries))
                  | Some _ => None
                  end.
Proof.
  intros Hcache Hwf. cbv zeta. rewrite load_config_unfold by done.
  set (config0 := match config_file s with
                  | Some (Ok (YDict yaml_config)) =>
                      _deep_merge (minimal_defaults (VERSION s)) yaml_config
                  | _ => minimal_defaults (VERSION s)
                  end).
  pose proof (merged_section s "data" Hwf) as Hdata.
  pose proof (merged_section s "logging" Hwf) as Hlogging.
  fold config0 in Hdata, Hlogging. fold (yaml_section s "data") in Hdata.
  fold (yaml_section s "logging") in Hlogging.
  change (dict_get "data" (minimal_defaults (VERSION s)))
    with (Some (YDict [("csv_file", YStr "inventory_source/hosts.csv")])) in Hdata.
  change (dict_get "logging" (minimal_defaults (VERSION s)))
    with (Some (YDict [("level", YStr "INFO")])) in Hlogging.
  assert (not_a_dictionary (dict_get "data" config0)
          = not_a_dictionary (yaml_section s "data")) as Hnd_data.
  { rewrite Hdata. by destruct (yaml_section s "data") as [[]|]. }
  assert (not_a_dictionary (dict_get "logging" config0)
          = not_a_dictionary (yaml_section s "logging")) as Hnd_logging.
  { rewrite Hlogging. by destruct (yaml_section s "logging") as [[]|]. }
  assert (get_in "data" "csv_file" config0
          = match yaml_section s "data" with
            | None => Some (YStr "inventory_source/hosts.csv")
            | Some (YDict entries) =>
                Some (default (YStr "inventory_source/hosts.csv")
                        (dict_get "csv_file" entries))
            | Some _ => None
            end) as Hcsv.
  { unfold get_in. rewrite Hdata.
    assert (∀ value, yaml_section s "data" = Some value → well_formed value) as Hwf_data.
    { unfold yaml_section. intros value Hvalue.
      destruct (config_file s) as [[yaml|e]|]; try done.
      destruct yaml as [| | | | |yaml_config]; try done.
      destruct (proj1 (well_formed_dict _) (Hwf _ eq_refl)) as [_ Hall].
      rewrite Forall_forall in Hall. apply (Hall _ (dict_get_Some _ _ _ Hvalue)). }
    destruct (yaml_section s "data") as [[| | | | |entries]|]; try done.
    rewrite deep_merge_lookup
      by (by destruct (proj1 (well_formed_dict _) (Hwf_data _ eq_refl))).
    by destruct (dict_get "csv_file" entries) as [[]|]. }
  pose proof (apply_env_overrides_outcome s config0) as Hout. cbv zeta in Hout.
  rewrite Hnd_data, Hnd_logging, Hcsv in Hout.
  destruct (_apply_env_overrides s config0) as [config|].
  - destruct Hout as [-> Hget]. eauto.
  - by rewrite Hout.
Qed.

Lemma csv_file_precedence_witness :
  ∃ config,
    load_config
      {| VERSION := "2.0.0";
         config_file := Some (Ok (YDict [("data", YDict [("csv_file", YStr "file.csv")])]));
         INVENTORY_CSV_FILE := Some "environment.csv";
         INVENTORY_LOG_LEVEL := None;
         _config_cache := None |}
    = (with_cache (Some config)
         {| VERSION := "2.0.0";
            config_file :=
              Some (Ok (YDict [("data", YDict [("csv_file", YStr "file.csv")])]));
            INVENTORY_CSV_FILE := Some "environment.csv";
            INVENTORY_LOG_LEVEL := None;
            _config_cache := None |},
       Returns config)
    ∧ get_in "data" "csv_file" config = Some (YStr "environment.csv").
Proof.
  set (s := {| VERSION := "2.0.0";
               config_file :=
                 Some (Ok (YDict [("data", YDict [("csv_file", YStr "file.csv")])]));
               INVENTORY_CSV_FILE := Some "environment.csv";
               INVENTORY_LOG_LEVEL := None;
               _config_cache := None |}).
  assert (∀ yaml, config_file s = Some (Ok yaml) → well_formed yaml) as Hwf.
  { intros yaml [= <-]. cbn. repeat split; repeat constructor; set_solver. }
  exact (csv_file_precedence s eq_refl Hwf).
Defined.

(** X21. The configuration is read once. After [load_config] has returned
    a configuration, every later call returns that same configuration and
    changes nothing, whatever has become of the file and of the environment
    variables; only [reload_config] reads them again, and it does what a
    first load does. A load that raised has cached nothing. *)
Theorem configuration_is_read_once (s s' : Setting) (outcome : Outcome Dictionary) :
  load_config s = (s', outcome) →
  match outcome with
  | Returns config =>
      _config_cache s' = Some config
      ∧ ∀ file csv_file log_level,
          let later := {| VERSION := VERSION s'; config_file := file;
                          INVENTORY_CSV_FILE := csv_file;
                          INVENTORY_LOG_LEVEL := log_level;
                          _config_cache := _config_cache s' |} in
          load_config later = (later, Returns config)
          ∧ get_config later = (later, Returns config)
          ∧ reload_config later = load_config (with_cache None later)
  | TypeError => s' = s ∧ _config_cache s = None
  end.
Proof.
  unfold load_config at 1. destruct (_config_cache s) as [cached|] eqn:Hcache.
  - intros [= <- <-]. split; [done|]. intros file csv_file log_level. cbv zeta.
    unfold get_config, load_config. cbn [_config_cache]. by rewrite Hcache.
  - destruct (_apply_env_overrides s _) as [config|]; intros [= <- <-]; [|done].
    split; [done|]. intros file csv_file log_level. cbv zeta.
    unfold get_config, load_config. by cbn [_config_cache with_cache].
Qed.

Lemma configuration_is_read_once_witness :
  load_config
    {| VERSION := "2.0.0"; config_file := None; INVENTORY_CSV_FILE := None;
       INVENTORY_LOG_LEVEL := None;
       _config_cache := Some (minimal_defaults "2.0.0") |}
  = ({| VERSION := "2.0.0"; config_file := None; INVENTORY_CSV_FILE := None;
        INVENTORY_LOG_LEVEL := None;
        _config_cache := Some (minimal_defaults "2.0.0") |},
     Returns (minimal_defaults "2.0.0")).
Proof.
  set (s0 := {| VERSION := "2.0.0"; config_file := None; INVENTORY_CSV_FILE := None;
                INVENTORY_LOG_LEVEL := None; _config_cache := None |}).
  destruct (configuration_is_read_once s0
              (with_cache (Some (minimal_defaults "2.0.0")) s0)
              (Returns (minimal_defaults "2.0.0")) eq_refl) as [_ Hlater].
  exact (proj1 (Hlater None None None)).
Defined.

(** ** The generate command *)

Lemma run_loaded_returns lib cfg hosts environments dry_run w :
  ∃ w' report, run_loaded lib cfg hosts environments dry_run w = (w', Ok report).
Proof.
  unfold run_loaded.
  destruct (cleanup_returns cfg hosts dry_run w) as [count Hcount].
  destruct (cleanup_orphaned_host_vars cfg hosts dry_run w) as [w1 r].
  cbn [snd] in Hcount. subst r.
  destruct (cleanup_orphaned_group_vars lib hosts dry_run); [|by eexists _, _].
  destruct (generate_environments_returns lib cfg hosts dry_run
              (target_environments cfg environments) [] w1) as [files Hfiles].
  destruct (generate_environments _ _ _ _ _ _ w1) as [w2 r]. cbn [snd] in Hfiles.
  subst r. by eexists _, _.
Qed.

(** [generate_inventories] never raises: it returns a report. *)
Lemma generate_inventories_returns lib cfg environments dry_run w :
  ∃ w' report, generate_inventories lib cfg environments dry_run w = (w', Ok report).
Proof.
  rewrite generate_inventories_unfold.
  destruct ((load_hosts lib cfg None w).2) as [[|h hosts]|e]; try by eexists _, _.
  apply run_loaded_returns.
Qed.

(** X22. What the command reports for a real run. [execute] returns a
    result in every case, and the result says success exactly when the
    source table exists. A missing table gives a failure whose message
    carries the prefix twice and leaves the world as it is. With the table
    there, the result carries the generated files and the number of
    orphans of the report of the manager, whatever that report says: when
    the manager gives up because no valid host was found, the command
    still reports success, with no generated file. *)
Theorem command_succeeds_when_the_table_exists (lib : Library) (cfg : Config)
  (args : GenerateCommand.Args) (w : World) :
  GenerateCommand.args_dry_run args = false →
  let manager := GenerateCommand.manager_config cfg args in
  ∃ w' result,
    GenerateCommand.execute lib cfg args w = (w', Ok result)
    ∧ GenerateCommand.success result = bool_decide (is_Some (csv_source w))
    ∧ (csv_source w = None →
       w' = w ∧ GenerateCommand.data result = None
       ∧ GenerateCommand.error result
         = Some ("CSV file not found: CSV file not found: " +:+ csv_file cfg))
    ∧ (is_Some (csv_source w) →
       ∃ report,
         generate_inventories lib manager (GenerateCommand.args_environments args) false w
         = (w', Ok report)
         ∧ GenerateCommand.error result = None
         ∧ GenerateCommand.data result
           = Some (GenerateCommand.Generated (report_generated_files report)
                     (GenerateCommand.report_orphaned_files_removed report)
                     (inventory_dir cfg) (GenerateCommand.args_inventory_key args)))
    ∧ ((load_hosts lib manager None w).2 = Ok [] →
       w' = w ∧ GenerateCommand.success result = true
       ∧ GenerateCommand.data result
         = Some (GenerateCommand.Generated [] 0 (inventory_dir cfg)
                   (GenerateCommand.args_inventory_key args))).
Proof.
  intros Hdry. cbv zeta.
  unfold GenerateCommand.execute, try_except, GenerateCommand.new_manager.
  unfold mbind at 1, IO_bind at 1.
  destruct (csv_source w) as [table|] eqn:Hsource.
  - rewrite Hdry. unfold mbind, IO_bind, mret, IO_ret.
    destruct (generate_inventories_returns lib (GenerateCommand.manager_config cfg args)
                (GenerateCommand.args_environments args) false w)
      as (w' & report & Hrun).
    rewrite Hrun. eexists _, _. split; [done|]. cbn [GenerateCommand.success].
    split; [by rewrite bool_decide_true|]. split; [done|]. split; [by eauto|].
    intros Hload. rewrite generate_inventories_unfold, Hload in Hrun.
    by injection Hrun as <- <-.
  - eexists _, _. split; [done|]. cbn [GenerateCommand.success].
    split; [by rewrite bool_decide_false by (by intros [? ?])|]. split; [done|].
    split; [by intros [? ?]|].
    intros Hload. exfalso. revert Hload.
    unfold load_hosts, load_csv_data, mbind, IO_bind. cbn [csv_source]. by rewrite Hsource.
Qed.

Lemma command_succeeds_when_the_table_exists_witness :
  ∃ w' result,
    GenerateCommand.execute Sample.library Sample.config
      {| GenerateCommand.args_output_dir := "inventory";
         GenerateCommand.args_host_vars_dir := "inventory/host_vars";
         GenerateCommand.args_environments := None;
         GenerateCommand.args_dry_run := false;
         GenerateCommand.args_inventory_key := "hostname" |}
      (Sample.without_source (Sample.world []))
    = (w', Ok result)
    ∧ GenerateCommand.success result = false
    ∧ GenerateCommand.error result
      = Some "CSV file not found: CSV file not found: inventory_source/hosts.csv".
Proof.
  destruct (command_succeeds_when_the_table_exists Sample.library Sample.config
              {| GenerateCommand.args_output_dir := "inventory";
                 GenerateCommand.args_host_vars_dir := "inventory/host_vars";
                 GenerateCommand.args_environments := None;
                 GenerateCommand.args_dry_run := false;
                 GenerateCommand.args_inventory_key := "hostname" |}
              (Sample.without_source (Sample.world [])) eq_refl)
    as (w' & result & Hrun & Hsuccess & Hmissing & _).
  exists w', result. split; [exact Hrun|]. split; [exact Hsuccess|].
  exact (proj2 (proj2 (Hmissing eq_refl))).
Defined.

Lemma stats_get_set_eq env value env_stats :
  GenerateCommand.stats_get env (GenerateCommand.stats_set env value env_stats)
  = Some value.
Proof.
  induction env_stats as [|[k v] env_stats IH]; cbn.
  - by rewrite String.eqb_refl.
  - destruct (String.eqb k env) eqn:Hk; cbn; by rewrite Hk.
Qed.

Lemma stats_get_set_ne env env' value env_stats :
  env ≠ env' →
  GenerateCommand.stats_get env' (GenerateCommand.stats_set env value env_stats)
  = GenerateCommand.stats_get env' env_stats.
Proof.
  intros Hne. induction env_stats as [|[k v] env_stats IH]; cbn.
  - by rewrite (proj2 (String.eqb_neq _ _) Hne).
  - destruct (String.eqb_spec k env) as [->|Hk]; cbn.
    + by rewrite (proj2 (String.eqb_neq _ _) Hne).
    + by rewrite IH.
Qed.

Lemma stats_get_count_host env env_stats host :
  GenerateCommand.stats_get env (GenerateCommand.count_host env_stats host)
  = if decide (Models.environment host = env)
    then let counts := default (0, 0) (GenerateCommand.stats_get env env_stats) in
         Some (if is_active host then (S counts.1, counts.2) else (counts.1, S counts.2))
    else GenerateCommand.stats_get env env_stats.
Proof.
  unfold GenerateCommand.count_host. cbv zeta.
  destruct (decide (Models.environment host = env)) as [<-|Hne].
  - destruct (GenerateCommand.stats_get (Models.environment host) env_stats)
      as [counts|] eqn:Hget.
    + rewrite Hget. cbn [default from_option id].
      destruct (is_active host); by rewrite stats_get_set_eq.
    + rewrite stats_get_set_eq. cbn [default from_option id fst snd].
      destruct (is_active host); by rewrite stats_get_set_eq.
  - destruct (GenerateCommand.stats_get (Models.environment host) env_stats)
      as [counts|] eqn:Hget.
    + destruct (is_active host); by rewrite stats_get_set_ne.
    + destruct (is_active host); by rewrite !stats_get_set_ne.
Qed.

(** What the loop over the records leaves under an environment: nothing
    when no record has it, the numbers of its active and of its other
    records otherwise. *)
Lemma stats_get_foldl_count_host env env_stats hosts :
  GenerateCommand.stats_get env (foldl GenerateCommand.count_host env_stats hosts)
  = let records := filter (λ h, Models.environment h = env) hosts in
    let counts := default (0, 0) (GenerateCommand.stats_get env env_stats) in
    match records with
    | [] => GenerateCommand.stats_get env env_stats
    | _ :: _ =>
        Some (counts.1 + length (filter (λ h, is_active h = true) records),
              counts.2 + length (filter (λ h, is_active h ≠ true) records))
    end.
Proof.
  revert env_stats. induction hosts as [|h hosts IH]; intros env_stats; [done|].
  cbn [foldl]. rewrite IH. cbv zeta. rewrite stats_get_count_host.
  destruct (decide (Models.environment h = env)) as [Henv|Henv].
  - rewrite (filter_cons_True _ h) by done. cbv zeta.
    cbn [default from_option id].
    set (counts := default (0, 0) (GenerateCommand.stats_get env env_stats)).
    destruct (is_active h) eqn:Hactive.
    + rewrite !(filter_cons_True (λ h, is_active h = true)) by done.
      rewrite !(filter_cons_False (λ h, is_active h ≠ true)) by (by intros Hn; apply Hn).
      cbn [fst snd length].
      destruct (filter (λ h0, Models.environment h0 = env) hosts) as [|h' records];
        [rewrite !filter_nil; cbn [length]|]; f_equal; f_equal; lia.
    + rewrite !(filter_cons_False (λ h, is_active h = true)) by (by rewrite Hactive).
      rewrite !(filter_cons_True (λ h, is_active h ≠ true)) by (by rewrite Hactive).
      cbn [fst snd length].
      destruct (filter (λ h0, Models.environment h0 = env) hosts) as [|h' records];
        [rewrite !filter_nil; cbn [length]|]; f_equal; f_equal; lia.
  - by rewrite (filter_cons_False _ h) by done.
Qed.

Lemma foldl_count_environment env_stats totals target_environments :
  foldl (GenerateCommand.count_environment env_stats) totals target_environments
  = (totals.1
     + length (filter (λ env, is_Some (GenerateCommand.stats_get env env_stats))
                 target_environments),
     totals.2
     + sum_list ((λ env, (default (0, 0) (GenerateCommand.stats_get env env_stats)).1)
                   <$> target_environments)).
Proof.
  revert totals. induction target_environments as [|env envs IH]; intros [files vars].
  { cbn. f_equal; lia. }
  cbn [foldl]. rewrite IH. unfold GenerateCommand.count_environment.
  destruct (GenerateCommand.stats_get env env_stats) as [counts|] eqn:Hget.
  - rewrite filter_cons_True by (by rewrite Hget). cbn [fmap list_fmap sum_list].
    rewrite Hget. cbn [fst snd default from_option id length]. f_equal; lia.
  - rewrite filter_cons_False by (rewrite Hget; by intros [? ?]).
    cbn [fmap list_fmap sum_list]. rewrite Hget. cbn [fst snd default from_option id].
    f_equal; lia.
Qed.

Lemma generate_inventories_dry_run lib cfg environments w :
  ∃ report, generate_inventories lib cfg environments true w = (w, Ok report).
Proof.
  destruct (generate_inventories_returns lib cfg environments true w)
    as (w' & report & Hrun).
  assert (w' = w) as ->; [|eauto].
  change w' with (w', Ok report : result Report).1. rewrite <- Hrun.
  rewrite generate_inventories_unfold.
  destruct ((load_hosts lib cfg None w).2) as [[|h hosts]|e]; try done.
  apply run_loaded_dry_run.
Qed.

Lemma real_run_report lib cfg environments loaded removed w :
  io_ok w → (load_hosts lib cfg None w).2 = Ok loaded → loaded ≠ [] →
  cleanup_orphaned_group_vars lib loaded false = Ok removed →
  ∃ w' orphaned_count,
    generate_inventories lib cfg environments false w
    = (w', Ok (Success
                 ((λ env, inventory_dir cfg +:+ "/" +:+ environment_file cfg env)
                    <$> filter (λ env, 0 < length (environment_hosts cfg loaded env))
                          (target_environments cfg environments))
                 false (target_environments cfg environments) orphaned_count removed)).
Proof.
  intros Hio Hload Hne Hgroup.
  rewrite (generate_inventories_loaded lib cfg environments false w loaded) by done.
  unfold run_loaded.
  pose proof (cleanup_touches cfg loaded false w) as Htouch.
  destruct (cleanup_returns cfg loaded false w) as [count Hcount].
  destruct (cleanup_orphaned_host_vars cfg loaded false w) as [wc r].
  cbn [fst snd] in *. subst r. rewrite Hgroup.
  rewrite generate_environments_ok by (by eapply io_ok_only_touches).
  rewrite environment_outputs_filter. cbn [app]. eauto.
Qed.

(** X23. The preview of the command. A dry run of the command for given
    target environments, none of which is a code of the table of locations,
    changes nothing and reports success. The number of inventory files it
    announces is the number of target environments that have a record, and
    the number of host-variable files is the number of active records of
    the target environments, counted once per target. The first number is
    the number of files a real run for the same targets generates, when
    reading and writing work and the clean-up of group variables returns. *)
Theorem preview_matches_the_run (lib : Library) (cfg : Config)
  (args : GenerateCommand.Args) (targets : list string) (loaded : list Host)
  (w : World) :
  GenerateCommand.args_dry_run args = true →
  GenerateCommand.args_environments args = Some targets → targets ≠ [] →
  (∀ env, env ∈ targets → get_environment_info_from_code cfg env = None) →
  let manager := GenerateCommand.manager_config cfg args in
  (load_hosts lib manager None w).2 = Ok loaded →
  let inventory_files :=
    length (filter (λ env, 0 < length (environment_hosts manager loaded env)) targets) in
  let host_vars_files :=
    sum_list ((λ env, length (filter (λ h, is_active h = true)
                                (environment_hosts manager loaded env))) <$> targets) in
  ∃ result env_stats orphaned_files,
    GenerateCommand.execute lib cfg args w = (w, Ok result)
    ∧ GenerateCommand.success result = true
    ∧ GenerateCommand.data result
      = Some (GenerateCommand.WouldGenerate inventory_files host_vars_files targets
                env_stats orphaned_files
                (GenerateCommand.args_output_dir args)
                (GenerateCommand.args_host_vars_dir args))
    ∧ (∀ w' report removed,
         io_ok w → loaded ≠ [] →
         cleanup_orphaned_group_vars lib loaded false = Ok removed →
         generate_inventories lib manager (Some targets) false w = (w', Ok report) →
         length (report_generated_files report) = inventory_files).
Proof.
  intros Hdry Htargets Hne Hcodes. cbv zeta. intros Hload.
  set (manager := GenerateCommand.manager_config cfg args) in *.
  assert (∀ env, env ∈ targets →
            environment_hosts manager loaded env
            = filter (λ h, Models.environment h = env) loaded) as Hhosts.
  { intros env Henv. unfold environment_hosts, environment_name.
    change (get_environment_info_from_code manager env)
      with (get_environment_info_from_code cfg env).
    rewrite (Hcodes env Henv). apply list_filter_iff. intros h. tauto. }
  set (env_stats := foldl GenerateCommand.count_host [] loaded).
  assert (∀ env, GenerateCommand.stats_get env env_stats
                 = match filter (λ h, Models.environment h = env) loaded with
                   | [] => None
                   | records =>
                       Some (length (filter (λ h, is_active h = true) records),
                             length (filter (λ h, is_active h ≠ true) records))
                   end) as Hstats.
  { intros env. unfold env_stats. rewrite stats_get_foldl_count_host. cbv zeta.
    by destruct (filter (λ h, Models.environment h = env) loaded). }
  assert (csv_source w ≠ None) as Hsource.
  { intros Hnone. revert Hload. unfold load_hosts, load_csv_data, mbind, IO_bind.
    cbn [csv_source]. by rewrite Hnone. }
  destruct (generate_inventories_dry_run lib manager (Some targets) w) as [report Hrun].
  pose proof (load_hosts_pure lib manager None w) as Hpure.
  destruct (load_hosts lib manager None w) as [w1 r] eqn:Hl. cbn [fst snd] in *.
  subst w1 r.
  eexists _, env_stats, (GenerateCommand.report_orphaned_files_removed report).
  split; [|split; [|split]].
  - unfold GenerateCommand.execute, try_except, GenerateCommand.new_manager.
    unfold mbind at 1, IO_bind at 1.
    destruct (csv_source w) as [table|]; [|by destruct Hsource]. rewrite Hdry.
    unfold GenerateCommand._dry_run_generate, try_except.
    unfold mbind, IO_bind, mret, IO_ret. rewrite Htargets. fold manager.
    rewrite Hrun, Hl. reflexivity.
  - done.
  - cbn [GenerateCommand.data]. fold env_stats.
    assert (match targets with env :: rest => env :: rest | [] => env_stats.*1 end
            = targets) as -> by (by destruct targets).
    rewrite foldl_count_environment. cbn [fst snd]. rewrite !Nat.add_0_l.
    do 2 f_equal.
    + f_equal. apply filter_ext_in. intros env Henv. rewrite Hstats, Hhosts by done.
      destruct (filter (λ h, Models.environment h = env) loaded); cbn [length].
      * split; [by intros [? ?]|lia].
      * split; [lia|by eexists].
    + f_equal. apply list_fmap_ext. intros i env Henv%list_elem_of_lookup_2.
      rewrite Hstats, Hhosts by done.
      by destruct (filter (λ h, Models.environment h = env) loaded).
  - intros w' report' removed Hio Hloaded Hgroup Hreal.
    destruct (real_run_report lib manager (Some targets) loaded removed w
                Hio (f_equal snd Hl) Hloaded Hgroup) as (w'' & count & Hreport).
    rewrite Hreport in Hreal. injection Hreal as <- <-.
    cbn [report_generated_files]. rewrite length_fmap.
    by destruct targets.
Qed.

Lemma preview_matches_the_run_witness :
  let args :=
    {| GenerateCommand.args_output_dir := "inventory";
       GenerateCommand.args_host_vars_dir := "inventory/host_vars";
       GenerateCommand.args_environments := Some ["production"; "test"];
       GenerateCommand.args_dry_run := true;
       GenerateCommand.args_inventory_key := "hostname" |} in
  let manager := GenerateCommand.manager_config Sample.config args in
  let inventory_files :=
    length (filter (λ env, 0 < length (environment_hosts manager Sample.loaded env))
              ["production"; "test"]) in
  let host_vars_files :=
    sum_list ((λ env, length (filter (λ h, is_active h = true)
                                (environment_hosts manager Sample.loaded env)))
                <$> ["production"; "test"]) in
  inventory_files = 1 ∧ host_vars_files = 1
  ∧ ∃ result env_stats orphaned_files,
      GenerateCommand.execute Sample.library Sample.config args (Sample.world [])
      = (Sample.world [], Ok result)
      ∧ GenerateCommand.success result = true
      ∧ GenerateCommand.data result
        = Some (GenerateCommand.WouldGenerate inventory_files host_vars_files
                  ["production"; "test"] env_stats orphaned_files
                  "inventory" "inventory/host_vars").
Proof.
  cbv zeta.
  split; [by vm_compute|]. split; [by vm_compute|].
  assert ((load_hosts Sample.library
             (GenerateCommand.manager_config Sample.config
                {| GenerateCommand.args_output_dir := "inventory";
                   GenerateCommand.args_host_vars_dir := "inventory/host_vars";
                   GenerateCommand.args_environments := Some ["production"; "test"];
                   GenerateCommand.args_dry_run := true;
                   GenerateCommand.args_inventory_key := "hostname" |})
             None (Sample.world [])).2
          = Ok Sample.loaded) as Hload by (vm_compute; reflexivity).
  destruct (preview_matches_the_run Sample.library Sample.config
              {| GenerateCommand.args_output_dir := "inventory";
                 GenerateCommand.args_host_vars_dir := "inventory/host_vars";
                 GenerateCommand.args_environments := Some ["production"; "test"];
                 GenerateCommand.args_dry_run := true;
                 GenerateCommand.args_inventory_key := "hostname" |}
              ["production"; "test"] Sample.loaded (Sample.world [])
              eq_refl eq_refl ltac:(discriminate) (λ env _, lookup_empty _) Hload)
    as (result & env_stats & orphaned_files & Hrun & Hsuccess & Hdata & _).
  exists result, env_stats, orphaned_files. split; [exact Hrun|].
  split; [exact Hsuccess|exact Hdata].
Defined.
